(** * CCPM / PMS plugin: the multi-backend API adapter and its command handlers

    A shallow embedding of [src/api-client.js] (class [PMSAPI]), of the
    plugin entry point (class [PMSPlugin]), of [src/config.js] (class
    [ConfigManager]), of the argument parsers of [TaskCommands], of four
    commands of [CriticalChainCommands] and of the formatters they use,
    together with the properties the specification states about them and
    further properties read off the code.

    JavaScript values are an inductive type; objects keep their fields in
    insertion order (query strings depend on it; that JavaScript lists keys
    that are array indices first is not modelled); header sets and endpoint
    tables, which are only ever looked up by key, are finite maps.  Code that
    can raise returns a [completion]; code that mutates [this] threads the
    object through a small state-and-exception monad. *)

From Stdlib Require Import ZArith QArith Qround String Ascii List Lia Lqa.
From stdpp Require Import base strings list gmap.

#[local] Set Warnings "-register-all".
Local Open Scope string_scope.

(** ** JavaScript values *)

Module Js.

(** Numbers are modelled by the value they denote: a rational, the two
    infinities or NaN.  Binary64 rounding is outside the model; every
    comparison the code makes is against the integer literals 0, 50 and 75,
    for which the order of doubles and the order of rationals agree. *)
Inductive number : Type :=
| NaN
| PosInf
| NegInf
| Fin (q : Q).

Inductive value : Type :=
| VUndefined
| VNull
| VBool (b : bool)
| VNum (n : number)
| VStr (s : string)
| VArr (items : list value)
| VObj (fields : list (string * value)).

Definition VInt (z : Z) : value := VNum (Fin (inject_Z z)).

(** An HTTP response as the transport hands it over, and the [Error] objects
    the code throws and catches.  [err_response] is axios' [error.response]:
    present when the server answered with a non-2xx status; [err_config] is
    axios' [error.config], [undefined] on every other error. *)
Record response : Type := Response { status : Z; data : value }.

Record error : Type := MkError {
  err_name : string;
  err_message : string;
  err_response : option response;
  err_config : value
}.

Definition Error (msg : string) : error := MkError "Error" msg None VUndefined.
Definition TypeError (msg : string) : error := MkError "TypeError" msg None VUndefined.

(** The result of evaluating code that may throw. *)
Inductive completion (A : Type) : Type :=
| Normal (a : A)
| Throw (e : error).
Arguments Normal {A} a.
Arguments Throw {A} e.

Definition cbind {A B} (c : completion A) (k : A -> completion B) : completion B :=
  match c with
  | Normal a => k a
  | Throw e => Throw e
  end.

(** [try { c } catch (e) { h e }] *)
Definition try_catch {A} (c : completion A) (h : error -> completion A) : completion A :=
  match c with
  | Normal a => Normal a
  | Throw e => h e
  end.

#[export] Instance completion_ret : MRet completion := @Normal.
#[export] Instance completion_bind : MBind completion :=
  fun A B k c => cbind c k.

(** *** Comparison and truthiness *)

(** [a > b] on numbers; false as soon as one side is NaN. *)
Definition gt (a b : number) : bool :=
  match a, b with
  | NaN, _ | _, NaN => false
  | PosInf, PosInf => false
  | PosInf, _ => true
  | _, PosInf => false
  | NegInf, _ => false
  | Fin _, NegInf => true
  | Fin x, Fin y => negb (Qle_bool x y)
  end.

(** [a <= b] on numbers; false as soon as one side is NaN. *)
Definition le (a b : number) : bool :=
  match a, b with
  | NaN, _ | _, NaN => false
  | _, PosInf => true
  | PosInf, _ => false
  | NegInf, _ => true
  | Fin _, NegInf => false
  | Fin x, Fin y => Qle_bool x y
  end.

Definition isNaN (n : number) : bool :=
  match n with NaN => true | _ => false end.

(** ToBoolean *)
Definition truthy (v : value) : bool :=
  match v with
  | VUndefined | VNull => false
  | VBool b => b
  | VNum NaN => false
  | VNum (Fin q) => negb (Qeq_bool q 0)
  | VNum _ => true
  | VStr s => negb (String.eqb s "")
  | VArr _ | VObj _ => true
  end.

(** [a || b] *)
Definition or_else (a b : value) : value := if truthy a then a else b.

(** [v === 'lit'] *)
Definition is_string (v : value) (lit : string) : bool :=
  match v with
  | VStr s => String.eqb s lit
  | _ => false
  end.

(** [v !== false] *)
Definition not_false (v : value) : bool :=
  match v with
  | VBool false => false
  | _ => true
  end.

(** *** ToString *)

Definition digitChar (d : N) : ascii := ascii_of_N (48 + d).

Fixpoint digitsOf (fuel : nat) (n : N) (acc : string) : string :=
  match fuel with
  | O => acc
  | S fuel' =>
      let acc' := String (digitChar (n mod 10)) acc in
      if (n / 10 =? 0)%N then acc' else digitsOf fuel' (n / 10)%N acc'
  end.

(** The decimal digits of a natural number; it has no more of them than
    binary digits. *)
Definition showN (n : N) : string := digitsOf (S (N.size_nat n)) n "".

Definition showZ (z : Z) : string :=
  match z with
  | Z0 => "0"
  | Zpos p => showN (Npos p)
  | Zneg p => "-" +:+ showN (Npos p)
  end.

Fixpoint fractionDigits (fuel : nat) (r d : Z) : string :=
  match fuel with
  | O => ""
  | S fuel' =>
      if (r =? 0)%Z then ""
      else String (digitChar (Z.to_N ((r * 10) / d))) (fractionDigits fuel' ((r * 10) mod d)%Z d)
  end.

(** Number::toString, radix 10.  Integers print exactly; other rationals
    print their decimal expansion, cut after 17 fraction digits.  The
    number printed is the rational itself: the rounding to binary64 and the
    exponent form that JavaScript uses from 1e21 on and below 1e-6 are not
    modelled. *)
Definition numberToString (n : number) : string :=
  match n with
  | NaN => "NaN"
  | PosInf => "Infinity"
  | NegInf => "-Infinity"
  | Fin q =>
      let r := Qred q in
      let num := Qnum r in
      let den := Zpos (Qden r) in
      if (den =? 1)%Z then showZ num
      else
        (if (num <? 0)%Z then "-" else "")
        +:+ showZ (Z.abs num / den)%Z +:+ "."
        +:+ fractionDigits 17 (Z.abs num mod den)%Z den
  end.

(** The conversion a template literal applies to an interpolated value. *)
Fixpoint toString (v : value) : string :=
  match v with
  | VUndefined => "undefined"
  | VNull => "null"
  | VBool true => "true"
  | VBool false => "false"
  | VNum n => numberToString n
  | VStr s => s
  | VArr items =>
      (fix join (l : list value) : string :=
         match l with
         | [] => ""
         | x :: rest =>
             let sx := match x with
                       | VUndefined | VNull => ""
                       | _ => toString x
                       end in
             match rest with
             | [] => sx
             | _ => sx +:+ "," +:+ join rest
             end
         end) items
  | VObj _ => "[object Object]"
  end.

(** *** Objects *)

Fixpoint lookup_field (k : string) (fs : list (string * value)) : value :=
  match fs with
  | [] => VUndefined
  | (k', v) :: rest => if String.eqb k k' then v else lookup_field k rest
  end.

Fixpoint has_field (k : string) (fs : list (string * value)) : bool :=
  match fs with
  | [] => false
  | (k', _) :: rest => String.eqb k k' || has_field k rest
  end.

(** [obj[k] = v]: an existing key keeps its position, a new one goes last. *)
Fixpoint set_field (k : string) (v : value) (fs : list (string * value))
  : list (string * value) :=
  match fs with
  | [] => [(k, v)]
  | (k', v') :: rest =>
      if String.eqb k k' then (k, v) :: rest else (k', v') :: set_field k v rest
  end.

(** [v.k].  Reading a property of [undefined] or [null] throws; on the other
    non-objects the property names this program reads (status, message, id,
    ...) are not defined, so the read gives [undefined]. *)
Definition get (v : value) (k : string) : completion value :=
  match v with
  | VUndefined | VNull =>
      Throw (TypeError ("Cannot read properties of " +:+ toString v
                        +:+ " (reading '" +:+ k +:+ "')"))
  | VObj fs => Normal (lookup_field k fs)
  | _ => Normal VUndefined
  end.

(** [v?.k] *)
Definition get_opt (v : value) (k : string) : value :=
  match v with
  | VObj fs => lookup_field k fs
  | _ => VUndefined
  end.

End Js.

Import Js.

(** ** Text helpers *)

(** The double quote, for the template literals that contain one. *)
Definition dq : string := String (ascii_of_nat 34) "".

Definition isDigit (c : ascii) : bool :=
  let n := nat_of_ascii c in (48 <=? n)%nat && (n <=? 57)%nat.

Definition isAsciiAlpha (c : ascii) : bool :=
  let n := nat_of_ascii c in
  ((65 <=? n)%nat && (n <=? 90)%nat) || ((97 <=? n)%nat && (n <=? 122)%nat).

Definition hexDigit (n : nat) : ascii :=
  match String.get n "0123456789ABCDEF" with
  | Some c => c
  | None => "0"%char
  end.

(** One byte under the application/x-www-form-urlencoded serializer. *)
Definition formEncodeByte (c : ascii) : string :=
  let n := nat_of_ascii c in
  if isDigit c || isAsciiAlpha c
     || (n =? 42)%nat || (n =? 45)%nat || (n =? 46)%nat || (n =? 95)%nat
  then String c ""
  else if (n =? 32)%nat then "+"
  else String "%"%char (String (hexDigit (n / 16)) (String (hexDigit (n mod 16)) "")).

Fixpoint formEncode (s : string) : string :=
  match s with
  | EmptyString => ""
  | String c rest => formEncodeByte c +:+ formEncode rest
  end.

(** [URLSearchParams.prototype.toString] on a list of name/value pairs. *)
Fixpoint formSerialize (ps : list (string * string)) : string :=
  match ps with
  | [] => ""
  | (k, v) :: rest =>
      let kv := formEncode k +:+ "=" +:+ formEncode v in
      match rest with
      | [] => kv
      | _ => kv +:+ "&" +:+ formSerialize rest
      end
  end.

Definition base64Char (n : N) : ascii :=
  match String.get (N.to_nat n)
          "ABCDEFGHIJKLMNOPQRSTUVWXYZabcdefghijklmnopqrstuvwxyz0123456789+/" with
  | Some c => c
  | None => "="%char
  end.

Fixpoint base64Bytes (l : list N) : string :=
  match l with
  | [] => ""
  | [a] =>
      let n := (a * 65536)%N in
      String (base64Char (n / 262144)) (String (base64Char ((n / 4096) mod 64)) "==")
  | [a; b] =>
      let n := (a * 65536 + b * 256)%N in
      String (base64Char (n / 262144)) (String (base64Char ((n / 4096) mod 64))
        (String (base64Char ((n / 64) mod 64)) "="))
  | a :: b :: c :: rest =>
      let n := (a * 65536 + b * 256 + c)%N in
      String (base64Char (n / 262144)) (String (base64Char ((n / 4096) mod 64))
        (String (base64Char ((n / 64) mod 64)) (String (base64Char (n mod 64))
          (base64Bytes rest))))
  end.

(** [Buffer.from(s).toString('base64')] *)
Definition base64 (s : string) : string :=
  base64Bytes (map N_of_ascii (list_ascii_of_string s)).

(** [s.replace(/\/$/, '')]: drop one trailing slash. *)
Fixpoint stripTrailingSlash (s : string) : string :=
  match s with
  | EmptyString => ""
  | String c rest =>
      match rest with
      | EmptyString => if Ascii.eqb c "/"%char then "" else s
      | _ => String c (stripTrailingSlash rest)
      end
  end.

(** ** The HTTP client (axios) as the adapter uses it *)

Inductive verb : Type := GET | POST | PUT.

(** What reaches the transport: the verb, the first argument of
    [client.get/post/put] (a string, or [undefined] when the table had no
    entry), the payload if any, and the headers attached at send time. *)
Record request : Type := Request {
  req_method : verb;
  req_url : value;
  req_body : option value;
  req_headers : gmap string string
}.

(** The promise the transport returns, once settled.  axios rejects on a
    network failure ([err_response = None]) and on a non-2xx status
    ([err_response = Some r]). *)
Inductive settled : Type :=
| Fulfilled (r : response)
| Rejected (e : error).

(** What the surrounding process supplies. *)
Record host : Type := Host {
  (** [process.env.NODE_ENV === 'development'] *)
  development : bool;
  (** the network behind axios *)
  transport : request -> settled;
  (** [new URLSearchParams(init)] for an [init] that is not a plain object
      (a string to parse, a sequence of pairs, ...) *)
  searchParamsInit : value -> completion (list (string * string))
}.

(** The part of an axios instance the adapter touches: [defaults.baseURL],
    [defaults.timeout], the string-valued entries of [defaults.headers], and
    the nested [defaults.headers.common] object.  [axios.create] stores the
    headers of its config as entries of [defaults.headers] itself, next to
    the [common] object of the library defaults. *)
Record axios : Type := Axios {
  defaults_baseURL : string;
  defaults_timeout : Z;
  defaults_headers : gmap string string;
  defaults_headers_common : option (gmap string string)
}.

Definition axios_common : gmap string string :=
  {[ "Accept" := "application/json, text/plain, */*" ]}.

Definition axios_create (baseURL : string) (timeout : Z) (headers : gmap string string)
  : axios :=
  Axios baseURL timeout headers (Some axios_common).

(** The headers axios attaches to a request: [defaults.headers.common]
    overlaid with the entries of [defaults.headers] itself, which win. *)
Definition requestHeaders (c : axios) : gmap string string :=
  defaults_headers c ∪ default ∅ (defaults_headers_common c).

(** ** class PMSAPI *)

(** [wire] is a ghost field: the requests handed to the transport so far,
    oldest first. *)
Record PMSAPI : Type := MkPMSAPI {
  baseUrl : string;
  apiToken : string;
  timeout : Z;
  systemType : value;
  lastError : value;
  client : axios;
  wire : list request
}.

(** The case labels of [switch (this.systemType)]; the comparison is strict
    equality, so only the four strings select a named case. *)
Inductive profile : Type := Laracollab | Jira | Asana | Trello | Custom.

Definition profileOf (systemType : value) : profile :=
  if is_string systemType "laracollab" then Laracollab
  else if is_string systemType "jira" then Jira
  else if is_string systemType "asana" then Asana
  else if is_string systemType "trello" then Trello
  else Custom.

Definition baseHeaders : gmap string string :=
  <["User-Agent" := "PMS-Claude-Plugin/1.0.0"]> {[ "Accept" := "application/json" ]}.

Definition getDefaultHeaders (this : PMSAPI) : gmap string string :=
  match profileOf (systemType this) with
  | Laracollab =>
      <["Authorization" := "Bearer " +:+ apiToken this]> baseHeaders
  | Jira =>
      <["Content-Type" := "application/json"]>
        (<["Authorization" := "Basic " +:+ base64 (apiToken this +:+ ":")]> baseHeaders)
  | Asana =>
      <["Authorization" := "Bearer " +:+ apiToken this]> baseHeaders
  | Trello =>
      <["Authorization" := "OAuth oauth_consumer_key=" +:+ dq +:+ apiToken this +:+ dq]>
        baseHeaders
  | Custom =>
      <["X-API-Key" := apiToken this]>
        (<["Authorization" := "Bearer " +:+ apiToken this]> baseHeaders)
  end.

(** An entry of an endpoint table: a static path or a function of an id. *)
Inductive endpoint : Type :=
| Path (p : string)
| Template (f : value -> string).

Definition laracollabEndpoints : list (string * endpoint) :=
  [ ("tasks", Path "/api/ai/tasks");
    ("task", Template (fun id => "/api/ai/tasks/" +:+ toString id));
    ("createTask", Path "/api/ai/tasks");
    ("startTask", Template (fun id => "/api/ai/tasks/" +:+ toString id +:+ "/start"));
    ("completeTask", Template (fun id => "/api/ai/tasks/" +:+ toString id +:+ "/complete"));
    ("updateProgress", Template (fun id => "/api/ai/tasks/" +:+ toString id +:+ "/progress"));
    ("addComment", Template (fun id => "/api/ai/tasks/" +:+ toString id +:+ "/comment"));
    ("projects", Path "/api/ai/projects");
    ("project", Template (fun id => "/api/ai/projects/" +:+ toString id));
    ("systemInfo", Path "/api/ai/info");
    ("user", Path "/api/user");
    ("searchTasks", Path "/api/ai/tasks/search");
    ("timeLogs", Template (fun id => "/api/ai/tasks/" +:+ toString id +:+ "/time-logs"));
    ("analyzeCriticalChain",
      Template (fun id => "/api/ai/projects/" +:+ toString id +:+ "/critical-chain/analyze"));
    ("enableCCPM",
      Template (fun id => "/api/ai/projects/" +:+ toString id +:+ "/ccpm/enable"));
    ("ccpmReport",
      Template (fun id => "/api/ai/projects/" +:+ toString id +:+ "/ccpm/report"));
    ("updateBufferStatus",
      Template (fun id => "/api/ai/projects/" +:+ toString id +:+ "/ccpm/buffer-status"));
    ("recalculateCriticalChain",
      Template (fun id => "/api/ai/projects/" +:+ toString id +:+ "/critical-chain/recalculate"));
    ("getResourceLoading",
      Template (fun id => "/api/ai/projects/" +:+ toString id +:+ "/ccpm/resource-loading"));
    ("identifyFeedingBuffers",
      Template (fun id => "/api/ai/projects/" +:+ toString id +:+ "/ccpm/feeding-buffers"));
    ("criticalChainTasks",
      Template (fun id => "/api/ai/projects/" +:+ toString id +:+ "/critical-chain/tasks"));
    ("updateTaskBuffer",
      Template (fun id => "/api/ai/tasks/" +:+ toString id +:+ "/ccpm/buffer"));
    ("ccpmDashboard", Path "/api/ai/ccpm/dashboard") ].

Definition jiraEndpoints : list (string * endpoint) :=
  [ ("tasks", Path "/rest/api/2/search?jql=project=PROJECTKEY");
    ("task", Template (fun id => "/rest/api/2/issue/" +:+ toString id));
    ("createTask", Path "/rest/api/2/issue");
    ("startTask", Template (fun id => "/rest/api/2/issue/" +:+ toString id +:+ "/transitions"));
    ("completeTask", Template (fun id => "/rest/api/2/issue/" +:+ toString id +:+ "/transitions"));
    ("updateProgress", Template (fun id => "/rest/api/2/issue/" +:+ toString id));
    ("addComment", Template (fun id => "/rest/api/2/issue/" +:+ toString id +:+ "/comment"));
    ("projects", Path "/rest/api/2/project");
    ("project", Template (fun id => "/rest/api/2/project/" +:+ toString id));
    ("systemInfo", Path "/rest/api/2/serverInfo");
    ("user", Path "/rest/api/2/myself");
    ("searchTasks", Path "/rest/api/2/search");
    ("timeLogs", Template (fun id => "/rest/api/2/issue/" +:+ toString id +:+ "/worklog")) ].

Definition asanaEndpoints : list (string * endpoint) :=
  [ ("tasks", Path "/api/1.0/tasks");
    ("task", Template (fun id => "/api/1.0/tasks/" +:+ toString id));
    ("createTask", Path "/api/1.0/tasks");
    ("startTask", Template (fun id => "/api/1.0/tasks/" +:+ toString id));
    ("completeTask", Template (fun id => "/api/1.0/tasks/" +:+ toString id));
    ("updateProgress", Template (fun id => "/api/1.0/tasks/" +:+ toString id));
    ("addComment", Template (fun id => "/api/1.0/tasks/" +:+ toString id +:+ "/stories"));
    ("projects", Path "/api/1.0/projects");
    ("project", Template (fun id => "/api/1.0/projects/" +:+ toString id));
    ("systemInfo", Path "/api/1.0/users/me");
    ("user", Path "/api/1.0/users/me");
    ("searchTasks", Path "/api/1.0/tasks/search");
    ("timeLogs", Template (fun id => "/api/1.0/tasks/" +:+ toString id +:+ "/time_entries")) ].

Definition trelloEndpoints : list (string * endpoint) :=
  [ ("tasks", Path "/1/boards/BOARD_ID/cards");
    ("task", Template (fun id => "/1/cards/" +:+ toString id));
    ("createTask", Path "/1/cards");
    ("startTask", Template (fun id => "/1/cards/" +:+ toString id));
    ("completeTask", Template (fun id => "/1/cards/" +:+ toString id));
    ("updateProgress", Template (fun id => "/1/cards/" +:+ toString id));
    ("addComment", Template (fun id => "/1/cards/" +:+ toString id +:+ "/actions/comments"));
    ("projects", Path "/1/members/me/boards");
    ("project", Template (fun id => "/1/boards/" +:+ toString id));
    ("systemInfo", Path "/1/members/me");
    ("user", Path "/1/members/me");
    ("searchTasks", Path "/1/search");
    ("timeLogs", Template (fun id => "/1/cards/" +:+ toString id +:+ "/actions")) ].

Definition customEndpoints : list (string * endpoint) :=
  [ ("tasks", Path "/api/tasks");
    ("task", Template (fun id => "/api/tasks/" +:+ toString id));
    ("createTask", Path "/api/tasks");
    ("startTask", Template (fun id => "/api/tasks/" +:+ toString id +:+ "/start"));
    ("completeTask", Template (fun id => "/api/tasks/" +:+ toString id +:+ "/complete"));
    ("updateProgress", Template (fun id => "/api/tasks/" +:+ toString id +:+ "/progress"));
    ("addComment", Template (fun id => "/api/tasks/" +:+ toString id +:+ "/comments"));
    ("projects", Path "/api/projects");
    ("project", Template (fun id => "/api/projects/" +:+ toString id));
    ("systemInfo", Path "/api/info");
    ("user", Path "/api/user");
    ("searchTasks", Path "/api/tasks/search");
    ("timeLogs", Template (fun id => "/api/tasks/" +:+ toString id +:+ "/time-logs")) ].

Definition getEndpoints (this : PMSAPI) : gmap string endpoint :=
  match profileOf (systemType this) with
  | Laracollab => list_to_map laracollabEndpoints
  | Jira => list_to_map jiraEndpoints
  | Asana => list_to_map asanaEndpoints
  | Trello => list_to_map trelloEndpoints
  | Custom => list_to_map customEndpoints
  end.

(** [constructor(baseUrl, apiToken, timeout = 30000, systemType = 'laracollab')].
    A default applies when the argument is omitted or [undefined];
    [baseUrl.replace] throws unless [baseUrl] is a string. *)
Definition constructor (baseUrl : value) (apiToken : string) (timeout : option Z)
  (systemType : value) : completion PMSAPI :=
  let timeout := default 30000%Z timeout in
  let systemType := match systemType with
                    | VUndefined => VStr "laracollab"
                    | _ => systemType
                    end in
  match baseUrl with
  | VStr s =>
      let this := MkPMSAPI (stripTrailingSlash s) apiToken timeout systemType VNull
                    (Axios "" 0 ∅ None) [] in
      Normal (MkPMSAPI (stripTrailingSlash s) apiToken timeout systemType VNull
                (axios_create (stripTrailingSlash s) timeout (getDefaultHeaders this)) [])
  | VUndefined | VNull =>
      Throw (TypeError ("Cannot read properties of " +:+ toString baseUrl
                        +:+ " (reading 'replace')"))
  | _ => Throw (TypeError "baseUrl.replace is not a function")
  end.

(** *** Payload and parameter translation *)

Definition obj1 (k : string) (v : value) : value := VObj [(k, v)].

(** [{...v}]: the own enumerable properties of [v]. *)
Definition spread (v : value) : list (string * value) :=
  match v with
  | VObj fs => fs
  | VArr items => imap (fun i x => (showN (N.of_nat i), x)) items
  | VStr s => imap (fun i c => (showN (N.of_nat i), VStr (String c ""))) (list_ascii_of_string s)
  | _ => []
  end.

(** A parameter with a default value: the default applies to [undefined]. *)
Definition orDefault (v d : value) : value :=
  match v with
  | VUndefined => d
  | _ => v
  end.

Definition buildJQL (filters : value) : completion string :=
  let jql := "project = PROJECTKEY" in
  status ← get filters "status";
  let jql := if truthy status
             then jql +:+ " AND status = " +:+ dq +:+ toString status +:+ dq
             else jql in
  priority ← get filters "priority";
  let jql := if truthy priority
             then jql +:+ " AND priority = " +:+ dq +:+ toString priority +:+ dq
             else jql in
  assignee ← get filters "assignee";
  let jql := if truthy assignee
             then jql +:+ " AND assignee = " +:+ dq +:+ toString assignee +:+ dq
             else jql in
  Normal jql.

Definition buildTrelloFilter (filters : value) : completion string :=
  status ← get filters "status";
  let closed := if is_string status "completed" then "closed:true" else "closed:false" in
  project_id ← get filters "project_id";
  Normal (if truthy project_id
          then closed +:+ " " +:+ "board:" +:+ dq +:+ toString project_id +:+ dq
          else closed).

Definition buildTaskParams (this : PMSAPI) (filters : value) : completion value :=
  match profileOf (systemType this) with
  | Laracollab =>
      status ← get filters "status";
      priority ← get filters "priority";
      project_id ← get filters "project_id";
      Normal (VObj [("status", status); ("priority", priority); ("project_id", project_id)])
  | Jira =>
      jql ← buildJQL filters;
      Normal (VObj [("jql", VStr jql);
                    ("fields", VStr "summary,status,project,created,updated,priority,assignee")])
  | Asana =>
      project_id ← get filters "project_id";
      status ← get filters "status";
      Normal (VObj [("project", project_id); ("assignee", VStr "me");
                    ("completed", VBool (is_string status "completed"))])
  | Trello =>
      f ← buildTrelloFilter filters;
      Normal (obj1 "filter" (VStr f))
  | Custom => Normal filters
  end.

Definition buildTaskPayload (this : PMSAPI) (taskData : value) : completion value :=
  match profileOf (systemType this) with
  | Laracollab =>
      project_id ← get taskData "project_id";
      name ← get taskData "name";
      description ← get taskData "description";
      estimation ← get taskData "estimation";
      pricing_type ← get taskData "pricing_type";
      billable ← get taskData "billable";
      priority ← get taskData "priority";
      Normal (VObj [("project_id", project_id); ("name", name);
                    ("description", description); ("estimation", estimation);
                    ("pricing_type", or_else pricing_type (VStr "hourly"));
                    ("billable", VBool (not_false billable));
                    ("priority", or_else priority (VStr "medium"))])
  | Jira =>
      project_key ← get taskData "project_key";
      name ← get taskData "name";
      description ← get taskData "description";
      priority ← get taskData "priority";
      issue_type ← get taskData "issue_type";
      Normal (obj1 "fields"
                (VObj [("project", obj1 "key" project_key); ("summary", name);
                       ("description", description);
                       ("priority", obj1 "name" (or_else priority (VStr "Medium")));
                       ("issuetype", obj1 "name" (or_else issue_type (VStr "Task")))]))
  | Asana =>
      project_id ← get taskData "project_id";
      name ← get taskData "name";
      description ← get taskData "description";
      Normal (VObj [("projects", VArr [project_id]); ("name", name);
                    ("notes", description); ("assignee", VStr "me")])
  | Trello =>
      name ← get taskData "name";
      description ← get taskData "description";
      list_id ← get taskData "list_id";
      due_date ← get taskData "due_date";
      Normal (VObj [("name", name); ("desc", description); ("idList", list_id);
                    ("due", due_date)])
  | Custom => Normal taskData
  end.

Definition buildStartTaskPayload (this : PMSAPI) : value :=
  match profileOf (systemType this) with
  | Jira => obj1 "transition" (obj1 "id" (VStr "3"))
  | Asana => obj1 "assignee_status" (VStr "upcoming")
  | _ => VObj []
  end.

Definition buildProgressPayload (this : PMSAPI) (updateData : value) : completion value :=
  match profileOf (systemType this) with
  | Laracollab =>
      status ← get updateData "status";
      progress_notes ← get updateData "progress_notes";
      time_spent_minutes ← get updateData "time_spent_minutes";
      Normal (VObj [("status", status); ("progress_notes", progress_notes);
                    ("time_spent_minutes", time_spent_minutes)])
  | Jira =>
      progress_notes ← get updateData "progress_notes";
      time_spent_minutes ← get updateData "time_spent_minutes";
      Normal (obj1 "update" (VObj [("summary", progress_notes);
                                   ("timetracking", time_spent_minutes)]))
  | Asana =>
      progress_notes ← get updateData "progress_notes";
      Normal (obj1 "notes" progress_notes)
  | _ => Normal updateData
  end.

Definition buildCompletionPayload (this : PMSAPI) (completionData : value)
  : completion value :=
  match profileOf (systemType this) with
  | Laracollab =>
      completion_notes ← get completionData "completion_notes";
      deliverables ← get completionData "deliverables";
      time_spent_minutes ← get completionData "time_spent_minutes";
      Normal (VObj [("completion_notes", completion_notes);
                    ("deliverables", or_else deliverables (VArr []));
                    ("time_spent_minutes", time_spent_minutes)])
  | Jira =>
      completion_notes ← get completionData "completion_notes";
      Normal (VObj [("transition", obj1 "id" (VStr "5"));
                    ("update", VObj [("summary", completion_notes);
                                     ("resolution", obj1 "name" (VStr "Done"))])])
  | Asana =>
      completion_notes ← get completionData "completion_notes";
      Normal (VObj [("completed", VBool true); ("notes", completion_notes)])
  | Trello =>
      completion_notes ← get completionData "completion_notes";
      Normal (VObj [("closed", VBool true); ("desc", completion_notes)])
  | Custom => Normal completionData
  end.

Definition buildCommentPayload (this : PMSAPI) (content isQuestion : value) : value :=
  match profileOf (systemType this) with
  | Laracollab => VObj [("content", content); ("is_question", isQuestion)]
  | Jira => obj1 "body" content
  | Asana => obj1 "text" content
  | Trello => obj1 "text" content
  | Custom => VObj [("content", content); ("is_question", isQuestion)]
  end.

Definition buildCCPMPayload (this : PMSAPI) (settings : value) : completion value :=
  match profileOf (systemType this) with
  | Laracollab =>
      project_buffer_percentage ← get settings "project_buffer_percentage";
      feeding_buffer_percentage ← get settings "feeding_buffer_percentage";
      resource_utilization_target ← get settings "resource_utilization_target";
      analyze_immediately ← get settings "analyze_immediately";
      start_date ← get settings "start_date";
      duration_days ← get settings "duration_days";
      Normal (VObj [("project_buffer_percentage", or_else project_buffer_percentage (VInt 50));
                    ("feeding_buffer_percentage", or_else feeding_buffer_percentage (VInt 25));
                    ("resource_utilization_target",
                       or_else resource_utilization_target (VInt 75));
                    ("analyze_immediately", VBool (not_false analyze_immediately));
                    ("critical_chain_start_date", start_date);
                    ("estimated_duration_days", duration_days)])
  | _ => Normal settings
  end.

Definition buildBufferPayload (this : PMSAPI) (bufferData : value) : completion value :=
  match profileOf (systemType this) with
  | Laracollab =>
      consumed ← get bufferData "project_buffer_consumed_percentage";
      feeding_buffers_status ← get bufferData "feeding_buffers_status";
      critical_tasks_status ← get bufferData "critical_tasks_status";
      buffer_analysis_notes ← get bufferData "buffer_analysis_notes";
      Normal (VObj [("project_buffer_consumed_percentage", consumed);
                    ("feeding_buffers_status", or_else feeding_buffers_status (VArr []));
                    ("critical_tasks_status", or_else critical_tasks_status (VArr []));
                    ("buffer_analysis_notes", buffer_analysis_notes)])
  | _ => Normal bufferData
  end.

Definition buildTaskBufferPayload (this : PMSAPI) (bufferData : value) : completion value :=
  match profileOf (systemType this) with
  | Laracollab =>
      buffer_consumption_percentage ← get bufferData "buffer_consumption_percentage";
      ccpm_status ← get bufferData "ccpm_status";
      actual_duration_days ← get bufferData "actual_duration_days";
      buffer_notes ← get bufferData "buffer_notes";
      completion_variance_days ← get bufferData "completion_variance_days";
      Normal (VObj [("buffer_consumption_percentage", buffer_consumption_percentage);
                    ("ccpm_status", ccpm_status);
                    ("actual_duration_days", actual_duration_days);
                    ("buffer_notes", buffer_notes);
                    ("completion_variance_days", completion_variance_days)])
  | _ => Normal bufferData
  end.

(** *** Error normalisation *)

Section ErrorNormalisation.

Variable H : host.

Definition handleError (error : error) : value :=
  let status := match err_response error with
                | Some r => VInt (status r)
                | None => VUndefined
                end in
  let data := match err_response error with
              | Some r => or_else (data r) (VObj [])
              | None => VObj []
              end in
  let errorResponse :=
    [ ("success", VBool false);
      ("message", or_else (or_else (get_opt data "message") (VStr (err_message error)))
                          (VStr "Unknown API error"));
      ("status", status);
      ("data", or_else (get_opt data "errors") VNull) ] in
  if development H then
    VObj (set_field "details"
            (VObj [("url", get_opt (err_config error) "url");
                   ("method", get_opt (err_config error) "method");
                   ("headers", get_opt (err_config error) "headers");
                   ("data", get_opt (err_config error) "data")])
            errorResponse)
  else VObj errorResponse.

End ErrorNormalisation.

(** *** Methods: a state-and-exception monad over [this] *)

Definition Api (A : Type) : Type := PMSAPI -> completion A * PMSAPI.

#[export] Instance Api_ret : MRet Api := fun A a this => (Normal a, this).

#[export] Instance Api_bind : MBind Api := fun A B k m this =>
  match m this with
  | (Normal a, this') => k a this'
  | (Throw e, this') => (Throw e, this')
  end.

Definition lift {A} (c : completion A) : Api A := fun this => (c, this).

Definition self : Api PMSAPI := fun this => (Normal this, this).

(** [try { m } catch (error) { h error }]; what [m] did to [this] before it
    threw stays done. *)
Definition tryCatch {A} (m : Api A) (h : error -> Api A) : Api A := fun this =>
  match m this with
  | (Normal a, this') => (Normal a, this')
  | (Throw e, this') => h e this'
  end.

Definition set_lastError (v : value) (this : PMSAPI) : PMSAPI :=
  MkPMSAPI (baseUrl this) (apiToken this) (timeout this) (systemType this) v
    (client this) (wire this).

Definition set_wire (w : list request) (this : PMSAPI) : PMSAPI :=
  MkPMSAPI (baseUrl this) (apiToken this) (timeout this) (systemType this)
    (lastError this) (client this) w.

Definition set_client (c : axios) (this : PMSAPI) : PMSAPI :=
  MkPMSAPI (baseUrl this) (apiToken this) (timeout this) (systemType this)
    (lastError this) c (wire this).

Definition set_apiToken (t : string) (this : PMSAPI) : PMSAPI :=
  MkPMSAPI (baseUrl this) t (timeout this) (systemType this)
    (lastError this) (client this) (wire this).

Definition set_baseUrl (u : string) (this : PMSAPI) : PMSAPI :=
  MkPMSAPI u (apiToken this) (timeout this) (systemType this)
    (lastError this) (client this) (wire this).

Definition set_timeout (t : Z) (this : PMSAPI) : PMSAPI :=
  MkPMSAPI (baseUrl this) (apiToken this) t (systemType this)
    (lastError this) (client this) (wire this).

Definition set_systemType (s : value) (this : PMSAPI) : PMSAPI :=
  MkPMSAPI (baseUrl this) (apiToken this) (timeout this) s
    (lastError this) (client this) (wire this).

(** [endpoints.k] where the code uses the entry as a path.  No table keeps a
    template under a key that is read this way (see [static_entries]), so
    the last case only makes the function total. *)
Definition entry (endpoints : gmap string endpoint) (k : string) : value :=
  match endpoints !! k with
  | Some (Path p) => VStr p
  | Some (Template _) => VUndefined
  | None => VUndefined
  end.

(** [endpoints.k(id)]: calling anything but a function throws. *)
Definition callEntry (endpoints : gmap string endpoint) (k : string) (id : value)
  : completion value :=
  match endpoints !! k with
  | Some (Template f) => Normal (VStr (f id))
  | _ => Throw (TypeError ("endpoints." +:+ k +:+ " is not a function"))
  end.

Section Adapter.

Variable H : host.

(** [new URLSearchParams(init).toString()] *)
Definition searchParams (init : value) : completion string :=
  match init with
  | VObj fs => Normal (formSerialize (map (fun kv => (fst kv, toString (snd kv))) fs))
  | _ => ps ← searchParamsInit H init; Normal (formSerialize ps)
  end.

(** [await this.client.get/post/put(url, body)], both response interceptors
    included: a fulfilled response is unwrapped to its [data]; a rejection
    records its message in [lastError] and is replaced by a fresh [Error]
    that carries only the prefixed message.  The request interceptor only
    logs. *)
Definition send (m : verb) (url : value) (body : option value) : Api value := fun this =>
  let req := Request m url body (requestHeaders (client this)) in
  let this := set_wire (wire this ++ [req]) this in
  match transport H req with
  | Fulfilled r => (Normal (data r), this)
  | Rejected e =>
      let message :=
        or_else (match err_response e with
                 | Some r => get_opt (data r) "message"
                 | None => VUndefined
                 end)
                (VStr (err_message e)) in
      (Throw (Error ("PMS API Error: " +:+ toString message)),
       set_lastError message this)
  end.

Definition caught (e : error) : Api value := mret (handleError H e).

Definition getTasks (filters : value) : Api value :=
  let filters := orDefault filters (VObj []) in
  tryCatch
    (this ← self;
     let endpoints := getEndpoints this in
     params ← lift (buildTaskParams this filters);
     query ← lift (if truthy params
                   then q ← searchParams params; Normal ("?" +:+ q)
                   else Normal "");
     send GET (VStr (toString (entry endpoints "tasks") +:+ query)) None)
    caught.

Definition getTask (taskId : value) : Api value :=
  tryCatch
    (this ← self;
     let endpoints := getEndpoints this in
     url ← lift (callEntry endpoints "task" taskId);
     send GET url None)
    caught.

Definition createTask (taskData : value) : Api value :=
  tryCatch
    (this ← self;
     let endpoints := getEndpoints this in
     payload ← lift (buildTaskPayload this taskData);
     send POST (entry endpoints "createTask") (Some payload))
    caught.

Definition startTask (taskId : value) : Api value :=
  tryCatch
    (this ← self;
     let endpoints := getEndpoints this in
     let payload := buildStartTaskPayload this in
     url ← lift (callEntry endpoints "startTask" taskId);
     send POST url (Some payload))
    caught.

Definition updateTaskProgress (taskId updateData : value) : Api value :=
  tryCatch
    (this ← self;
     let endpoints := getEndpoints this in
     payload ← lift (buildProgressPayload this updateData);
     url ← lift (callEntry endpoints "updateProgress" taskId);
     send PUT url (Some payload))
    caught.

Definition completeTask (taskId completionData : value) : Api value :=
  tryCatch
    (this ← self;
     let endpoints := getEndpoints this in
     payload ← lift (buildCompletionPayload this completionData);
     url ← lift (callEntry endpoints "completeTask" taskId);
     send POST url (Some payload))
    caught.

Definition addTaskComment (taskId content isQuestion : value) : Api value :=
  let isQuestion := orDefault isQuestion (VBool false) in
  tryCatch
    (this ← self;
     let endpoints := getEndpoints this in
     let payload := buildCommentPayload this content isQuestion in
     url ← lift (callEntry endpoints "addComment" taskId);
     send POST url (Some payload))
    caught.

Definition getProjects : Api value :=
  tryCatch
    (this ← self;
     let endpoints := getEndpoints this in
     send GET (entry endpoints "projects") None)
    caught.

Definition getProject (projectId : value) : Api value :=
  tryCatch
    (this ← self;
     let endpoints := getEndpoints this in
     url ← lift (callEntry endpoints "project" projectId);
     send GET url None)
    caught.

Definition getSystemInfo : Api value :=
  tryCatch
    (this ← self;
     let endpoints := getEndpoints this in
     send GET (entry endpoints "systemInfo") None)
    caught.

Definition getUser : Api value :=
  tryCatch
    (this ← self;
     let endpoints := getEndpoints this in
     send GET (entry endpoints "user") None)
    caught.

Definition searchTasks (query filters : value) : Api value :=
  let filters := orDefault filters (VObj []) in
  tryCatch
    (this ← self;
     let endpoints := getEndpoints this in
     params ← lift (searchParams (VObj (set_field "q" query (spread filters))));
     send GET (VStr (toString (entry endpoints "searchTasks") +:+ "?" +:+ params)) None)
    caught.

Definition getTaskTimeLogs (taskId : value) : Api value :=
  tryCatch
    (this ← self;
     let endpoints := getEndpoints this in
     url ← lift (callEntry endpoints "timeLogs" taskId);
     send GET url None)
    caught.

Definition analyzeCriticalChain (projectId : value) : Api value :=
  tryCatch
    (this ← self;
     let endpoints := getEndpoints this in
     url ← lift (callEntry endpoints "analyzeCriticalChain" projectId);
     send GET url None)
    caught.

Definition enableCCPM (projectId settings : value) : Api value :=
  let settings := orDefault settings (VObj []) in
  tryCatch
    (this ← self;
     let endpoints := getEndpoints this in
     payload ← lift (buildCCPMPayload this settings);
     url ← lift (callEntry endpoints "enableCCPM" projectId);
     send POST url (Some payload))
    caught.

Definition getCCPMReport (projectId : value) : Api value :=
  tryCatch
    (this ← self;
     let endpoints := getEndpoints this in
     url ← lift (callEntry endpoints "ccpmReport" projectId);
     send GET url None)
    caught.

Definition updateBufferStatus (projectId bufferData : value) : Api value :=
  tryCatch
    (this ← self;
     let endpoints := getEndpoints this in
     payload ← lift (buildBufferPayload this bufferData);
     url ← lift (callEntry endpoints "updateBufferStatus" projectId);
     send PUT url (Some payload))
    caught.

Definition recalculateCriticalChain (projectId : value) : Api value :=
  tryCatch
    (this ← self;
     let endpoints := getEndpoints this in
     url ← lift (callEntry endpoints "recalculateCriticalChain" projectId);
     send POST url (Some (VObj [])))
    caught.

Definition getResourceLoading (projectId : value) : Api value :=
  tryCatch
    (this ← self;
     let endpoints := getEndpoints this in
     url ← lift (callEntry endpoints "getResourceLoading" projectId);
     send GET url None)
    caught.

Definition identifyFeedingBuffers (projectId : value) : Api value :=
  tryCatch
    (this ← self;
     let endpoints := getEndpoints this in
     url ← lift (callEntry endpoints "identifyFeedingBuffers" projectId);
     send GET url None)
    caught.

Definition getCriticalChainTasks (projectId : value) : Api value :=
  tryCatch
    (this ← self;
     let endpoints := getEndpoints this in
     url ← lift (callEntry endpoints "criticalChainTasks" projectId);
     send GET url None)
    caught.

Definition updateTaskBuffer (taskId bufferData : value) : Api value :=
  tryCatch
    (this ← self;
     let endpoints := getEndpoints this in
     payload ← lift (buildTaskBufferPayload this bufferData);
     url ← lift (callEntry endpoints "updateTaskBuffer" taskId);
     send PUT url (Some payload))
    caught.

Definition getCCPMDashboard : Api value :=
  tryCatch
    (this ← self;
     let endpoints := getEndpoints this in
     send GET (entry endpoints "ccpmDashboard") None)
    caught.

(** [!!(response && (response.ai_version || response.version || response.id))]
    inside [try { ... } catch (error) { return false; }] *)
Definition testConnection : Api bool :=
  tryCatch
    (response ← getSystemInfo;
     if truthy response then
       ai_version ← lift (get response "ai_version");
       if truthy ai_version then mret true else
       version ← lift (get response "version");
       if truthy version then mret true else
       id ← lift (get response "id");
       mret (truthy id)
     else mret false)
    (fun _ => mret false).

End Adapter.

(** *** Accessors and setters *)

Definition getLastError (this : PMSAPI) : value := lastError this.

Definition getSystemType (this : PMSAPI) : value := systemType this.

Definition setTimeout (t : Z) : Api unit := fun this =>
  let c := client this in
  (Normal tt,
   set_client (Axios (defaults_baseURL c) t (defaults_headers c) (defaults_headers_common c))
     (set_timeout t this)).

(** [this.client.defaults.headers.common['Authorization'] =
       this.getDefaultHeaders().Authorization]
    The assignment needs [defaults.headers.common] to be an object; storing
    [undefined] under a key is modelled by the key being absent. *)
Definition setApiToken (token : string) : Api unit := fun this =>
  let this := set_apiToken token this in
  let c := client this in
  match defaults_headers_common c with
  | Some common =>
      let common := match getDefaultHeaders this !! "Authorization" with
                    | Some a => <["Authorization" := a]> common
                    | None => delete "Authorization" common
                    end in
      (Normal tt,
       set_client (Axios (defaults_baseURL c) (defaults_timeout c) (defaults_headers c)
                     (Some common)) this)
  | None =>
      (Throw (TypeError "Cannot set properties of undefined (setting 'Authorization')"),
       this)
  end.

Definition setBaseUrl (url : value) : Api unit := fun this =>
  match url with
  | VStr s =>
      let c := client this in
      (Normal tt,
       set_client (Axios (stripTrailingSlash s) (defaults_timeout c) (defaults_headers c)
                     (defaults_headers_common c))
         (set_baseUrl (stripTrailingSlash s) this))
  | VUndefined | VNull =>
      (Throw (TypeError ("Cannot read properties of " +:+ toString url
                         +:+ " (reading 'replace')")), this)
  | _ => (Throw (TypeError "url.replace is not a function"), this)
  end.

(** [this.client.defaults.headers = this.getDefaultHeaders()]: the whole
    object is replaced, its [common] entry included. *)
Definition setSystemType (s : value) : Api unit := fun this =>
  let this := set_systemType s this in
  let c := client this in
  (Normal tt,
   set_client (Axios (defaults_baseURL c) (defaults_timeout c) (getDefaultHeaders this) None)
     this).

Record supportedSystem : Type := SupportedSystem {
  sys_value : string;
  sys_name : string;
  sys_description : string;
  sys_requiredAuth : string
}.

Definition getSupportedSystems : list supportedSystem :=
  [ SupportedSystem "laracollab" "LaraCollab" "Laravel-based project management system"
      "Bearer Token";
    SupportedSystem "jira" "Jira" "Atlassian issue tracking and project management"
      "Basic Auth";
    SupportedSystem "asana" "Asana" "Work management platform" "Bearer Token";
    SupportedSystem "trello" "Trello" "Visual collaboration tool" "OAuth Consumer Key";
    SupportedSystem "custom" "Custom API" "Custom REST API endpoint" "Bearer Token" ].

(** *** The public request methods, as data *)

Inductive call : Type :=
| GetTasks (filters : value)
| GetTask (taskId : value)
| CreateTask (taskData : value)
| StartTask (taskId : value)
| UpdateTaskProgress (taskId updateData : value)
| CompleteTask (taskId completionData : value)
| AddTaskComment (taskId content isQuestion : value)
| GetProjects
| GetProject (projectId : value)
| GetSystemInfo
| GetUser
| SearchTasks (query filters : value)
| GetTaskTimeLogs (taskId : value)
| AnalyzeCriticalChain (projectId : value)
| EnableCCPM (projectId settings : value)
| GetCCPMReport (projectId : value)
| UpdateBufferStatus (projectId bufferData : value)
| RecalculateCriticalChain (projectId : value)
| GetResourceLoading (projectId : value)
| IdentifyFeedingBuffers (projectId : value)
| GetCriticalChainTasks (projectId : value)
| UpdateTaskBuffer (taskId bufferData : value)
| GetCCPMDashboard.

Definition perform (H : host) (c : call) : Api value :=
  match c with
  | GetTasks filters => getTasks H filters
  | GetTask taskId => getTask H taskId
  | CreateTask taskData => createTask H taskData
  | StartTask taskId => startTask H taskId
  | UpdateTaskProgress taskId updateData => updateTaskProgress H taskId updateData
  | CompleteTask taskId completionData => completeTask H taskId completionData
  | AddTaskComment taskId content isQuestion => addTaskComment H taskId content isQuestion
  | GetProjects => getProjects H
  | GetProject projectId => getProject H projectId
  | GetSystemInfo => getSystemInfo H
  | GetUser => getUser H
  | SearchTasks query filters => searchTasks H query filters
  | GetTaskTimeLogs taskId => getTaskTimeLogs H taskId
  | AnalyzeCriticalChain projectId => analyzeCriticalChain H projectId
  | EnableCCPM projectId settings => enableCCPM H projectId settings
  | GetCCPMReport projectId => getCCPMReport H projectId
  | UpdateBufferStatus projectId bufferData => updateBufferStatus H projectId bufferData
  | RecalculateCriticalChain projectId => recalculateCriticalChain H projectId
  | GetResourceLoading projectId => getResourceLoading H projectId
  | IdentifyFeedingBuffers projectId => identifyFeedingBuffers H projectId
  | GetCriticalChainTasks projectId => getCriticalChainTasks H projectId
  | UpdateTaskBuffer taskId bufferData => updateTaskBuffer H taskId bufferData
  | GetCCPMDashboard => getCCPMDashboard H
  end.

(** The key of the endpoint table each method reads. *)
Definition operationOf (c : call) : string :=
  match c with
  | GetTasks _ => "tasks"
  | GetTask _ => "task"
  | CreateTask _ => "createTask"
  | StartTask _ => "startTask"
  | UpdateTaskProgress _ _ => "updateProgress"
  | CompleteTask _ _ => "completeTask"
  | AddTaskComment _ _ _ => "addComment"
  | GetProjects => "projects"
  | GetProject _ => "project"
  | GetSystemInfo => "systemInfo"
  | GetUser => "user"
  | SearchTasks _ _ => "searchTasks"
  | GetTaskTimeLogs _ => "timeLogs"
  | AnalyzeCriticalChain _ => "analyzeCriticalChain"
  | EnableCCPM _ _ => "enableCCPM"
  | GetCCPMReport _ => "ccpmReport"
  | UpdateBufferStatus _ _ => "updateBufferStatus"
  | RecalculateCriticalChain _ => "recalculateCriticalChain"
  | GetResourceLoading _ => "getResourceLoading"
  | IdentifyFeedingBuffers _ => "identifyFeedingBuffers"
  | GetCriticalChainTasks _ => "criticalChainTasks"
  | UpdateTaskBuffer _ _ => "updateTaskBuffer"
  | GetCCPMDashboard => "ccpmDashboard"
  end.

(** The operations of the task, project and system methods, and those of
    the CCPM methods. *)
Definition coreOperations : list string :=
  ["tasks"; "task"; "createTask"; "startTask"; "updateProgress"; "completeTask";
   "addComment"; "projects"; "project"; "systemInfo"; "user"; "searchTasks"; "timeLogs"].

Definition ccpmOperations : list string :=
  ["analyzeCriticalChain"; "enableCCPM"; "ccpmReport"; "updateBufferStatus";
   "recalculateCriticalChain"; "getResourceLoading"; "identifyFeedingBuffers";
   "criticalChainTasks"; "updateTaskBuffer"; "ccpmDashboard"].

(** An adapter object whose only interesting field is the backend
    identifier; the tables and translators read nothing else but the token. *)
Definition adapterFor (systemType : value) (token : string) : PMSAPI :=
  MkPMSAPI "" token 30000 systemType VNull (Axios "" 30000 ∅ None) [].

(** ** String functions of the command layer *)

Definition nl : string := String (ascii_of_nat 10) "".

Definition startsWith (s p : string) : bool := String.prefix p s.

(** [s.replace(p, '')]: the first occurrence of [p] is removed. *)
Fixpoint removeFirst (p s : string) : string :=
  if String.prefix p s then String.substring (String.length p)
                              (String.length s - String.length p) s
  else match s with
       | EmptyString => ""
       | String c rest => String c (removeFirst p rest)
       end.

(** [s.includes(p)] *)
Fixpoint includes (s p : string) : bool :=
  String.prefix p s ||
  match s with
  | EmptyString => false
  | String _ rest => includes rest p
  end.

Definition lowerAscii (c : ascii) : ascii :=
  let n := nat_of_ascii c in
  if (65 <=? n)%nat && (n <=? 90)%nat then ascii_of_nat (n + 32) else c.

(** [s.toLowerCase()] on the ASCII letters; the keywords the result is
    compared with are ASCII, and no other character lower-cases to one of
    their letters. *)
Fixpoint toLowerCase (s : string) : string :=
  match s with
  | EmptyString => ""
  | String c rest => String (lowerAscii c) (toLowerCase rest)
  end.

Fixpoint allDigits (s : string) : bool :=
  match s with
  | EmptyString => true
  | String c rest => isDigit c && allDigits rest
  end.

(** [s.match(/^(\d+)$/)] succeeds. *)
Definition matchesDigits (s : string) : bool :=
  negb (String.eqb s "") && allDigits s.

Fixpoint takeDigits (s : string) : string * string :=
  match s with
  | String c rest =>
      if isDigit c then let (ds, r) := takeDigits rest in (String c ds, r)
      else ("", s)
  | EmptyString => ("", "")
  end.

Fixpoint digitsValueFrom (acc : Z) (s : string) : Z :=
  match s with
  | EmptyString => acc
  | String c rest => digitsValueFrom (acc * 10 + Z.of_nat (nat_of_ascii c - 48)) rest
  end.

Definition digitsValue (s : string) : Z := digitsValueFrom 0 s.

Definition isWhiteSpace (c : ascii) : bool :=
  let n := nat_of_ascii c in
  ((9 <=? n)%nat && (n <=? 13)%nat) || (n =? 32)%nat.

(** Leading white space is skipped.  The white space of [parseInt],
    [parseFloat] and StringToNumber, in UTF-8: the ASCII characters, U+00A0,
    U+1680, U+2000 to U+200A, U+2028, U+2029, U+202F, U+205F, U+3000 and
    U+FEFF. *)
Fixpoint trimStart (s : string) : string :=
  match s with
  | String c1 rest1 =>
      let n1 := nat_of_ascii c1 in
      if isWhiteSpace c1 then trimStart rest1
      else
        match rest1 with
        | String c2 rest2 =>
            let n2 := nat_of_ascii c2 in
            if (n1 =? 194)%nat && (n2 =? 160)%nat then trimStart rest2
            else
              match rest2 with
              | String c3 rest3 =>
                  let n3 := nat_of_ascii c3 in
                  if ((n1 =? 225)%nat && (n2 =? 154)%nat && (n3 =? 128)%nat)
                     || ((n1 =? 226)%nat && (n2 =? 128)%nat
                         && (((128 <=? n3)%nat && (n3 <=? 138)%nat)
                             || (n3 =? 168)%nat || (n3 =? 169)%nat || (n3 =? 175)%nat))
                     || ((n1 =? 226)%nat && (n2 =? 129)%nat && (n3 =? 159)%nat)
                     || ((n1 =? 227)%nat && (n2 =? 128)%nat && (n3 =? 128)%nat)
                     || ((n1 =? 239)%nat && (n2 =? 187)%nat && (n3 =? 191)%nat)
                  then trimStart rest3
                  else s
              | EmptyString => s
              end
        | EmptyString => s
        end
  | EmptyString => ""
  end.

Definition takeSign (s : string) : bool * string :=
  match s with
  | String c rest =>
      if Ascii.eqb c "-"%char then (true, rest)
      else if Ascii.eqb c "+"%char then (false, rest)
      else (false, s)
  | EmptyString => (false, "")
  end.

Definition pow10 (e : Z) : Q :=
  if (0 <=? e)%Z then inject_Z (10 ^ e) else / inject_Z (10 ^ (- e)).

(** The exponent part of a decimal literal, when one is present. *)
Definition takeExponent (s : string) : Z :=
  match s with
  | String c rest =>
      if Ascii.eqb c "e"%char || Ascii.eqb c "E"%char then
        let (neg, r) := takeSign rest in
        let (ds, _) := takeDigits r in
        if String.eqb ds "" then 0%Z
        else if neg then (- digitsValue ds)%Z else digitsValue ds
      else 0%Z
  | EmptyString => 0%Z
  end.

(** The global [parseFloat] on a string: the longest prefix that is a
    decimal literal, after leading white space. *)
Definition parseFloat (s : string) : number :=
  let (neg, s1) := takeSign (trimStart s) in
  if String.prefix "Infinity" s1 then (if neg then NegInf else PosInf)
  else
    let (ip, r1) := takeDigits s1 in
    let (fp, r2) := match r1 with
                    | String c r => if Ascii.eqb c "."%char then takeDigits r else ("", r1)
                    | EmptyString => ("", r1)
                    end in
    if String.eqb ip "" && String.eqb fp "" then NaN
    else
      let mantissa :=
        Qplus (inject_Z (digitsValue ip))
              (Qmult (inject_Z (digitsValue fp)) (pow10 (- Z.of_nat (String.length fp)))) in
      let q := Qred (Qmult mantissa (pow10 (takeExponent r2))) in
      Fin (if neg then Qopp q else q).

Definition hexValue (c : ascii) : option Z :=
  let n := nat_of_ascii c in
  if isDigit c then Some (Z.of_nat (n - 48))
  else if (97 <=? n)%nat && (n <=? 102)%nat then Some (Z.of_nat (n - 87))
  else if (65 <=? n)%nat && (n <=? 70)%nat then Some (Z.of_nat (n - 55))
  else None.

Fixpoint hexPrefix (acc : option Z) (s : string) : option Z :=
  match s with
  | String c rest =>
      match hexValue c with
      | Some d => hexPrefix (Some (default 0%Z acc * 16 + d)%Z) rest
      | None => acc
      end
  | EmptyString => acc
  end.

(** The global [parseInt] on a string, no radix given: decimal, or
    hexadecimal after a [0x] prefix. *)
Definition parseInt (s : string) : number :=
  let (neg, s1) := takeSign (trimStart s) in
  let magnitude :=
    if String.prefix "0x" s1 || String.prefix "0X" s1
    then hexPrefix None (String.substring 2 (String.length s1 - 2) s1)
    else let (ds, _) := takeDigits s1 in
         if String.eqb ds "" then None else Some (digitsValue ds) in
  match magnitude with
  | Some z => Fin (inject_Z (if neg then - z else z))
  | None => NaN
  end.

(** ** src/utils/formatters.js *)

(** [formatError(message, details = null)] *)
Definition formatError (message details : value) : string :=
  let output := "**❌ Error:** " +:+ toString message in
  let output := if truthy details
                then output +:+ nl +:+ nl +:+ "**Details:** " +:+ toString details
                else output in
  output +:+ nl +:+ nl +:+ "**Troubleshooting:**" +:+ nl
  +:+ "• Check your API connection with `/lara-status`" +:+ nl
  +:+ "• Verify your configuration with `/lara-config`" +:+ nl
  +:+ "• Make sure you have internet access".

(** [formatSystemInfo(info)].  Past the first test [info] is an object, and
    [info.user] is read further only when it is truthy, so no read throws. *)
Definition formatSystemInfo (info : value) : string :=
  if negb (truthy info) || negb (truthy (get_opt info "ai_version")) then
    formatError (VStr "Unable to connect to LaraCollab API") VNull
  else
    let output := "**🚀 LaraCollab System Information**" +:+ nl +:+ nl in
    let output := output +:+ "**AI Version:** " +:+ toString (get_opt info "ai_version") +:+ nl in
    let output := output +:+ "**Laravel Version:** "
                  +:+ toString (or_else (get_opt info "laravel_version") (VStr "Unknown")) +:+ nl in
    let output := output +:+ "**PHP Version:** "
                  +:+ toString (or_else (get_opt info "php_version") (VStr "Unknown")) +:+ nl in
    let user := get_opt info "user" in
    let output :=
      if truthy user then
        output +:+ nl +:+ "**👤 User Information**" +:+ nl
        +:+ "**Name:** " +:+ toString (or_else (get_opt user "name") (VStr "Unknown")) +:+ nl
        +:+ "**Email:** " +:+ toString (or_else (get_opt user "email") (VStr "Unknown")) +:+ nl
      else output in
    if truthy (get_opt info "uptime") then
      output +:+ nl +:+ "**📊 System Status**" +:+ nl
      +:+ "**Uptime:** " +:+ toString (get_opt info "uptime") +:+ nl
      +:+ "**Memory Usage:** "
      +:+ toString (or_else (get_opt info "memory_usage") (VStr "Unknown")) +:+ nl
    else output.

(** ** class PMSPlugin *)

(** What [this.criticalChainCommands] holds.  [initConfig] creates the
    object around the adapter it has just stored in [this.api];
    [handleConfigCommand] stores a new adapter in [this.api] and leaves
    [this.criticalChainCommands] alone, so that afterwards the field is
    still [null], or still holds the object around the adapter of before. *)
Inductive commandObject : Type :=
| NoObject
| AroundApi
| AroundEarlier (adapter : PMSAPI).

(** [config] is [this.configManager.config]; [api] is [this.api], [None] for
    [null].  [this.taskCommands] and [this.projectCommands] are assigned
    wherever [this.api] is, and around that adapter object, so the model
    reads them as present exactly when [api] is.
    [criticalChainCommands] is [AroundApi] when the object shares the
    adapter object of [this.api], which then is not [null]. *)
Record PMSPlugin : Type := MkPMSPlugin {
  config : value;
  api : option PMSAPI;
  criticalChainCommands : commandObject
}.

Definition Cmd (A : Type) : Type := PMSPlugin -> completion A * PMSPlugin.

#[export] Instance Cmd_ret : MRet Cmd := fun A a this => (Normal a, this).

#[export] Instance Cmd_bind : MBind Cmd := fun A B k m this =>
  match m this with
  | (Normal a, this') => k a this'
  | (Throw e, this') => (Throw e, this')
  end.

Definition cmdTry {A} (m : Cmd A) (h : error -> Cmd A) : Cmd A := fun this =>
  match m this with
  | (Normal a, this') => (Normal a, this')
  | (Throw e, this') => h e this'
  end.

Definition cmdLift {A} (c : completion A) : Cmd A := fun this => (c, this).

(** [ConfigManager.isConfigured]: [!!(this.config.baseUrl && this.config.apiToken)] *)
Definition isConfigured (config : value) : completion bool :=
  baseUrl ← get config "baseUrl";
  if truthy baseUrl then apiToken ← get config "apiToken"; Normal (truthy apiToken)
  else Normal false.

Definition notConfiguredMessage : string :=
  "PMS not configured. Please run `/pms-config` first.".

Definition ensureConfigured : Cmd bool := fun this =>
  match api this with
  | None => (Throw (Error notConfiguredMessage), this)
  | Some _ =>
      match isConfigured (config this) with
      | Normal true => (Normal true, this)
      | Normal false => (Throw (Error notConfiguredMessage), this)
      | Throw e => (Throw e, this)
      end
  end.

(** The method names of the three command classes. *)
Definition TaskCommands_methods : list string :=
  ["listTasks"; "getTask"; "createTask"; "startTask"; "completeTask"; "updateProgress";
   "addComment"; "searchTasks"; "getTimeLogs"; "formatDuration"; "parseTaskArgs";
   "parseCompletionArgs"; "extractTaskId"].

Definition ProjectCommands_methods : list string :=
  ["listProjects"; "getProject"; "getProjectStats"; "searchProjects"].

Definition CriticalChainCommands_methods : list string :=
  ["analyzeCriticalChain"; "enableCCPM"; "generateCCPMReport"; "updateBufferStatus";
   "recalculateCriticalChain"; "getResourceLoading"; "identifyFeedingBuffers"].

(** [parseTaskFilters(args)] *)
Definition parseTaskFilters (args : list string) : value :=
  VObj (fold_left
    (fun filters arg =>
       let lower := toLowerCase arg in
       if String.eqb lower "completed" then set_field "status" (VStr "completed") filters
       else if String.eqb lower "pending" then set_field "status" (VStr "pending") filters
       else if String.eqb lower "in_progress" then set_field "status" (VStr "in_progress") filters
       else if String.eqb lower "urgent" then set_field "priority" (VStr "urgent") filters
       else if String.eqb lower "high" then set_field "priority" (VStr "high") filters
       else if String.eqb lower "medium" then set_field "priority" (VStr "medium") filters
       else if String.eqb lower "low" then set_field "priority" (VStr "low") filters
       else if startsWith arg "project:" then
         let projectId := VNum (parseInt (removeFirst "project:" arg)) in
         if truthy projectId then set_field "project_id" projectId filters else filters
       else filters)
    args []).

(** [extractProjectId(args)] *)
Fixpoint extractProjectId (args : list string) : value :=
  match args with
  | [] => VNull
  | arg :: rest =>
      if matchesDigits arg then VNum (parseInt arg)
      else if startsWith arg "project:" then VNum (parseInt (removeFirst "project:" arg))
      else extractProjectId rest
  end.

(** [parseCCPMSettings(args)] *)
Definition parseCCPMSettings (args : list string) : value :=
  VObj (fold_left
    (fun settings arg =>
       if startsWith arg "project-buffer:" then
         set_field "project_buffer_percentage"
           (VNum (parseFloat (removeFirst "project-buffer:" arg))) settings
       else if startsWith arg "feeding-buffer:" then
         set_field "feeding_buffer_percentage"
           (VNum (parseFloat (removeFirst "feeding-buffer:" arg))) settings
       else if startsWith arg "resource-utilization:" then
         set_field "resource_utilization_target"
           (VNum (parseFloat (removeFirst "resource-utilization:" arg))) settings
       else if startsWith arg "start-date:" then
         set_field "start_date" (VStr (removeFirst "start-date:" arg)) settings
       else if startsWith arg "duration:" then
         set_field "duration_days" (VNum (parseInt (removeFirst "duration:" arg))) settings
       else if startsWith arg "auto-analyze:" then
         set_field "analyze_immediately"
           (VBool (String.eqb (removeFirst "auto-analyze:" arg) "true")) settings
       else settings)
    args []).

(** [parseBufferUpdateArgs(args)]: the pair [{ taskId, percentage }], [None]
    for [null]. *)
Definition parseBufferUpdateArgs (args : list string) : option number * option number :=
  fold_left
    (fun '(taskId, percentage) arg =>
       if matchesDigits arg then (Some (parseInt arg), percentage)
       else if includes arg "%" || negb (isNaN (parseFloat arg))
       then (taskId, Some (parseFloat (removeFirst "%" arg)))
       else (taskId, percentage))
    args (None, None).

(** [!x] for a variable that holds [null] or a number. *)
Definition falsy (x : option number) : bool :=
  match x with
  | None => true
  | Some n => negb (truthy (VNum n))
  end.

(** [parseFloat(n)] on a number: it is printed and read back, which gives
    the number again. *)
Definition parseFloatOfNumber (n : number) : number := n.

(** The object literal [bufferData] of [handleCCPMUpdateBufferCommand]. *)
Definition bufferData (percentage : number) : value :=
  VObj [("buffer_consumption_percentage", VNum (parseFloatOfNumber percentage));
        ("ccpm_status",
           VStr (if gt percentage (Fin 75) then "buffer_consumed"
                 else if gt percentage (Fin 50) then "in_progress"
                 else "not_started"));
        ("buffer_notes", VStr "Buffer updated via PMS plugin")].

(** A local variable: how it was declared, and its current (string) value. *)
Inductive binding : Type :=
| ConstBinding (v : string)
| LetBinding (v : string).

Definition valueOf (b : binding) : string :=
  match b with
  | ConstBinding v | LetBinding v => v
  end.

(** [x += s] *)
Definition addAssign (b : binding) (s : string) : completion binding :=
  match b with
  | LetBinding v => Normal (LetBinding (v +:+ s))
  | ConstBinding _ => Throw (TypeError "Assignment to constant variable.")
  end.

(** The branch [if (!this.api) { ... }] of [handleStatusCommand]. *)
Definition statusNotConfigured : completion value :=
  let message := ConstBinding ("**PMS Plugin Status:** ‚ö†Ô∏è Not Configured" +:+ nl +:+ nl) in
  message ← addAssign message
    ("Please run `/pms-config` to set up your Project Management System API connection."
     +:+ nl +:+ nl);
  message ← addAssign message ("**Example setup:**" +:+ nl);
  message ← addAssign message ("```" +:+ nl);
  message ← addAssign message ("/pms-config" +:+ nl);
  message ← addAssign message ("```" +:+ nl +:+ nl);
  message ← addAssign message ("Then provide:" +:+ nl);
  message ← addAssign message ("- Base URL: https://your-pms-domain.com" +:+ nl);
  message ← addAssign message "- API Token: Your API token from PMS settings";
  Normal (VStr (valueOf message)).

(** The [catch (error) { ... }] block of [handleStatusCommand]. *)
Definition statusConnectionError (error : error) : completion value :=
  let message :=
    ConstBinding ("Connection error: " +:+ err_message error +:+ nl +:+ nl) in
  message ← addAssign message ("**Troubleshooting:**" +:+ nl);
  message ← addAssign message ("1. Check your internet connection" +:+ nl);
  message ← addAssign message ("2. Verify your PMS instance is accessible" +:+ nl);
  message ← addAssign message ("3. Run `/pms-config` to update your settings" +:+ nl);
  message ← addAssign message "4. Check if your API token is valid";
  Normal (VStr (formatError (VStr (valueOf message)) VNull)).

Section Handlers.

Variable H : host.

(** What a method of a command object does when called: its result and its
    effect on the adapter.  The first argument names the field of the plugin
    that holds the object, the second the method. *)
Variable commandBody : string -> string -> list value -> Api value.

(** The adapter object that the command object in the field [object]
    holds, and how the plugin keeps what a method did to that adapter;
    [None] when the field is [null]. *)
Definition commandAdapter (object : string) (this : PMSPlugin)
  : option (PMSAPI * (PMSAPI -> PMSPlugin)) :=
  let onApi :=
    match api this with
    | Some a =>
        Some (a, fun a' => MkPMSPlugin (config this) (Some a') (criticalChainCommands this))
    | None => None
    end in
  if String.eqb object "criticalChainCommands" then
    match criticalChainCommands this with
    | NoObject => None
    | AroundApi => onApi
    | AroundEarlier a =>
        Some (a, fun a' => MkPMSPlugin (config this) (api this) (AroundEarlier a'))
    end
  else onApi.

(** [this.<object>.<method>(args)], for an object of a class with the given
    method names. *)
Definition invoke (object : string) (methods : list string) (method : string)
  (args : list value) : Cmd value := fun this =>
  match commandAdapter object this with
  | None =>
      (Throw (TypeError ("Cannot read properties of null (reading '" +:+ method +:+ "')")),
       this)
  | Some (a, store) =>
      if bool_decide (method ∈ methods) then
        let (r, a') := commandBody object method args a in
        (r, store a')
      else
        (Throw (TypeError ("this." +:+ object +:+ "." +:+ method +:+ " is not a function")),
         this)
  end.

Definition failed (what : string) (error : error) : Cmd value :=
  mret (VStr (formatError (VStr (what +:+ err_message error)) VNull)).

Definition usage (text : string) : Cmd value :=
  mret (VStr (formatError (VStr text) VNull)).

Definition strings (args : list string) : value := VArr (map VStr args).

Definition handleTasksCommand (args : list string) : Cmd value :=
  ok ← ensureConfigured;
  if negb ok then mret VUndefined else
  cmdTry
    (let filters := parseTaskFilters args in
     invoke "taskCommands" TaskCommands_methods "listTasks" [filters])
    (failed "Error fetching tasks: ").

Definition handleProjectsCommand : Cmd value :=
  ok ← ensureConfigured;
  if negb ok then mret VUndefined else
  cmdTry
    (invoke "projectCommands" ProjectCommands_methods "listProjects" [])
    (failed "Error fetching projects: ").

Definition handleCreateTaskCommand (args : list string) : Cmd value :=
  ok ← ensureConfigured;
  if negb ok then mret VUndefined else
  cmdTry
    (taskData ← invoke "taskCommands" TaskCommands_methods "parseTaskArgs" [strings args];
     invoke "taskCommands" TaskCommands_methods "createTask" [taskData])
    (failed "Error creating task: ").

Definition handleStartTaskCommand (args : list string) : Cmd value :=
  ok ← ensureConfigured;
  if negb ok then mret VUndefined else
  cmdTry
    (taskId ← invoke "taskCommands" TaskCommands_methods "extractTaskId" [strings args];
     if negb (truthy taskId) then
       usage "Please provide a valid task ID: /pms-start-task <task-id>"
     else invoke "taskCommands" TaskCommands_methods "startTask" [taskId])
    (failed "Error starting task: ").

Definition handleCompleteTaskCommand (args : list string) : Cmd value :=
  ok ← ensureConfigured;
  if negb ok then mret VUndefined else
  cmdTry
    (parsed ← invoke "taskCommands" TaskCommands_methods "parseCompletionArgs" [strings args];
     taskId ← cmdLift (get parsed "taskId");
     notes ← cmdLift (get parsed "notes");
     if negb (truthy taskId) then
       usage "Please provide a valid task ID: /pms-complete-task <task-id> [notes]"
     else
       let completionData :=
         VObj [("completion_notes", or_else notes (VStr "Task completed via PMS plugin"));
               ("deliverables", VArr [])] in
       invoke "taskCommands" TaskCommands_methods "completeTask" [taskId; completionData])
    (failed "Error completing task: ").

Definition liftApi {A} (m : Api A) : Cmd A := fun this =>
  match api this with
  | Some a =>
      let (r, a') := m a in
      (r, MkPMSPlugin (config this) (Some a') (criticalChainCommands this))
  | None => (Throw (TypeError "Cannot read properties of null"), this)
  end.

Definition handleStatusCommand : Cmd value := fun this =>
  match api this with
  | None => (statusNotConfigured, this)
  | Some _ =>
      cmdTry
        (info ← liftApi (getSystemInfo H);
         mret (VStr (formatSystemInfo info)))
        (fun error => cmdLift (statusConnectionError error))
        this
  end.

Definition handleCCPMEnableCommand (args : list string) : Cmd value :=
  ok ← ensureConfigured;
  if negb ok then mret VUndefined else
  cmdTry
    (let projectId := extractProjectId args in
     if negb (truthy projectId) then
       usage "Please provide a project ID: /ccpm-enable <project-id> [options]"
     else
       let settings := parseCCPMSettings args in
       invoke "criticalChainCommands" CriticalChainCommands_methods "enableCCPM"
         [projectId; settings])
    (failed "Error enabling CCPM: ").

Definition handleCCPMAnalyzeCommand (args : list string) : Cmd value :=
  ok ← ensureConfigured;
  if negb ok then mret VUndefined else
  cmdTry
    (let projectId := extractProjectId args in
     if negb (truthy projectId) then
       usage "Please provide a project ID: /ccpm-analyze <project-id>"
     else
       invoke "criticalChainCommands" CriticalChainCommands_methods "analyzeCriticalChain"
         [projectId])
    (failed "Error analyzing critical chain: ").

Definition handleCCPMReportCommand (args : list string) : Cmd value :=
  ok ← ensureConfigured;
  if negb ok then mret VUndefined else
  cmdTry
    (let projectId := extractProjectId args in
     if negb (truthy projectId) then
       usage "Please provide a project ID: /ccpm-report <project-id>"
     else
       invoke "criticalChainCommands" CriticalChainCommands_methods "generateCCPMReport"
         [projectId])
    (failed "Error generating CCPM report: ").

Definition handleCCPMResourcesCommand (args : list string) : Cmd value :=
  ok ← ensureConfigured;
  if negb ok then mret VUndefined else
  cmdTry
    (let projectId := extractProjectId args in
     if negb (truthy projectId) then
       usage "Please provide a project ID: /ccpm-resources <project-id>"
     else
       invoke "criticalChainCommands" CriticalChainCommands_methods "getResourceLoading"
         [projectId])
    (failed "Error getting resource loading: ").

Definition handleCCPMBuffersCommand (args : list string) : Cmd value :=
  ok ← ensureConfigured;
  if negb ok then mret VUndefined else
  cmdTry
    (let projectId := extractProjectId args in
     if negb (truthy projectId) then
       usage "Please provide a project ID: /ccpm-buffers <project-id>"
     else
       invoke "criticalChainCommands" CriticalChainCommands_methods "identifyFeedingBuffers"
         [projectId])
    (failed "Error identifying feeding buffers: ").

Definition handleCCPMRecalculateCommand (args : list string) : Cmd value :=
  ok ← ensureConfigured;
  if negb ok then mret VUndefined else
  cmdTry
    (let projectId := extractProjectId args in
     if negb (truthy projectId) then
       usage "Please provide a project ID: /ccpm-recalculate <project-id>"
     else
       invoke "criticalChainCommands" CriticalChainCommands_methods
         "recalculateCriticalChain" [projectId])
    (failed "Error recalculating critical chain: ").

Definition handleCCPMDashboardCommand : Cmd value :=
  ok ← ensureConfigured;
  if negb ok then mret VUndefined else
  cmdTry
    (invoke "criticalChainCommands" CriticalChainCommands_methods "getCCPMDashboard" [])
    (failed "Error getting CCPM dashboard: ").

Definition handleCCPMUpdateBufferCommand (args : list string) : Cmd value :=
  ok ← ensureConfigured;
  if negb ok then mret VUndefined else
  cmdTry
    (let '(taskId, percentage) := parseBufferUpdateArgs args in
     if falsy taskId || falsy percentage then
       usage ("Please provide task ID and buffer percentage: "
              +:+ "/ccpm-update-buffer <task-id> <percentage>")
     else
       invoke "criticalChainCommands" CriticalChainCommands_methods "updateTaskBuffer"
         [from_option VNum VNull taskId; from_option bufferData VNull percentage])
    (failed "Error updating task buffer: ").

(** The handlers registered by [getSlashCommands] that start with the
    [ensureConfigured] guard, by command name. *)
Definition guardedHandlers : list (string * (list string -> Cmd value)) :=
  [ ("pms-tasks", handleTasksCommand);
    ("pms-projects", fun _ => handleProjectsCommand);
    ("pms-create-task", handleCreateTaskCommand);
    ("pms-start-task", handleStartTaskCommand);
    ("pms-complete-task", handleCompleteTaskCommand);
    ("ccpm-enable", handleCCPMEnableCommand);
    ("ccpm-analyze", handleCCPMAnalyzeCommand);
    ("ccpm-report", handleCCPMReportCommand);
    ("ccpm-resources", handleCCPMResourcesCommand);
    ("ccpm-buffers", handleCCPMBuffersCommand);
    ("ccpm-recalculate", handleCCPMRecalculateCommand);
    ("ccpm-dashboard", fun _ => handleCCPMDashboardCommand);
    ("ccpm-update-buffer", handleCCPMUpdateBufferCommand) ].

End Handlers.

(** ** Vocabulary of the properties *)

(** The uniform failure shape: an object that starts with [success: false],
    a non-empty [message], [status] and [data], in this order; the only
    field that may follow is the [details] of the diagnostic mode. *)
Definition normalizedError (v : value) : Prop :=
  exists message status data rest,
    v = VObj (("success", VBool false) :: ("message", message) :: ("status", status)
              :: ("data", data) :: rest)
    /\ truthy message = true
    /\ (rest = [] \/ exists details, rest = [("details", details)]).

(** [v] is what a fulfilled request of this call unwrapped to: the last
    request on the wire was answered, and [v] is the body of the answer. *)
Definition unwrappedPayload (H : host) (this' : PMSAPI) (v : value) : Prop :=
  exists req r,
    last (wire this') = Some req /\ transport H req = Fulfilled r /\ v = data r.

(** A transport that answers every request with 401 and a message in the
    body, in a process that is not in diagnostic mode. *)
Definition unauthorized : host :=
  Host false
    (fun _ => Rejected (MkError "AxiosError" "Request failed with status code 401"
                          (Some (Response 401 (VObj [("message", VStr "Unauthenticated.")])))
                          (VObj [("url", VStr "/api/ai/projects")])))
    (fun _ => Normal []).

(** The identity markers [testConnection] looks for, each tested for
    truthiness. *)
Definition hasTruthyMarker (payload : value) : bool :=
  truthy (get_opt payload "ai_version") || truthy (get_opt payload "version")
  || truthy (get_opt payload "id").

(** The payload has one of the marker fields, whatever its value. *)
Definition containsMarker (payload : value) : Prop :=
  exists fs, payload = VObj fs /\
    (has_field "ai_version" fs = true \/ has_field "version" fs = true
     \/ has_field "id" fs = true).

(** The request [getSystemInfo] sends. *)
Definition systemInfoRequest (this : PMSAPI) : request :=
  Request GET (entry (getEndpoints this) "systemInfo") None (requestHeaders (client this)).

(** An error that carries no HTTP response. *)
Definition plain (e : error) : Prop := err_response e = None.

(** Whatever the computation throws carries no HTTP response. *)
Definition throwsPlain {A} (c : completion A) : Prop :=
  forall e, c = Throw e -> plain e.

(** The same on the methods: what a [try] block throws. *)
Definition apiThrowsPlain {A} (m : Api A) : Prop :=
  forall this e this', m this = (Throw e, this') -> plain e.

(** A backend whose system-info payload carries a marker field with a falsy
    value. *)
Definition zeroIdHost : host :=
  Host false (fun _ => Fulfilled (Response 200 (VObj [("id", VInt 0)]))) (fun _ => Normal []).

(** Every value among the translated parameters is a value the caller
    supplied under some field. *)
Definition onlySuppliedValues (supplied params : list (string * value)) : Prop :=
  forall k v, (k, v) ∈ params -> exists k', (k', v) ∈ supplied.

(** The table has an entry under the key. *)
Definition hasEntry (t : gmap string endpoint) (k : string) : bool :=
  match t !! k with
  | Some _ => true
  | None => false
  end.

(** A plugin after a successful [initConfig], on the native backend. *)
Definition configuredPlugin : PMSPlugin :=
  MkPMSPlugin
    (VObj [("baseUrl", VStr "https://pms.test"); ("apiToken", VStr "secret-token")])
    (Some (adapterFor (VStr "laracollab") "secret-token"))
    AroundApi.

(** A plugin before any configuration: the default configuration record and
    no adapter. *)
Definition freshPlugin : PMSPlugin :=
  MkPMSPlugin (VObj [("baseUrl", VStr ""); ("apiToken", VStr "")]) None NoObject.

(** A command-object behaviour to run examples with. *)
Definition silentBody : string -> string -> list value -> Api value :=
  fun _ _ _ => mret VUndefined.

(** The plugin is not configured: no adapter, or a configuration record
    without a base URL or without a token. *)
Definition notConfigured (this : PMSPlugin) : Prop :=
  api this = None \/ isConfigured (config this) = Normal false.

(** The verb of the request each method sends. *)
Definition verbOf (c : call) : verb :=
  match c with
  | CreateTask _ | StartTask _ | CompleteTask _ _ | AddTaskComment _ _ _
  | EnableCCPM _ _ | RecalculateCriticalChain _ => POST
  | UpdateTaskProgress _ _ | UpdateBufferStatus _ _ | UpdateTaskBuffer _ _ => PUT
  | _ => GET
  end.

(** The configuration of the adapter: everything but the last-error slot
    and the wire. *)
Definition sameConfiguration (this this' : PMSAPI) : Prop :=
  baseUrl this' = baseUrl this /\ apiToken this' = apiToken this
  /\ timeout this' = timeout this /\ systemType this' = systemType this
  /\ client this' = client this.

(** The message the response interceptor extracts from a rejection: the
    [message] of the response body when it is truthy, the error's own
    message otherwise. *)
Definition rejectionMessage (e : error) : value :=
  or_else (match err_response e with
           | Some r => get_opt (data r) "message"
           | None => VUndefined
           end)
          (VStr (err_message e)).

(** [this.baseUrl] and [this.timeout] agree with the client's defaults. *)
Definition inSync (this : PMSAPI) : Prop :=
  baseUrl this = defaults_baseURL (client this)
  /\ timeout this = defaults_timeout (client this).

(** Where a translated task payload keeps the task's name and description,
    by profile. *)
Definition taskNameIn (p : profile) (payload : value) : value :=
  match p with
  | Jira => get_opt (get_opt payload "fields") "summary"
  | _ => get_opt payload "name"
  end.

Definition taskDescriptionIn (p : profile) (payload : value) : value :=
  match p with
  | Laracollab | Custom => get_opt payload "description"
  | Jira => get_opt (get_opt payload "fields") "description"
  | Asana => get_opt payload "notes"
  | Trello => get_opt payload "desc"
  end.

(** The data argument of the call, where it has one a translator reads, is
    an object. *)
Definition objectData (c : call) : Prop :=
  match c with
  | GetTasks d | CreateTask d | UpdateTaskProgress _ d | CompleteTask _ d
  | EnableCCPM _ d | UpdateBufferStatus _ d | UpdateTaskBuffer _ d =>
      exists fs, d = VObj fs
  | _ => True
  end.

(** The entry is a function of an id. *)
Definition isTemplate (e : option endpoint) : bool :=
  match e with
  | Some (Template _) => true
  | _ => false
  end.

(** The entry is a path. *)
Definition isPath (e : option endpoint) : bool :=
  match e with
  | Some (Path _) => true
  | _ => false
  end.

(** The plugin is configured: it has an adapter, and the configuration
    record has a base URL and a token. *)
Definition configured (this : PMSPlugin) : Prop :=
  is_Some (api this) /\ isConfigured (config this) = Normal true.

(** An argument [extractProjectId] stops at. *)
Definition isIdCandidate (arg : string) : bool :=
  matchesDigits arg || startsWith arg "project:".

(** The usage text of the buffer command. *)
Definition bufferUsage : string :=
  "Please provide task ID and buffer percentage: "
  +:+ "/ccpm-update-buffer <task-id> <percentage>".

(** A field [parseTaskFilters] may produce. *)
Definition validFilterField (kv : string * value) : Prop :=
  (fst kv = "status"
   /\ snd kv ∈ [VStr "completed"; VStr "pending"; VStr "in_progress"])
  \/ (fst kv = "priority"
      /\ snd kv ∈ [VStr "urgent"; VStr "high"; VStr "medium"; VStr "low"])
  \/ (fst kv = "project_id"
      /\ exists n, snd kv = VNum n /\ truthy (VNum n) = true).

(** ** Numeric conversion *)

(** The formatters and the configuration check convert values to numbers,
    compare them with further integer literals (5, 10, 25, 85, 300) and
    divide by 10 and by 60.  Quotients and remainders are the exact
    rationals; binary64 rounding stays outside the model. *)

(** The exponent part of a decimal literal and what follows it; without
    digits after the [e] there is no exponent part. *)
Definition takeExponentRest (s : string) : Z * string :=
  match s with
  | String c rest =>
      if Ascii.eqb c "e"%char || Ascii.eqb c "E"%char then
        let (neg, r) := takeSign rest in
        let (ds, after) := takeDigits r in
        if String.eqb ds "" then (0%Z, s)
        else (if neg then (- digitsValue ds)%Z else digitsValue ds, after)
      else (0%Z, s)
  | EmptyString => (0%Z, "")
  end.

(** A signed decimal literal at the head of [s], and what follows it. *)
Definition takeDecimalLiteral (s : string) : option (number * string) :=
  let (neg, s1) := takeSign s in
  if String.prefix "Infinity" s1
  then Some (if neg then NegInf else PosInf, String.substring 8 (String.length s1 - 8) s1)
  else
    let (ip, r1) := takeDigits s1 in
    let (fp, r2) := match r1 with
                    | String c r => if Ascii.eqb c "."%char then takeDigits r else ("", r1)
                    | EmptyString => ("", r1)
                    end in
    if String.eqb ip "" && String.eqb fp "" then None
    else
      let (e, r3) := takeExponentRest r2 in
      let mantissa :=
        Qplus (inject_Z (digitsValue ip))
              (Qmult (inject_Z (digitsValue fp)) (pow10 (- Z.of_nat (String.length fp)))) in
      let q := Qred (Qmult mantissa (pow10 e)) in
      Some (Fin (if neg then Qopp q else q), r3).

Definition radixDigit (radix : Z) (c : ascii) : option Z :=
  match hexValue c with
  | Some d => if (d <? radix)%Z then Some d else None
  | None => None
  end.

(** The value of [s] read in the radix; [None] unless [s] is a non-empty
    string of digits of that radix. *)
Fixpoint radixValue (radix : Z) (acc : option Z) (s : string) : option Z :=
  match s with
  | String c rest =>
      match radixDigit radix c with
      | Some d => radixValue radix (Some (default 0%Z acc * radix + d)%Z) rest
      | None => None
      end
  | EmptyString => acc
  end.

(** A literal [0x..], [0o..] or [0b..] that is the whole of [s]. *)
Definition nonDecimalLiteral (s : string) : option Z :=
  match s with
  | String z (String r digits) =>
      if Ascii.eqb z "0"%char then
        if Ascii.eqb r "x"%char || Ascii.eqb r "X"%char then radixValue 16 None digits
        else if Ascii.eqb r "o"%char || Ascii.eqb r "O"%char then radixValue 8 None digits
        else if Ascii.eqb r "b"%char || Ascii.eqb r "B"%char then radixValue 2 None digits
        else None
      else None
  | _ => None
  end.

(** Drop white space at the end. *)
Fixpoint trimEndFuel (fuel : nat) (s : string) : string :=
  match fuel with
  | O => s
  | S fuel' =>
      match s with
      | EmptyString => ""
      | String c rest =>
          if String.eqb (trimStart s) "" then ""
          else String c (trimEndFuel fuel' rest)
      end
  end.

(** StringToNumber: the trimmed string is empty (0), a non-decimal integer
    literal, or a signed decimal literal and nothing else; anything else is
    NaN. *)
Definition stringToNumber (s : string) : number :=
  let t := trimStart s in
  if String.eqb t "" then Fin 0
  else
    let t := trimEndFuel (String.length t) t in
    match nonDecimalLiteral t with
    | Some z => Fin (inject_Z z)
    | None =>
        match takeDecimalLiteral t with
        | Some (n, rest) => if String.eqb rest "" then n else NaN
        | None => NaN
        end
    end.

(** ToNumber.  An array converts through its string form, a plain object
    through '[object Object]'; as in [toString], an object is taken to
    inherit its [toString] and [valueOf]. *)
Definition toNumber (v : value) : number :=
  match v with
  | VUndefined => NaN
  | VNull => Fin 0
  | VBool true => Fin 1
  | VBool false => Fin 0
  | VNum n => n
  | VStr s => stringToNumber s
  | VArr _ => stringToNumber (toString v)
  | VObj _ => NaN
  end.

(** The integer part of [q], towards zero. *)
Definition Qtruncate (q : Q) : Z := (Qnum q ÷ Zpos (Qden q))%Z.

(** [a < b] on numbers. *)
Definition lessThan (a b : number) : bool := gt b a.

(** [x / d] for a positive literal [d]. *)
Definition divBy (x : number) (d : Q) : number :=
  match x with
  | Fin q => Fin (q / d)
  | _ => x
  end.

(** [Math.round]: the nearest integer, halves towards plus infinity. *)
Definition mathRound (x : number) : number :=
  match x with
  | Fin q => Fin (inject_Z (Qfloor (q + (1 # 2))))
  | _ => x
  end.

(** [Math.floor] *)
Definition mathFloor (x : number) : number :=
  match x with
  | Fin q => Fin (inject_Z (Qfloor q))
  | _ => x
  end.

(** [k - x] for a literal [k]. *)
Definition minusFrom (k : Q) (x : number) : number :=
  match x with
  | NaN => NaN
  | PosInf => NegInf
  | NegInf => PosInf
  | Fin q => Fin (k - q)
  end.

Definition RangeError (msg : string) : error := MkError "RangeError" msg None VUndefined.

Fixpoint repeatString (s : string) (n : nat) : string :=
  match n with
  | O => ""
  | S n' => s +:+ repeatString s n'
  end.

(** [s.repeat(count)]: the count is truncated to an integer (NaN counts as
    0); a negative or infinite count is a RangeError.  The engine's limit on
    the length of a string, past which [repeat] throws a RangeError as
    well, is not modelled. *)
Definition stringRepeat (s : string) (count : number) : completion string :=
  match count with
  | NaN => Normal ""
  | Fin q =>
      let n := Qtruncate q in
      if (n <? 0)%Z then Throw (RangeError ("Invalid count value: " +:+ numberToString count))
      else Normal (repeatString s (Z.to_nat n))
  | _ => Throw (RangeError ("Invalid count value: " +:+ numberToString count))
  end.

(** [x % d] for a positive literal [d]: the remainder has the sign of [x]. *)
Definition remBy (x : number) (d : Q) : number :=
  match x with
  | Fin q => Fin (q - d * inject_Z (Qtruncate (q / d)))
  | _ => NaN
  end.

(** The length of a string in UTF-16 code units, counted on its UTF-8
    bytes: a continuation byte counts 0, the first byte of a four-byte
    sequence 2, every other byte 1. *)
Fixpoint utf16Length (s : string) : nat :=
  match s with
  | EmptyString => 0
  | String c rest =>
      let n := nat_of_ascii c in
      ((if (128 <=? n)%nat && (n <? 192)%nat then 0
        else if (240 <=? n)%nat then 2 else 1) + utf16Length rest)%nat
  end.

(** [l.join(sep)] on an array of strings. *)
Fixpoint join (sep : string) (l : list string) : string :=
  match l with
  | [] => ""
  | [x] => x
  | x :: rest => x +:+ sep +:+ join sep rest
  end.

(** ** src/utils/formatters.js: bars, durations and buffer health *)

(** [getProgressBar(progress)].  The template evaluates the two [repeat]
    calls from left to right. *)
Definition getProgressBar (progress : value) : completion string :=
  let filled := mathRound (divBy (toNumber progress) 10) in
  let empty := minusFrom 10 filled in
  bar ← stringRepeat "█" filled;
  rest ← stringRepeat "░" empty;
  mret (" [" +:+ bar +:+ rest +:+ "]").

(** [formatDuration(minutes)], in formatters.js and, with the same body, in
    [TaskCommands]. *)
Definition formatDuration (minutes : value) : string :=
  let hours := mathFloor (divBy (toNumber minutes) 60) in
  let mins := remBy (toNumber minutes) 60 in
  if gt hours (Fin 0) then numberToString hours +:+ "h " +:+ numberToString mins +:+ "m"
  else numberToString mins +:+ "m".

(** [getBufferHealth(percentage)] *)
Definition getBufferHealth (percentage : value) : string :=
  if le (toNumber percentage) (Fin 25) then "🟢 Healthy"
  else if le (toNumber percentage) (Fin 50) then "🟡 Caution"
  else if le (toNumber percentage) (Fin 75) then "🟠 Warning"
  else "🔴 Critical".

(** [getBufferStatus(percentage)] *)
Definition getBufferStatus (percentage : value) : value :=
  if le (toNumber percentage) (Fin 25) then
    VObj [("emoji", VStr "🟢"); ("status", VStr "Healthy")]
  else if le (toNumber percentage) (Fin 50) then
    VObj [("emoji", VStr "🟡"); ("status", VStr "Caution")]
  else if le (toNumber percentage) (Fin 75) then
    VObj [("emoji", VStr "🟠"); ("status", VStr "Warning")]
  else VObj [("emoji", VStr "🔴"); ("status", VStr "Critical")].

(** ** class TaskCommands: the argument parsers *)

(** [extractTaskId(args)]: the first argument that is all digits. *)
Fixpoint extractTaskId (args : list string) : value :=
  match args with
  | [] => VNull
  | arg :: rest =>
      if matchesDigits arg then VNum (parseInt arg) else extractTaskId rest
  end.

(** [parseCompletionArgs(args)] *)
Definition parseCompletionArgs (args : list string) : value :=
  let taskId := extractTaskId args in
  let notes := join " " (filter (fun arg => negb (matchesDigits arg)) args) in
  VObj [("taskId", taskId); ("notes", VStr notes)].

(** [parseTaskArgs(args)]; [now] is what [new Date().toISOString()] gives
    at the call. *)
Definition parseTaskArgs (now : string) (args : list string) : value :=
  let '(taskData, textParts) :=
    fold_left
      (fun '(taskData, textParts) arg =>
         if startsWith arg "project:" then
           (set_field "project_id" (VNum (parseInt (removeFirst "project:" arg))) taskData,
            textParts)
         else if startsWith arg "estimate:" then
           (set_field "estimation" (VNum (parseFloat (removeFirst "estimate:" arg))) taskData,
            textParts)
         else if startsWith arg "type:" then
           (set_field "pricing_type" (VStr (removeFirst "type:" arg)) taskData, textParts)
         else if startsWith arg "name:" then
           (set_field "name" (VStr (removeFirst "name:" arg)) taskData, textParts)
         else if startsWith arg "desc:" then
           (set_field "description" (VStr (removeFirst "desc:" arg)) taskData, textParts)
         else (taskData, (textParts ++ [arg])%list))
      args ([], []) in
  let taskData :=
    if negb (truthy (lookup_field "name" taskData))
    then set_field "name" (VStr (join " " textParts)) taskData
    else taskData in
  let taskData :=
    if negb (truthy (lookup_field "description" taskData))
    then set_field "description" (VStr ("Created via Claude Code plugin at " +:+ now)) taskData
    else taskData in
  VObj taskData.

(** The field a parser leaves for an optional string. *)
Definition fieldOf (explicit : option string) : value :=
  match explicit with
  | Some s => VStr s
  | None => VUndefined
  end.

(** An argument [parseTaskArgs] keeps as a word of the task name. *)
Definition isFreeWord (arg : string) : bool :=
  negb (startsWith arg "project:" || startsWith arg "estimate:" || startsWith arg "type:"
        || startsWith arg "name:" || startsWith arg "desc:").

(** What follows the prefix in the last argument that starts with it. *)
Definition explicitValue (prefix : string) (args : list string) : option string :=
  last (map (removeFirst prefix) (filter (fun arg => startsWith arg prefix = true) args)).

(** The explicit value when there is a non-empty one, the fallback
    otherwise. *)
Definition nonEmptyOr (explicit : option string) (fallback : string) : string :=
  match explicit with
  | Some s => if String.eqb s "" then fallback else s
  | None => fallback
  end.

(** The strings of an array of strings. *)
Definition stringsOf (v : value) : list string :=
  match v with
  | VArr items => omap (fun x => match x with VStr s => Some s | _ => None end) items
  | _ => []
  end.

(** Command objects whose two task-id parsers are those of [TaskCommands]
    and whose other methods return nothing. *)
Definition taskParsers : string -> string -> list value -> Api value :=
  fun _ method args =>
    match args with
    | [a] =>
        if String.eqb method "extractTaskId" then mret (extractTaskId (stringsOf a))
        else if String.eqb method "parseCompletionArgs"
             then mret (parseCompletionArgs (stringsOf a))
             else mret VUndefined
    | _ => mret VUndefined
    end.

(** ** Reading arrays and lengths *)

(** [v.length] *)
Definition lengthOf (v : value) : completion value :=
  match v with
  | VUndefined | VNull =>
      Throw (TypeError ("Cannot read properties of " +:+ toString v
                        +:+ " (reading 'length')"))
  | VStr s => Normal (VInt (Z.of_nat (utf16Length s)))
  | VArr items => Normal (VInt (Z.of_nat (length items)))
  | VObj fs => Normal (lookup_field "length" fs)
  | _ => Normal VUndefined
  end.

(** [v && v.length > 0] as the test of an [if]. *)
Definition hasItems (v : value) : completion bool :=
  if truthy v then
    len ← lengthOf v;
    mret (gt (toNumber len) (Fin 0))
  else mret false.

(** [v.forEach((item, index) => { output += ... })]: the callback appends to
    the variable [output] of the enclosing function.  Only an array has a
    [forEach]; [what] is the source text of [v], for the error message. *)
Definition forEach (what : string) (v : value)
  (f : nat -> value -> string -> completion string) (output : string) : completion string :=
  match v with
  | VArr items =>
      (fix each (index : nat) (l : list value) (output : string) : completion string :=
         match l with
         | [] => Normal output
         | item :: rest =>
             output ← f index item output;
             each (S index) rest output
         end) 0%nat items output
  | VUndefined | VNull =>
      Throw (TypeError ("Cannot read properties of " +:+ toString v
                        +:+ " (reading 'forEach')"))
  | _ => Throw (TypeError (what +:+ ".forEach is not a function"))
  end.

(** ** src/utils/formatters.js: success messages *)

(** [formatData(data, indent = 0)] *)
Definition formatData (data : value) (indent : number) : completion string :=
  spaces ← stringRepeat "  " indent;
  match data with
  | VArr _ =>
      forEach "data" data
        (fun _ item output => Normal (output +:+ spaces +:+ "• " +:+ toString item +:+ nl))
        ""
  | VObj fs =>
      Normal (fold_left
                (fun output '(key, value) =>
                   output +:+ spaces +:+ "**" +:+ key +:+ ":** " +:+ toString value +:+ nl)
                fs "")
  | VNull => Throw (TypeError "Cannot convert undefined or null to object")
  | _ => Normal (spaces +:+ toString data +:+ nl)
  end.

(** [formatSuccess(message, data = null)] *)
Definition formatSuccess (message data : value) : completion string :=
  let output := "**✅ " +:+ toString message +:+ "**" in
  if truthy data then
    text ← formatData data (Fin 0);
    Normal (output +:+ nl +:+ nl +:+ text)
  else Normal output.

(** ** class CriticalChainCommands *)

(** Each method awaits one method of the adapter and renders the answer
    inside [try]; the rendering reads the answer only, so it is written as a
    function of the answer. *)
Module CriticalChainCommands.

Definition renderBufferStatus (projectId response : value) : completion string :=
  success ← get response "success";
  if truthy success then
    status ← get response "data";
    let title := "Buffer status updated for Project #" +:+ toString projectId +:+ "!" in
    consumed ← get status "project_buffer_consumed";
    feeding ← get status "total_feeding_buffers_consumed";
    onTrack ← get status "critical_tasks_on_track";
    inDanger ← get status "tasks_in_danger";
    recommendation ← get status "recommendation";
    formatSuccess (VStr title)
      (VObj [("Project Buffer Consumed", VStr (toString consumed +:+ "%"));
             ("Total Feeding Buffers Consumed", VStr (toString feeding +:+ "%"));
             ("Critical Tasks on Track", onTrack);
             ("Tasks in Danger", inDanger);
             ("Recommendation", recommendation)])
  else
    message ← get response "message";
    Normal (formatError (or_else message (VStr "Failed to update buffer status")) VNull).

(** [updateBufferStatus(projectId, bufferData)] *)
Definition updateBufferStatus (H : host) (projectId bufferData : value) : Api value :=
  tryCatch
    (response ← updateBufferStatus H projectId bufferData;
     text ← lift (renderBufferStatus projectId response);
     mret (VStr text))
    (fun error =>
       mret (VStr (formatError
                     (VStr ("Error updating buffer status: " +:+ err_message error)) VNull))).

Definition renderRecalculation (projectId response : value) : completion string :=
  success ← get response "success";
  if truthy success then
    result ← get response "data";
    let output := "**🔄 Critical Chain Recalculated for Project #" +:+ toString projectId
                  +:+ "**" +:+ nl +:+ nl in
    new_duration ← get result "new_duration";
    let output := output +:+ "**New Critical Chain Duration:** " +:+ toString new_duration
                  +:+ " days" +:+ nl in
    duration_change ← get result "duration_change";
    let output := output +:+ "**Duration Change:** "
                  +:+ (if gt (toNumber duration_change) (Fin 0) then "+" else "")
                  +:+ toString duration_change +:+ " days" +:+ nl in
    tasks_affected ← get result "tasks_affected";
    let output := output +:+ "**Critical Tasks Affected:** " +:+ toString tasks_affected
                  +:+ nl in
    buffers_adjusted ← get result "buffers_adjusted";
    let output := output +:+ "**Buffers Adjusted:** " +:+ toString buffers_adjusted
                  +:+ nl +:+ nl in
    changes ← get result "changes";
    found ← hasItems changes;
    if (found : bool) then
      let output := output +:+ "**Changes Made:**" +:+ nl in
      forEach "result.changes" changes
        (fun _ change output =>
           task ← get change "task";
           description ← get change "description";
           Normal (output +:+ "- " +:+ toString task +:+ ": " +:+ toString description +:+ nl))
        output
    else Normal output
  else
    message ← get response "message";
    Normal (formatError (or_else message (VStr "Failed to recalculate critical chain")) VNull).

(** [recalculateCriticalChain(projectId)] *)
Definition recalculateCriticalChain (H : host) (projectId : value) : Api value :=
  tryCatch
    (response ← recalculateCriticalChain H projectId;
     text ← lift (renderRecalculation projectId response);
     mret (VStr text))
    (fun error =>
       mret (VStr (formatError
                     (VStr ("Error recalculating critical chain: " +:+ err_message error))
                     VNull))).

Definition renderResourceLoading (projectId response : value) : completion string :=
  success ← get response "success";
  if truthy success then
    analysis ← get response "data";
    let output := "**👥 Resource Loading Analysis for Project #" +:+ toString projectId
                  +:+ "**" +:+ nl +:+ nl in
    overall ← get analysis "overall_utilization";
    let output := output +:+ "**Overall Resource Utilization:** " +:+ toString overall
                  +:+ "%" +:+ nl in
    target ← get analysis "target_utilization";
    let output := output +:+ "**Target Utilization:** " +:+ toString target +:+ "%" +:+ nl in
    status ← get analysis "utilization_status";
    let output := output +:+ "**Status:** " +:+ toString status +:+ nl +:+ nl in
    resources ← get analysis "resources";
    found ← hasItems resources;
    output ← (if (found : bool) then
                let output := output +:+ "**Resource Details:**" +:+ nl in
                output ← forEach "analysis.resources" resources
                  (fun _ resource output =>
                     name ← get resource "name";
                     utilization ← get resource "utilization";
                     tasks_assigned ← get resource "tasks_assigned";
                     let output := output +:+ "- " +:+ toString name +:+ ": "
                                   +:+ toString utilization +:+ "% ("
                                   +:+ toString tasks_assigned +:+ " tasks)" +:+ nl in
                     Normal (if gt (toNumber utilization) (Fin 85)
                             then output +:+ "  ⚠️ Overloaded" +:+ nl
                             else if lessThan (toNumber utilization) (Fin 50)
                                  then output +:+ "  ℹ️ Underutilized" +:+ nl
                                  else output))
                  output;
                Normal (output +:+ nl)
              else Normal output);
    conflicts ← get analysis "conflicts";
    found ← hasItems conflicts;
    if (found : bool) then
      let output := output +:+ "**🚨 Resource Conflicts:**" +:+ nl in
      forEach "analysis.conflicts" conflicts
        (fun _ conflict output =>
           resource ← get conflict "resource";
           description ← get conflict "description";
           Normal (output +:+ "- " +:+ toString resource +:+ ": " +:+ toString description
                   +:+ nl))
        output
    else Normal output
  else
    message ← get response "message";
    Normal (formatError (or_else message (VStr "Failed to get resource loading")) VNull).

(** [getResourceLoading(projectId)] *)
Definition getResourceLoading (H : host) (projectId : value) : Api value :=
  tryCatch
    (response ← getResourceLoading H projectId;
     text ← lift (renderResourceLoading projectId response);
     mret (VStr text))
    (fun error =>
       mret (VStr (formatError
                     (VStr ("Error getting resource loading: " +:+ err_message error))
                     VNull))).

Definition renderFeedingBuffers (projectId response : value) : completion string :=
  success ← get response "success";
  if truthy success then
    buffers ← get response "data";
    let output := "**🛡️ Feeding Buffer Analysis for Project #" +:+ toString projectId
                  +:+ "**" +:+ nl +:+ nl in
    required ← get buffers "required_buffers";
    found ← hasItems required;
    output ← (if (found : bool) then
                let output := output +:+ "**Tasks Requiring Feeding Buffers:**" +:+ nl in
                forEach "buffers.required_buffers" required
                  (fun index buffer output =>
                     task_id ← get buffer "task_id";
                     task_name ← get buffer "task_name";
                     let output := output +:+ showN (N.of_nat (index + 1)) +:+ ". #"
                                   +:+ toString task_id +:+ " - " +:+ toString task_name
                                   +:+ nl in
                     suggested ← get buffer "suggested_buffer_days";
                     let output := output +:+ "   Suggested Buffer: " +:+ toString suggested
                                   +:+ " days" +:+ nl in
                     risk_level ← get buffer "risk_level";
                     let output := output +:+ "   Risk Level: " +:+ toString risk_level
                                   +:+ nl in
                     reason ← get buffer "reason";
                     Normal (output +:+ "   Reason: " +:+ toString reason +:+ nl +:+ nl))
                  output
              else Normal output);
    existing ← get buffers "existing_buffers";
    found ← hasItems existing;
    output ← (if (found : bool) then
                let output := output +:+ "**Existing Feeding Buffers:**" +:+ nl in
                output ← forEach "buffers.existing_buffers" existing
                  (fun _ buffer output =>
                     task_id ← get buffer "task_id";
                     task_name ← get buffer "task_name";
                     buffer_days ← get buffer "buffer_days";
                     Normal (output +:+ "- #" +:+ toString task_id +:+ " - "
                             +:+ toString task_name +:+ ": " +:+ toString buffer_days
                             +:+ " days" +:+ nl))
                  output;
                Normal (output +:+ nl)
              else Normal output);
    total ← get buffers "total_buffer_days";
    let output := output +:+ "**Total Buffer Days:** " +:+ toString total +:+ nl in
    percentage ← get buffers "buffer_percentage";
    Normal (output +:+ "**Buffer Percentage:** " +:+ toString percentage +:+ "%")
  else
    message ← get response "message";
    Normal (formatError (or_else message (VStr "Failed to identify feeding buffers")) VNull).

(** [identifyFeedingBuffers(projectId)] *)
Definition identifyFeedingBuffers (H : host) (projectId : value) : Api value :=
  tryCatch
    (response ← identifyFeedingBuffers H projectId;
     text ← lift (renderFeedingBuffers projectId response);
     mret (VStr text))
    (fun error =>
       mret (VStr (formatError
                     (VStr ("Error identifying feeding buffers: " +:+ err_message error))
                     VNull))).

End CriticalChainCommands.

(** The four commands of [CriticalChainCommands] that render their answer
    themselves, each with the adapter call it awaits and the text it falls
    back on when the answer has no message. *)
Definition renderedCommands (H : host) (projectId bufferData : value)
  : list (Api value * call * string) :=
  [ (CriticalChainCommands.updateBufferStatus H projectId bufferData,
     UpdateBufferStatus projectId bufferData, "Failed to update buffer status");
    (CriticalChainCommands.recalculateCriticalChain H projectId,
     RecalculateCriticalChain projectId, "Failed to recalculate critical chain");
    (CriticalChainCommands.getResourceLoading H projectId,
     GetResourceLoading projectId, "Failed to get resource loading");
    (CriticalChainCommands.identifyFeedingBuffers H projectId,
     IdentifyFeedingBuffers projectId, "Failed to identify feeding buffers") ].

(** ** src/config.js: class ConfigManager *)

(** What reading a file gave: its text, the error whose [code] is 'ENOENT',
    or another error. *)
Inductive readOutcome : Type :=
| FileText (data : string)
| NoSuchFile (e : error)
| ReadFailed (e : error).

(** [delete obj.k] on an object. *)
Fixpoint delete_field (k : string) (fs : list (string * value)) : list (string * value) :=
  match fs with
  | [] => []
  | (k', v) :: rest =>
      if String.eqb k k' then delete_field k rest else (k', v) :: delete_field k rest
  end.

(** [{...a, ...b}] *)
Definition merge (a b : list (string * value)) : list (string * value) :=
  fold_left (fun acc '(k, v) => set_field k v acc) b a.

(** The value as an integer, when it is a number with an integer value. *)
Definition asInteger (v : value) : option Z :=
  match v with
  | VNum (Fin q) => if (Zpos (Qden (Qred q)) =? 1)%Z then Some (Qnum (Qred q)) else None
  | _ => None
  end.

(** [this.config] is passed and returned explicitly.  [JSON_parse] is
    [JSON.parse]; [validURL s] says that [new URL(s)] does not throw; an
    argument [write] is the error of [fs.mkdir] or [fs.writeFile], if
    there is one. *)
Module ConfigManager.

(** [getDefaultConfig()] *)
Definition getDefaultConfig : list (string * value) :=
  [ ("baseUrl", VStr ""); ("apiToken", VStr ""); ("timeout", VInt 30);
    ("lastSync", VNull); ("defaultProjectId", VNull);
    ("autoStartTasks", VBool false); ("notifications", VBool true);
    ("timeTracking", VObj [("enabled", VBool true); ("roundToNearest", VInt 15);
                           ("autoStop", VBool false)]);
    ("display", VObj [("showCompletedTasks", VBool true); ("tasksPerPage", VInt 20);
                      ("sortBy", VStr "created_at"); ("sortOrder", VStr "desc")]) ].

(** [saveConfig(config = null)]: the result and [this.config] afterwards;
    the assignment comes before the write. *)
Definition saveConfig (write : option error) (config this_config : value)
  : completion value * value :=
  let this_config := if truthy config
                     then VObj (merge (spread this_config) (spread config))
                     else this_config in
  match write with
  | None => (Normal this_config, this_config)
  | Some error =>
      (Throw (Error ("Failed to save configuration: " +:+ err_message error)), this_config)
  end.

(** [loadConfig()]: the result and [this.config] afterwards.  The error of
    [JSON.parse] has no [code], so it is thrown on. *)
Definition loadConfig (JSON_parse : string -> completion value) (file : readOutcome)
  (write : option error) (this_config : value) : completion value * value :=
  match file with
  | FileText data =>
      match JSON_parse data with
      | Normal parsed => (Normal parsed, parsed)
      | Throw error => (Throw error, this_config)
      end
  | NoSuchFile _ => saveConfig write (VObj getDefaultConfig) this_config
  | ReadFailed error => (Throw error, this_config)
  end.

(** The member names of [Object.prototype]: a key outside this list is found
    on the configuration object itself or not at all. *)
Definition inheritedKeys : list string :=
  ["constructor"; "__proto__"; "hasOwnProperty"; "isPrototypeOf"; "propertyIsEnumerable";
   "toLocaleString"; "toString"; "valueOf"; "__defineGetter__"; "__defineSetter__";
   "__lookupGetter__"; "__lookupSetter__"].

(** [get(key, defaultValue = null)], on a configuration object and for a key
    that is not inherited. *)
Definition get (config : list (string * value)) (key : string) (defaultValue : value)
  : value :=
  or_else (lookup_field key config) (orDefault defaultValue VNull).

(** [set(key, value)], on a configuration object and for a key that is not
    inherited. *)
Definition set (config : list (string * value)) (key : string) (v : value)
  : list (string * value) :=
  set_field key v config.

(** [validateConfig(config)] *)
Definition validateConfig (validURL : string -> bool) (config : value)
  : completion value :=
  let errors : list string := [] in
  baseUrl ← Js.get config "baseUrl";
  let errors := if negb (truthy baseUrl) then (errors ++ ["Base URL is required"])%list
                else if validURL (toString baseUrl) then errors
                     else (errors ++ ["Invalid base URL format"])%list in
  apiToken ← Js.get config "apiToken";
  errors ← (if negb (truthy apiToken) then Normal (errors ++ ["API token is required"])%list
            else
              len ← lengthOf apiToken;
              Normal (if lessThan (toNumber len) (Fin 10)
                      then (errors ++ ["API token appears to be invalid (too short)"])%list
                      else errors));
  timeout ← Js.get config "timeout";
  let errors := if truthy timeout
                   && (lessThan (toNumber timeout) (Fin 5) || gt (toNumber timeout) (Fin 300))
                then (errors ++ ["Timeout must be between 5 and 300 seconds"])%list
                else errors in
  Normal (VObj [("valid", VBool (Nat.eqb (length errors) 0));
                ("errors", VArr (map VStr errors))]).

(** The object [exportConfig] serializes; [now] is what
    [new Date().toISOString()] gives at the call. *)
Definition exportData (now : string) (this_config : value)
  : completion (list (string * value)) :=
  apiToken ← Js.get this_config "apiToken";
  Normal (set_field "version" (VStr "1.0.0")
            (set_field "exportedAt" (VStr now)
               (set_field "apiToken" (if truthy apiToken then VStr "[REDACTED]" else VNull)
                  (spread this_config)))).

(** [exportConfig(filePath)]: the result and the text handed to
    [fs.writeFile]. *)
Definition exportConfig (JSON_stringify : value -> string) (now : string)
  (write : option error) (this_config : value) : completion bool * option string :=
  match exportData now this_config with
  | Normal data =>
      match write with
      | None => (Normal true, Some (JSON_stringify (VObj data)))
      | Some error =>
          (Throw (Error ("Failed to export configuration: " +:+ err_message error)),
           Some (JSON_stringify (VObj data)))
      end
  | Throw error =>
      (Throw (Error ("Failed to export configuration: " +:+ err_message error)), None)
  end.

(** [delete importData.exportedAt; delete importData.version] *)
Definition dropExportFields (importData : value) : completion value :=
  match importData with
  | VUndefined | VNull =>
      Throw (TypeError ("Cannot convert undefined or null to object"))
  | VObj fs => Normal (VObj (delete_field "version" (delete_field "exportedAt" fs)))
  | _ => Normal importData
  end.

(** [importConfig(filePath)]: the result and [this.config] afterwards. *)
Definition importConfig (JSON_parse : string -> completion value)
  (validURL : string -> bool) (file : readOutcome) (write : option error)
  (this_config : value) : completion bool * value :=
  let failed (error : error) :=
    Throw (Error ("Failed to import configuration: " +:+ err_message error)) in
  let checked : completion value :=
    data ← match file with
           | FileText data => Normal data
           | NoSuchFile error | ReadFailed error => Throw error
           end;
    importData ← JSON_parse data;
    importData ← dropExportFields importData;
    validation ← validateConfig validURL importData;
    valid ← Js.get validation "valid";
    if truthy valid then Normal importData
    else
      errors ← Js.get validation "errors";
      Throw (Error ("Invalid configuration: " +:+ join ", " (stringsOf errors))) in
  match checked with
  | Normal importData =>
      match saveConfig write VNull importData with
      | (Normal _, this_config) => (Normal true, this_config)
      | (Throw error, this_config) => (failed error, this_config)
      end
  | Throw error => (failed error, this_config)
  end.

End ConfigManager.

(** The fields the constructor of [PMSAPI] assigns before it creates the
    client, for arguments of any kind.  [constructor] above is the whole
    constructor for a token that is a string and a timeout that is an
    integer, the kinds the adapter record keeps. *)
Record adapterFields : Type := AdapterFields {
  field_baseUrl : string;
  field_apiToken : value;
  field_timeout : value;
  field_systemType : value
}.

(** [constructor(baseUrl, apiToken, timeout = 30000, systemType = 'laracollab')],
    up to the creation of the client: it throws unless [baseUrl] is a
    string, and nothing after the assignments throws (the headers
    interpolate the token, and an object is taken to inherit its
    [toString]). *)
Definition constructorFields (baseUrl apiToken timeout systemType : value)
  : completion adapterFields :=
  let timeout := orDefault timeout (VInt 30000) in
  let systemType := orDefault systemType (VStr "laracollab") in
  match baseUrl with
  | VStr s => Normal (AdapterFields (stripTrailingSlash s) apiToken timeout systemType)
  | VUndefined | VNull =>
      Throw (TypeError ("Cannot read properties of " +:+ toString baseUrl
                        +:+ " (reading 'replace')"))
  | _ => Throw (TypeError "baseUrl.replace is not a function")
  end.

(** [initConfig()], which the constructor of [PMSPlugin] starts, once it has
    settled: [this.configManager.config], and the fields of the adapter in
    [this.api], [None] when [this.api] is still [null].  The constructor is
    called with three arguments.  The three command objects are created
    right after the adapter and around it; an error anywhere is caught and
    logged. *)
Definition initConfig (JSON_parse : string -> completion value) (file : readOutcome)
  (write : option error) : value * option adapterFields :=
  let '(loaded, config) := ConfigManager.loadConfig JSON_parse file write (VObj []) in
  match loaded, isConfigured config, config with
  | Normal _, Normal true, VObj fields =>
      match constructorFields (ConfigManager.get fields "baseUrl" VUndefined)
              (ConfigManager.get fields "apiToken" VUndefined)
              (ConfigManager.get fields "timeout" (VInt 30))
              VUndefined with
      | Normal api => (config, Some api)
      | Throw _ => (config, None)
      end
  | _, _, _ => (config, None)
  end.

(** A reader of configuration files that finds the same configuration in
    every file: the Jira backend, and no timeout. *)
Definition jiraConfigFile : string -> completion value :=
  fun _ => Normal (VObj [("systemType", VStr "jira"); ("baseUrl", VStr "https://pms.test/");
                         ("apiToken", VStr "secret-token")]).

(** The timeout is one [validateConfig] lets pass. *)
Definition acceptedTimeout (timeout : value) : Prop :=
  truthy timeout = false
  \/ (lessThan (toNumber timeout) (Fin 5) = false /\ gt (toNumber timeout) (Fin 300) = false).

(** The message of the TypeError that a call of
    [this.criticalChainCommands.<method>] raises when the class does not
    define the method: the field holds [null], or an object without it. *)
Definition notCallable (method : string) (this : PMSPlugin) : string :=
  match criticalChainCommands this with
  | NoObject => "Cannot read properties of null (reading '" +:+ method +:+ "')"
  | _ => "this.criticalChainCommands." +:+ method +:+ " is not a function"
  end.

(** The id argument of the methods that address one task or project. *)
Definition idOf (c : call) : value :=
  match c with
  | GetTask id | StartTask id | UpdateTaskProgress id _ | CompleteTask id _
  | AddTaskComment id _ _ | GetProject id | GetTaskTimeLogs id
  | AnalyzeCriticalChain id | EnableCCPM id _ | GetCCPMReport id
  | UpdateBufferStatus id _ | RecalculateCriticalChain id | GetResourceLoading id
  | IdentifyFeedingBuffers id | GetCriticalChainTasks id | UpdateTaskBuffer id _ => id
  | _ => VUndefined
  end.

(** The URL of the call is built from the entry: it is the entry's function
    applied to the id argument, or the entry's path, which the two listing
    methods that take filters extend by '?' and a query string. *)
Definition urlFrom (e : endpoint) (c : call) (url : value) : Prop :=
  match e with
  | Template f => url = VStr (f (idOf c))
  | Path p =>
      match c with
      | GetTasks _ | SearchTasks _ _ => exists query, url = VStr (p +:+ "?" +:+ query)
      | _ => url = VStr p
      end
  end.

(** * Properties *)

(** ** The text helpers on samples *)

Example base64_sample : base64 "tok:" = "dG9rOg==".
Proof. reflexivity. Qed.

Example formEncode_sample : formEncode "a b&c=d_1" = "a+b%26c%3Dd_1".
Proof. reflexivity. Qed.

Example stripTrailingSlash_sample :
  stripTrailingSlash "https://x.test/" = "https://x.test".
Proof. reflexivity. Qed.

Example endpoints_sample :
  getEndpoints (MkPMSAPI "" "t" 0 (VStr "jira") VNull (Axios "" 0 ∅ None) [])
    !! "analyzeCriticalChain" = None.
Proof. reflexivity. Qed.

Example parseFloat_samples :
  parseFloat "80" = Fin (80 # 1) /\ parseFloat "62.5abc" = Fin (125 # 2)
  /\ parseFloat "-1.5e1" = Fin (-15 # 1) /\ parseFloat "abc" = NaN
  /\ parseFloat ".5" = Fin (1 # 2) /\ parseFloat "." = NaN.
Proof. repeat split; reflexivity. Qed.

Example parseInt_samples :
  parseInt "12" = Fin (12 # 1) /\ parseInt "7up" = Fin (7 # 1)
  /\ parseInt "" = NaN /\ parseInt "0x1F" = Fin (31 # 1).
Proof. repeat split; reflexivity. Qed.

Example removeFirst_samples :
  removeFirst "%" "80%" = "80" /\ removeFirst "project:" "project:3" = "3"
  /\ removeFirst "%" "80" = "80".
Proof. repeat split; reflexivity. Qed.

Example showZ_samples :
  showZ 0 = "0" /\ showZ 401 = "401" /\ showZ (-15) = "-15" /\ showZ 1000 = "1000"
  /\ numberToString (Fin (125 # 2)) = "62.5" /\ numberToString (Fin (-1 # 4)) = "-0.25"
  /\ numberToString (Fin (6 # 3)) = "2".
Proof. repeat split; reflexivity. Qed.


(** ** Backend profiles *)

Lemma is_string_true (v : value) (lit : string) : is_string v lit = true <-> v = VStr lit.
Proof.
  destruct v; simpl; try (split; [discriminate | intros [=]]).
  rewrite String.eqb_eq. split; [intros -> | intros [= ->]]; reflexivity.
Qed.

Lemma is_string_false (v : value) (lit : string) : v <> VStr lit -> is_string v lit = false.
Proof.
  intros Hne. destruct (is_string v lit) eqn:E; [|reflexivity].
  apply is_string_true in E. contradiction.
Qed.

(** The named cases of the switch are taken by the four strings and by
    nothing else. *)
Lemma profileOf_custom (s : value) :
  s ∉ [VStr "laracollab"; VStr "jira"; VStr "asana"; VStr "trello"] ->
  profileOf s = Custom.
Proof.
  intros Hs. unfold profileOf.
  rewrite !is_string_false; [reflexivity | | | |];
    intros ->; apply Hs; repeat constructor.
Qed.

Lemma profileOf_laracollab (s : value) :
  profileOf s = Laracollab <-> s = VStr "laracollab".
Proof.
  unfold profileOf. split.
  - destruct (is_string s "laracollab") eqn:E; [intros _; by apply is_string_true|].
    repeat case_match; discriminate.
  - intros ->. reflexivity.
Qed.

Lemma hasEntry_spec (t : gmap string endpoint) (k : string) :
  hasEntry t k = true <-> is_Some (t !! k).
Proof.
  unfold hasEntry. destruct (t !! k); split; eauto; [discriminate | by intros [? ?]].
Qed.

Ltac in_list H :=
  repeat (apply elem_of_cons in H as [-> | H]); [.. | by apply elem_of_nil in H].

(** The claim of C1 read literally fails: the tracker tables stop at
    [timeLogs], so the Jira table has no [analyzeCriticalChain] entry, and
    the adapter method that reads it ends in the TypeError that
    [handleError] folds into the normalized error. *)
Lemma endpoints_incomplete_for_jira :
  ~ (forall sys op,
       sys ∈ map sys_value getSupportedSystems ->
       op ∈ (coreOperations ++ ccpmOperations)%list ->
       is_Some (getEndpoints (adapterFor (VStr sys) "token") !! op)).
Proof.
  intros Hall.
  assert (He : is_Some (getEndpoints (adapterFor (VStr "jira") "token")
                          !! "analyzeCriticalChain")).
  { apply (Hall "jira" "analyzeCriticalChain").
    - apply (bool_decide_unpack _). vm_compute. exact I.
    - apply (bool_decide_unpack _). vm_compute. exact I. }
  apply hasEntry_spec in He. vm_compute in He. discriminate He.
Qed.

(** C1, amended: whatever the backend identifier, the table returned by
    [getEndpoints] has an entry for each of the thirteen task, project and
    system operations; each of the ten CCPM operations has an entry exactly
    when the identifier is 'laracollab'. *)
Theorem endpoints_core_complete_ccpm_native_only (this : PMSAPI) :
  (forall op, op ∈ coreOperations -> is_Some (getEndpoints this !! op))
  /\ (forall op, op ∈ ccpmOperations ->
        (is_Some (getEndpoints this !! op) <-> systemType this = VStr "laracollab")).
Proof.
  split.
  - intros op Hop. apply hasEntry_spec. unfold getEndpoints.
    destruct (profileOf (systemType this)); in_list Hop; vm_compute; reflexivity.
  - intros op Hop. rewrite <- profileOf_laracollab, <- hasEntry_spec. unfold getEndpoints.
    destruct (profileOf (systemType this)); in_list Hop;
      (split; [intros He | intros [=]]);
      first [reflexivity | vm_compute in He; discriminate He | vm_compute; reflexivity].
Qed.

(** Every entry read as a path is a path, in every table. *)
Lemma static_entries (this : PMSAPI) (k : string) (f : value -> string) :
  k ∈ ["tasks"; "createTask"; "projects"; "systemInfo"; "user"; "searchTasks";
       "ccpmDashboard"] ->
  getEndpoints this !! k <> Some (Template f).
Proof.
  intros Hk He.
  assert (Ht : match getEndpoints this !! k with
               | Some (Template _) => true
               | _ => false
               end = true) by (by rewrite He).
  clear He. revert Ht. unfold getEndpoints.
  destruct (profileOf (systemType this)); in_list Hk; vm_compute; discriminate.
Qed.



(** C5: [setApiToken] writes the new Authorization value into
    [defaults.headers.common] only.  On a custom-profile adapter built with
    token [old], the requests sent after [setApiToken new] still carry
    [X-API-Key: old] and the Authorization entry the constructor installed,
    while the profile's rule applied to [new] asks for [new] in both. *)
Theorem setApiToken_keeps_previous_token (url old new : string) :
  exists this this',
    constructor (VStr url) old None (VStr "custom") = Normal this
    /\ setApiToken new this = (Normal tt, this')
    /\ apiToken this' = new
    /\ defaults_headers_common (client this') ≫= (.!! "Authorization")
       = Some ("Bearer " +:+ new)
    /\ requestHeaders (client this') !! "X-API-Key" = Some old
    /\ requestHeaders (client this') !! "Authorization" = Some ("Bearer " +:+ old)
    /\ getDefaultHeaders this' !! "X-API-Key" = Some new
    /\ getDefaultHeaders this' !! "Authorization" = Some ("Bearer " +:+ new).
Proof.
  eexists _, _. split; [reflexivity|]. split; [reflexivity|].
  repeat split; vm_compute; reflexivity.
Qed.

(** The sibling setter does recompute the whole header set. *)
Lemma setSystemType_recomputes_headers (s : value) (this : PMSAPI) :
  exists this',
    setSystemType s this = (Normal tt, this')
    /\ requestHeaders (client this') = getDefaultHeaders this'.
Proof.
  eexists. split; [reflexivity|]. unfold requestHeaders. simpl.
  apply map_eq. intros k. rewrite lookup_union, lookup_empty.
  destruct (_ !! k); reflexivity.
Qed.

(** After [setSystemType] the [common] object is gone, and a later
    [setApiToken] throws. *)
Lemma setApiToken_after_setSystemType (s : value) (token : string) (this : PMSAPI) :
  exists this' e,
    setSystemType s this = (Normal tt, this')
    /\ fst (setApiToken token this') = Throw e.
Proof. eexists _, _. split; reflexivity. Qed.

(** ** Error normalisation *)

Lemma or_else_truthy (a b : value) : truthy b = true -> truthy (or_else a b) = true.
Proof. unfold or_else. destruct (truthy a) eqn:E; auto. Qed.

Lemma handleError_normalized (H : host) (e : error) : normalizedError (handleError H e).
Proof.
  unfold handleError, normalizedError.
  destruct (development H); simpl; do 4 eexists;
    (split; [reflexivity|]); (split; [by apply or_else_truthy|]); eauto.
Qed.

Lemma bind_normal {A B} (m : Api A) (k : A -> Api B) (this this' : PMSAPI) (b : B) :
  (m ≫= k) this = (Normal b, this') ->
  exists a this0, m this = (Normal a, this0) /\ k a this0 = (Normal b, this').
Proof.
  unfold mbind, Api_bind. destruct (m this) as [[a|e] this0]; [eauto | discriminate].
Qed.

Lemma send_normal (H : host) (m : verb) (url : value) (body : option value)
  (this this' : PMSAPI) (v : value) :
  send H m url body this = (Normal v, this') -> unwrappedPayload H this' v.
Proof.
  unfold send. destruct (transport H _) eqn:E; intros [= <- <-].
  eexists _, _. simpl. rewrite last_snoc. eauto.
Qed.

Lemma tryCatch_caught (H : host) (body : Api value) (this : PMSAPI) :
  (forall v this', body this = (Normal v, this') -> unwrappedPayload H this' v) ->
  exists v this',
    tryCatch body (caught H) this = (Normal v, this')
    /\ (normalizedError v \/ unwrappedPayload H this' v)
    /\ ((forall req, exists e, transport H req = Rejected e) -> normalizedError v).
Proof.
  intros Hbody. unfold tryCatch. destruct (body this) as [[v|e] this'] eqn:E.
  - eexists _, _. split; [reflexivity|]. split; [right; by apply Hbody|].
    intros Hrej. destruct (Hbody v this' eq_refl) as (req & r & _ & Hf & _).
    destruct (Hrej req) as [e He]. congruence.
  - eexists _, _. split; [reflexivity|].
    split; [left|intros _]; apply handleError_normalized.
Qed.

Ltac payload :=
  repeat match goal with
         | Hb : (_ ≫= _) _ = (Normal _, _) |- _ =>
             apply bind_normal in Hb as (? & ? & ? & Hb); cbv beta zeta in Hb
         end;
  match goal with
  | Hb : send _ _ _ _ _ = (Normal _, _) |- _ => exact (send_normal _ _ _ _ _ _ _ Hb)
  end.

(** C3: whatever the backend, the arguments and the transport, every
    request method of the adapter returns a value and throws nothing; the
    value is the unwrapped body of a fulfilled request or has the shape
    [{success: false, message, status, data}], and it has that shape
    whenever the transport fulfils nothing.  The shape does not depend on
    the backend. *)
Theorem adapter_methods_return_normalized (H : host) (c : call) (this : PMSAPI) :
  exists v this',
    perform H c this = (Normal v, this')
    /\ (normalizedError v \/ unwrappedPayload H this' v)
    /\ ((forall req, exists e, transport H req = Rejected e) -> normalizedError v).
Proof.
  destruct c; simpl;
    unfold getTasks, getTask, createTask, startTask, updateTaskProgress, completeTask,
      addTaskComment, getProjects, getProject, getSystemInfo, getUser, searchTasks,
      getTaskTimeLogs, analyzeCriticalChain, enableCCPM, getCCPMReport, updateBufferStatus,
      recalculateCriticalChain, getResourceLoading, identifyFeedingBuffers,
      getCriticalChainTasks, updateTaskBuffer, getCCPMDashboard;
    apply tryCatch_caught; intros v this' Hb; payload.
Qed.

(** C2: the response interceptor replaces the rejection by a fresh [Error]
    that has no [response], so [handleError] finds no status.  On a 401
    whose body says "Unauthenticated.", [getProjects] returns [status:
    undefined] and the prefixed message, on every backend. *)
Theorem getProjects_on_401_drops_status (this : PMSAPI) :
  exists this',
    getProjects unauthorized this
      = (Normal (VObj [("success", VBool false);
                       ("message", VStr "PMS API Error: Unauthenticated.");
                       ("status", VUndefined);
                       ("data", VNull)]), this')
    /\ lastError this' = VStr "Unauthenticated.".
Proof. eexists. split; reflexivity. Qed.

Lemma get_throwsPlain (v : value) (k : string) : throwsPlain (get v k).
Proof. intros e. destruct v; simpl; intros He; inversion He; reflexivity. Qed.

Lemma cbind_throwsPlain {A B} (c : completion A) (k : A -> completion B) :
  throwsPlain c -> (forall a, throwsPlain (k a)) -> throwsPlain (c ≫= k).
Proof.
  intros Hc Hk e. unfold mbind, completion_bind, cbind. destruct c as [a|e0]; [exact (Hk a e) | intros [= <-]; by apply Hc].
Qed.

Lemma Normal_throwsPlain {A} (a : A) : throwsPlain (Normal a).
Proof. intros e [=]. Qed.

Lemma callEntry_throwsPlain t k id : throwsPlain (callEntry t k id).
Proof. intros e. unfold callEntry. repeat case_match; intros He; inversion He; reflexivity. Qed.

Ltac plain_step :=
  first [ apply Normal_throwsPlain
        | apply get_throwsPlain
        | apply callEntry_throwsPlain
        | apply cbind_throwsPlain; [| intros ?] ].

Lemma buildJQL_throwsPlain f : throwsPlain (buildJQL f).
Proof. unfold buildJQL. repeat plain_step. Qed.

Lemma buildTrelloFilter_throwsPlain f : throwsPlain (buildTrelloFilter f).
Proof. unfold buildTrelloFilter. repeat plain_step. Qed.

Lemma buildTaskParams_throwsPlain this f : throwsPlain (buildTaskParams this f).
Proof.
  unfold buildTaskParams. destruct (profileOf _);
    repeat first [apply buildJQL_throwsPlain | apply buildTrelloFilter_throwsPlain | plain_step].
Qed.

Lemma buildTaskPayload_throwsPlain this d : throwsPlain (buildTaskPayload this d).
Proof. unfold buildTaskPayload. destruct (profileOf _); repeat plain_step. Qed.

Lemma buildProgressPayload_throwsPlain this d : throwsPlain (buildProgressPayload this d).
Proof. unfold buildProgressPayload. destruct (profileOf _); repeat plain_step. Qed.

Lemma buildCompletionPayload_throwsPlain this d : throwsPlain (buildCompletionPayload this d).
Proof. unfold buildCompletionPayload. destruct (profileOf _); repeat plain_step. Qed.

Lemma buildCCPMPayload_throwsPlain this d : throwsPlain (buildCCPMPayload this d).
Proof. unfold buildCCPMPayload. destruct (profileOf _); repeat plain_step. Qed.

Lemma buildBufferPayload_throwsPlain this d : throwsPlain (buildBufferPayload this d).
Proof. unfold buildBufferPayload. destruct (profileOf _); repeat plain_step. Qed.

Lemma buildTaskBufferPayload_throwsPlain this d : throwsPlain (buildTaskBufferPayload this d).
Proof. unfold buildTaskBufferPayload. destruct (profileOf _); repeat plain_step. Qed.

Lemma searchParams_throwsPlain (H : host) (init : value) :
  (forall v, throwsPlain (searchParamsInit H v)) -> throwsPlain (searchParams H init).
Proof.
  intros HH. unfold searchParams. destruct init; repeat first [apply HH | plain_step].
Qed.

Lemma self_throwsPlain : apiThrowsPlain self.
Proof. intros this e this' [=]. Qed.

Lemma lift_throwsPlain {A} (c : completion A) : throwsPlain c -> apiThrowsPlain (lift c).
Proof. intros Hc this e this' [= -> _]. by apply Hc. Qed.

Lemma send_throwsPlain (H : host) m url body : apiThrowsPlain (send H m url body).
Proof.
  intros this e this'. unfold send. destruct (transport H _); intros [= <- _]; reflexivity.
Qed.

Lemma bind_throwsPlain {A B} (m : Api A) (k : A -> Api B) :
  apiThrowsPlain m -> (forall a, apiThrowsPlain (k a)) -> apiThrowsPlain (m ≫= k).
Proof.
  intros Hm Hk this e this'. unfold mbind, Api_bind.
  destruct (m this) as [[a|e0] this0] eqn:E.
  - apply Hk.
  - intros [= <- <-]. by eapply Hm.
Qed.

Lemma handleError_plain_status (H : host) (e : error) :
  plain e -> get_opt (handleError H e) "status" = VUndefined.
Proof.
  unfold plain, handleError. intros ->. destruct (development H); reflexivity.
Qed.

Lemma tryCatch_plain (H : host) (body : Api value) (this : PMSAPI) :
  (forall v this', body this <> (Normal v, this')) ->
  apiThrowsPlain body ->
  exists v this',
    tryCatch body (caught H) this = (Normal v, this')
    /\ normalizedError v /\ get_opt v "status" = VUndefined.
Proof.
  intros Hnever Hplain. unfold tryCatch.
  destruct (body this) as [[v|e] this'] eqn:E; [by destruct (Hnever v this')|].
  eexists _, _. split; [reflexivity|]. split.
  - apply handleError_normalized.
  - apply handleError_plain_status. by eapply Hplain.
Qed.

Lemma unauthorized_never_fulfils (this' : PMSAPI) (v : value) :
  ~ unwrappedPayload unauthorized this' v.
Proof. intros (req & r & _ & Hf & _). discriminate Hf. Qed.

Ltac api_plain :=
  repeat first
    [ apply self_throwsPlain
    | apply send_throwsPlain
    | apply lift_throwsPlain
    | apply bind_throwsPlain; [| intros ?]
    | apply buildTaskParams_throwsPlain
    | apply buildTaskPayload_throwsPlain
    | apply buildProgressPayload_throwsPlain
    | apply buildCompletionPayload_throwsPlain
    | apply buildCCPMPayload_throwsPlain
    | apply buildBufferPayload_throwsPlain
    | apply buildTaskBufferPayload_throwsPlain
    | apply searchParams_throwsPlain; [intros ? ? [=]]
    | apply callEntry_throwsPlain
    | match goal with |- throwsPlain (if _ then _ else _) => case_match end
    | plain_step ].

(** The same for every request method: on that transport the result is a
    normalized error whose [status] is [undefined]. *)
Theorem every_method_drops_status_on_401 (c : call) (this : PMSAPI) :
  exists v this',
    perform unauthorized c this = (Normal v, this')
    /\ normalizedError v /\ get_opt v "status" = VUndefined.
Proof.
  destruct c; simpl;
    unfold getTasks, getTask, createTask, startTask, updateTaskProgress, completeTask,
      addTaskComment, getProjects, getProject, getSystemInfo, getUser, searchTasks,
      getTaskTimeLogs, analyzeCriticalChain, enableCCPM, getCCPMReport, updateBufferStatus,
      recalculateCriticalChain, getResourceLoading, identifyFeedingBuffers,
      getCriticalChainTasks, updateTaskBuffer, getCCPMDashboard;
    (apply tryCatch_plain;
     [ intros v this' Hb; apply (unauthorized_never_fulfils this' v); payload
     | api_plain ]).
Qed.

(** ** Connection test *)

Lemma get_truthy (v : value) (k : string) :
  truthy v = true -> get v k = Normal (get_opt v k).
Proof. destruct v; simpl; try discriminate; reflexivity. Qed.

Lemma hasTruthyMarker_falsy (v : value) : truthy v = false -> hasTruthyMarker v = false.
Proof. destruct v; simpl; try discriminate; reflexivity. Qed.

Lemma handleError_no_marker (H : host) (e : error) :
  truthy (handleError H e) = true /\ hasTruthyMarker (handleError H e) = false.
Proof. unfold handleError. destruct (development H); split; reflexivity. Qed.

Lemma getSystemInfo_run (H : host) (this : PMSAPI) :
  exists this',
    getSystemInfo H this
    = (Normal match transport H (systemInfoRequest this) with
              | Fulfilled r => data r
              | Rejected e =>
                  handleError H
                    (Error ("PMS API Error: "
                            +:+ toString
                                  (or_else (match err_response e with
                                            | Some r => get_opt (data r) "message"
                                            | None => VUndefined
                                            end) (VStr (err_message e)))))
              end, this').
Proof.
  unfold getSystemInfo, tryCatch, mbind, Api_bind, self, send, caught, mret, Api_ret.
  fold (systemInfoRequest this).
  destruct (transport H (systemInfoRequest this)); eexists; reflexivity.
Qed.

Lemma testConnection_run (H : host) (this : PMSAPI) :
  exists this',
    testConnection H this
    = (Normal match transport H (systemInfoRequest this) with
              | Fulfilled r => hasTruthyMarker (data r)
              | Rejected _ => false
              end, this').
Proof.
  destruct (getSystemInfo_run H this) as [this' Hrun].
  unfold testConnection, tryCatch at 1, mbind at 1, Api_bind at 1. rewrite Hrun. clear Hrun.
  destruct (transport H (systemInfoRequest this)) as [r|e].
  - destruct (truthy (data r)) eqn:Ht.
    + unfold mbind, Api_bind, lift, mret, Api_ret, hasTruthyMarker.
      rewrite !(get_truthy _ _ Ht).
      destruct (truthy (get_opt (data r) "ai_version")); [eexists; reflexivity|].
      destruct (truthy (get_opt (data r) "version")); eexists; reflexivity.
    + rewrite (hasTruthyMarker_falsy _ Ht). eexists; reflexivity.
  - set (err := Error _).
    destruct (handleError_no_marker H err) as [Ht Hm]. rewrite Ht.
    unfold mbind, Api_bind, lift, mret, Api_ret.
    rewrite !(get_truthy _ _ Ht).
    unfold hasTruthyMarker in Hm.
    destruct (truthy (get_opt (handleError H err) "ai_version")); [discriminate|].
    destruct (truthy (get_opt (handleError H err) "version")); [discriminate|].
    simpl in Hm. rewrite Hm. eexists; reflexivity.
Qed.

(** C7, amended: [testConnection] never throws; it returns true exactly
    when the system-info request is fulfilled and the payload has a truthy
    value under [ai_version], [version] or [id]; it returns false whenever
    the request is rejected. *)
Theorem testConnection_true_iff_truthy_marker (H : host) (this : PMSAPI) :
  exists b this',
    testConnection H this = (Normal b, this')
    /\ (b = true <->
        exists r, transport H (systemInfoRequest this) = Fulfilled r
                  /\ hasTruthyMarker (data r) = true)
    /\ ((exists e, transport H (systemInfoRequest this) = Rejected e) -> b = false).
Proof.
  destruct (testConnection_run H this) as [this' Hrun].
  eexists _, _. split; [exact Hrun|].
  destruct (transport H (systemInfoRequest this)) as [r|e]; split.
  - split; [intros Hb; eauto | intros (r' & [= <-] & Hm); exact Hm].
  - intros [e [=]].
  - split; [discriminate | intros (r' & [=] & _)].
  - reflexivity.
Qed.

(** The claim of C7 read literally fails: a fulfilled system-info call whose
    payload is [{id: 0}] contains the marker field [id], and
    [testConnection] returns false. *)
Lemma testConnection_false_despite_marker :
  ~ (forall (H : host) (this : PMSAPI),
        fst (testConnection H this) = Normal true <->
        exists r, transport H (systemInfoRequest this) = Fulfilled r
                  /\ containsMarker (data r)).
Proof.
  intros Hclaim.
  destruct (Hclaim zeroIdHost (adapterFor (VStr "laracollab") "token")) as [_ Hback].
  assert (Hfalse : fst (testConnection zeroIdHost (adapterFor (VStr "laracollab") "token"))
                   = Normal false) by reflexivity.
  rewrite Hfalse in Hback.
  enough (@Normal bool false = Normal true) by discriminate.
  apply Hback. eexists. split; [reflexivity|].
  exists [("id", VInt 0)]. split; [reflexivity|]. right; right; reflexivity.
Qed.

(** ** Filter translation *)

Lemma lookup_field_elem (k : string) (fs : list (string * value)) :
  lookup_field k fs <> VUndefined -> (k, lookup_field k fs) ∈ fs.
Proof.
  induction fs as [|[k' v] fs IH]; simpl; [congruence|].
  destruct (String.eqb k k') eqn:E.
  - apply String.eqb_eq in E as ->. intros _. left.
  - intros Hne. right. by apply IH.
Qed.


Lemma buildJQL_prefix (fs : list (string * value)) :
  exists jql, buildJQL (VObj fs) = Normal jql
              /\ String.prefix "project = PROJECTKEY" jql = true.
Proof.
  unfold buildJQL. simpl.
  destruct (truthy (lookup_field "status" fs)),
           (truthy (lookup_field "priority" fs)),
           (truthy (lookup_field "assignee" fs));
    eexists; split; reflexivity.
Qed.

Lemma buildTrelloFilter_prefix (fs : list (string * value)) :
  exists f, buildTrelloFilter (VObj fs) = Normal f
            /\ (String.prefix "closed:true" f = true \/ String.prefix "closed:false" f = true).
Proof.
  unfold buildTrelloFilter. simpl.
  destruct (is_string (lookup_field "status" fs) "completed"),
           (truthy (lookup_field "project_id" fs));
    eexists; (split; [reflexivity|]); first [left; reflexivity | right; reflexivity].
Qed.


(** The request [getTasks({})] sends on the native backend. *)
Lemma getTasks_empty_filter_native (H : host) (token : string) :
  map req_url (wire (snd (getTasks H (VObj []) (adapterFor (VStr "laracollab") token))))
  = [VStr "/api/ai/tasks?status=undefined&priority=undefined&project_id=undefined"].
Proof.
  set (this := adapterFor (VStr "laracollab") token).
  assert (Hparams : buildTaskParams this (VObj [])
                    = Normal (VObj [("status", VUndefined); ("priority", VUndefined);
                                    ("project_id", VUndefined)])) by reflexivity.
  assert (Hentry : entry (getEndpoints this) "tasks" = VStr "/api/ai/tasks") by reflexivity.
  cbv beta iota zeta delta [getTasks tryCatch mbind Api_bind self lift orDefault].
  rewrite Hparams, Hentry.
  cbv beta iota zeta delta [truthy searchParams mbind completion_bind cbind send].
  destruct (transport H _); reflexivity.
Qed.

(** ** Buffer updates *)

Lemma gt_Fin (x y : Q) : gt (Fin x) (Fin y) = true <-> (y < x)%Q.
Proof.
  simpl. rewrite negb_true_iff, <- not_true_iff_false, Qle_bool_iff.
  split; [apply Qnot_le_lt | apply Qlt_not_le].
Qed.

Lemma le_Fin (x y : Q) : le (Fin x) (Fin y) = true <-> (x <= y)%Q.
Proof. simpl. apply Qle_bool_iff. Qed.

Lemma le_not_gt (a b : number) : le a b = true -> gt a b = false.
Proof.
  destruct a, b; simpl; try discriminate; try reflexivity.
  intros ->. reflexivity.
Qed.

Lemma gt_50_of_gt_75 (p : number) : gt p (Fin 75) = true -> gt p (Fin 50) = true.
Proof.
  destruct p; simpl; try discriminate; try reflexivity.
  rewrite !negb_true_iff, <- !not_true_iff_false, !Qle_bool_iff.
  intros Hn Hle. apply Hn. eapply Qle_trans; [exact Hle|]. discriminate.
Qed.

(** What the adapter would make of the handler's [bufferData], were it
    handed over: on the native backend the payload for a percentage [p]
    carries [p] as [buffer_consumption_percentage], and its [ccpm_status]
    is 'buffer_consumed' exactly when [p > 75], 'in_progress' when
    [50 < p <= 75] and 'not_started' when [p <= 50]. *)
Lemma task_buffer_payload_thresholds (this : PMSAPI) (p : number) :
  systemType this = VStr "laracollab" ->
  exists payload,
    buildTaskBufferPayload this (bufferData p) = Normal (VObj payload)
    /\ lookup_field "buffer_consumption_percentage" payload = VNum p
    /\ (lookup_field "ccpm_status" payload = VStr "buffer_consumed"
        <-> gt p (Fin 75) = true)
    /\ (gt p (Fin 50) = true -> le p (Fin 75) = true ->
        lookup_field "ccpm_status" payload = VStr "in_progress")
    /\ (le p (Fin 50) = true -> lookup_field "ccpm_status" payload = VStr "not_started").
Proof.
  intros Hsys. unfold buildTaskBufferPayload. rewrite Hsys.
  eexists. split; [reflexivity|]. split; [reflexivity|].
  cbn [lookup_field bufferData String.eqb Ascii.eqb Bool.eqb].
  repeat split.
  - destruct (gt p (Fin 75)); [reflexivity|].
    destruct (gt p (Fin 50)); discriminate.
  - intros ->. reflexivity.
  - intros H50 H75. rewrite (le_not_gt _ _ H75), H50. reflexivity.
  - intros H50. pose proof (le_not_gt _ _ H50) as Hn.
    destruct (gt p (Fin 75)) eqn:E75.
    + rewrite (gt_50_of_gt_75 _ E75) in Hn. discriminate.
    + rewrite Hn. reflexivity.
Qed.

Lemma task_buffer_payload_thresholds_witness :
  systemType (adapterFor (VStr "laracollab") "secret-token") = VStr "laracollab"
  /\ exists payload,
       buildTaskBufferPayload (adapterFor (VStr "laracollab") "secret-token")
         (bufferData (Fin 80)) = Normal (VObj payload)
       /\ lookup_field "ccpm_status" payload = VStr "buffer_consumed".
Proof.
  split; [reflexivity|].
  destruct (task_buffer_payload_thresholds
              (adapterFor (VStr "laracollab") "secret-token") (Fin 80) eq_refl)
    as (payload & Hbuild & _ & [_ Hstatus] & _).
  exists payload. split; [exact Hbuild | apply Hstatus; reflexivity].
Defined.

(** On the native backend [PMSAPI.updateTaskBuffer] puts that payload on
    the wire, to the task's buffer endpoint. *)
Lemma updateTaskBuffer_sends_payload (H : host) (token : string) (taskId : value)
  (p : number) :
  map (fun r => (req_method r, req_url r, req_body r))
      (wire (snd (updateTaskBuffer H taskId (bufferData p)
                    (adapterFor (VStr "laracollab") token))))
  = [(PUT, VStr ("/api/ai/tasks/" +:+ toString taskId +:+ "/ccpm/buffer"),
      Some (VObj [("buffer_consumption_percentage", VNum p);
                  ("ccpm_status", VStr (if gt p (Fin 75) then "buffer_consumed"
                                      else if gt p (Fin 50) then "in_progress"
                                      else "not_started"));
                  ("actual_duration_days", VUndefined);
                  ("buffer_notes", VStr "Buffer updated via PMS plugin");
                  ("completion_variance_days", VUndefined)]))].
Proof.
  set (this := adapterFor (VStr "laracollab") token).
  assert (Hpayload : buildTaskBufferPayload this (bufferData p)
                     = Normal (VObj [("buffer_consumption_percentage", VNum p);
                                     ("ccpm_status",
                                        VStr (if gt p (Fin 75) then "buffer_consumed"
                                      else if gt p (Fin 50) then "in_progress"
                                      else "not_started"));
                                     ("actual_duration_days", VUndefined);
                                     ("buffer_notes", VStr "Buffer updated via PMS plugin");
                                     ("completion_variance_days", VUndefined)]))
    by reflexivity.
  assert (Hurl : callEntry (getEndpoints this) "updateTaskBuffer" taskId
                 = Normal (VStr ("/api/ai/tasks/" +:+ toString taskId +:+ "/ccpm/buffer")))
    by reflexivity.
  cbv beta iota zeta delta [updateTaskBuffer tryCatch mbind Api_bind self lift].
  rewrite Hpayload, Hurl.
  cbv beta iota zeta delta [send].
  destruct (transport H _); reflexivity.
Qed.

(** The command line of the scenario: a task id and a percentage written
    with a percent sign or a fraction.  A bare integer is read as the task
    id. *)
Lemma parseBufferUpdateArgs_samples :
  parseBufferUpdateArgs ["12"; "80%"] = (Some (Fin (12 # 1)), Some (Fin (80 # 1)))
  /\ parseBufferUpdateArgs ["12"; "62.5"] = (Some (Fin (12 # 1)), Some (Fin (125 # 2)))
  /\ parseBufferUpdateArgs ["12"; "80"] = (Some (Fin (80 # 1)), None).
Proof. repeat split; reflexivity. Qed.

(** [CriticalChainCommands] has no [updateTaskBuffer] method, so the handler
    builds [bufferData] and then reports the failed call; the adapter is
    never reached. *)
Lemma handleCCPMUpdateBufferCommand_dispatch
  (body : string -> string -> list value -> Api value) :
  handleCCPMUpdateBufferCommand body ["12"; "80%"] configuredPlugin
  = (Normal (VStr (formatError
                     (VStr ("Error updating task buffer: "
                            +:+ "this.criticalChainCommands.updateTaskBuffer is not a function"))
                     VNull)),
     configuredPlugin).
Proof. vm_compute. reflexivity. Qed.

(** ** The configuration guard *)

Lemma ensureConfigured_notConfigured (this : PMSPlugin) :
  notConfigured this -> ensureConfigured this = (Throw (Error notConfiguredMessage), this).
Proof.
  unfold notConfigured, ensureConfigured. intros [-> | Hc]; [reflexivity|].
  rewrite Hc. destruct (api this); reflexivity.
Qed.

Lemma guarded_throws (k : bool -> Cmd value) (this : PMSPlugin) :
  notConfigured this ->
  (ensureConfigured ≫= k) this = (Throw (Error notConfiguredMessage), this).
Proof.
  intros Hn. unfold mbind, Cmd_bind. by rewrite (ensureConfigured_notConfigured this Hn).
Qed.

(** C4, amended: each of the thirteen handlers that start with the
    [ensureConfigured] guard, run on a plugin that has no adapter or whose
    configuration lacks the base URL or the token, throws the Error 'PMS not
    configured. Please run `/pms-config` first.' and leaves the plugin, the
    adapter and the wire as they were: no command object is called and no
    request is sent. *)
Theorem guarded_handlers_throw_when_not_configured
  (body : string -> string -> list value -> Api value)
  (name : string) (handler : list string -> Cmd value) (args : list string)
  (this : PMSPlugin) :
  (name, handler) ∈ guardedHandlers body ->
  notConfigured this ->
  handler args this = (Throw (Error notConfiguredMessage), this).
Proof.
  intros Hin Hn. unfold guardedHandlers in Hin.
  repeat (apply elem_of_cons in Hin as [[= -> ->] | Hin]);
    [.. | by apply elem_of_nil in Hin];
    by apply guarded_throws.
Qed.

Lemma guarded_handlers_throw_when_not_configured_witness :
  notConfigured freshPlugin
  /\ handleTasksCommand silentBody ["pending"] freshPlugin
     = (Throw (Error notConfiguredMessage), freshPlugin).
Proof.
  assert (Hn : notConfigured freshPlugin) by (left; reflexivity).
  split; [exact Hn|].
  apply (guarded_handlers_throw_when_not_configured silentBody "pms-tasks");
    [left | exact Hn].
Defined.

(** The claim of C4 read literally fails: on a plugin that is not configured
    [handleTasksCommand] returns no text, it throws. *)
Lemma tasks_command_throws_when_not_configured :
  ~ (forall (body : string -> string -> list value -> Api value) args this,
        notConfigured this ->
        exists text, fst (handleTasksCommand body args this) = Normal (VStr text)).
Proof.
  intros Hclaim.
  destruct (Hclaim silentBody [] freshPlugin (or_introl eq_refl)) as [text Ht].
  discriminate Ht.
Qed.

(** The guard also fires with an adapter in place and an empty token. *)
Lemma notConfigured_empty_token (a : PMSAPI) (commands : commandObject) :
  notConfigured
    (MkPMSPlugin (VObj [("baseUrl", VStr "https://pms.test"); ("apiToken", VStr "")])
       (Some a) commands).
Proof. right. reflexivity. Qed.

(** ** The status command *)

Lemma addAssign_const (v s : string) :
  addAssign (ConstBinding v) s = Throw (TypeError "Assignment to constant variable.").
Proof. reflexivity. Qed.

Lemma statusNotConfigured_throws :
  statusNotConfigured = Throw (TypeError "Assignment to constant variable.").
Proof. reflexivity. Qed.

Lemma statusConnectionError_throws (error : error) :
  statusConnectionError error = Throw (TypeError "Assignment to constant variable.").
Proof. reflexivity. Qed.

Lemma formatSystemInfo_prefix (info : value) :
  startsWith (formatSystemInfo info) "**PMS Plugin Status:**" = false
  /\ startsWith (formatSystemInfo info) "**❌ Error:** Connection error:" = false.
Proof.
  unfold formatSystemInfo.
  destruct (negb (truthy info) || negb (truthy (get_opt info "ai_version")));
    [split; vm_compute; reflexivity|].
  destruct (truthy (get_opt info "user")), (truthy (get_opt info "uptime"));
    split; reflexivity.
Qed.

(** C10: with no adapter [handleStatusCommand] throws the TypeError of an
    assignment to a constant; its catch block throws the same TypeError for
    every error it could receive; and whatever the command does return is
    the rendering of the system-info answer, which starts neither like the
    'Not Configured' text nor like the connection-error text. *)
Theorem status_command_never_renders_its_messages (H : host) (this : PMSPlugin) :
  (api this = None ->
     handleStatusCommand H this
     = (Throw (TypeError "Assignment to constant variable."), this))
  /\ (forall error,
        statusConnectionError error = Throw (TypeError "Assignment to constant variable."))
  /\ (forall v this',
        handleStatusCommand H this = (Normal v, this') ->
        exists info,
          v = VStr (formatSystemInfo info)
          /\ startsWith (formatSystemInfo info) "**PMS Plugin Status:**" = false
          /\ startsWith (formatSystemInfo info) "**❌ Error:** Connection error:" = false).
Proof.
  split; [|split].
  - intros Hnone. unfold handleStatusCommand. rewrite Hnone. reflexivity.
  - exact statusConnectionError_throws.
  - intros v this'. unfold handleStatusCommand.
    destruct (api this) as [a|] eqn:Ha; [|discriminate].
    unfold cmdTry, mbind, Cmd_bind, liftApi. rewrite Ha.
    destruct (getSystemInfo_run H a) as [a' ->].
    intros [= <- _]. eexists. split; [reflexivity|]. apply formatSystemInfo_prefix.
Qed.

Lemma status_command_never_renders_its_messages_witness :
  api freshPlugin = None
  /\ handleStatusCommand unauthorized freshPlugin
     = (Throw (TypeError "Assignment to constant variable."), freshPlugin).
Proof.
  split; [reflexivity|].
  apply (proj1 (status_command_never_renders_its_messages unauthorized freshPlugin)).
  reflexivity.
Defined.

(** ** The CCPM methods away from the native backend *)

(** The two operation lists are the keys the request methods read. *)
Lemma operations_of_the_methods (op : string) :
  op ∈ (coreOperations ++ ccpmOperations)%list <-> exists c, operationOf c = op.
Proof.
  split.
  - intros Hop. unfold coreOperations, ccpmOperations in Hop. simpl in Hop.
    in_list Hop;
      [ exists (GetTasks VUndefined) | exists (GetTask VUndefined)
      | exists (CreateTask VUndefined) | exists (StartTask VUndefined)
      | exists (UpdateTaskProgress VUndefined VUndefined)
      | exists (CompleteTask VUndefined VUndefined)
      | exists (AddTaskComment VUndefined VUndefined VUndefined)
      | exists GetProjects | exists (GetProject VUndefined) | exists GetSystemInfo
      | exists GetUser | exists (SearchTasks VUndefined VUndefined)
      | exists (GetTaskTimeLogs VUndefined) | exists (AnalyzeCriticalChain VUndefined)
      | exists (EnableCCPM VUndefined VUndefined) | exists (GetCCPMReport VUndefined)
      | exists (UpdateBufferStatus VUndefined VUndefined)
      | exists (RecalculateCriticalChain VUndefined)
      | exists (GetResourceLoading VUndefined)
      | exists (IdentifyFeedingBuffers VUndefined)
      | exists (GetCriticalChainTasks VUndefined)
      | exists (UpdateTaskBuffer VUndefined VUndefined)
      | exists GetCCPMDashboard ];
      reflexivity.
  - intros [c <-]. apply (bool_decide_unpack _). destruct c; vm_compute; exact I.
Qed.

Lemma ccpm_entry_missing (this : PMSAPI) (op : string) :
  profileOf (systemType this) <> Laracollab ->
  op ∈ ccpmOperations ->
  getEndpoints this !! op = None.
Proof.
  intros Hp Hop.
  assert (Hb : hasEntry (getEndpoints this) op = false).
  { unfold getEndpoints. destruct (profileOf (systemType this));
      [contradiction | ..]; in_list Hop; vm_compute; reflexivity. }
  unfold hasEntry in Hb. destruct (getEndpoints this !! op); [discriminate | reflexivity].
Qed.

(** Away from the native backend a CCPM method that addresses a project or
    a task finds no function under its key: it sends nothing and returns
    the TypeError in the normalized shape. *)
Lemma ccpm_call_without_entry (H : host) (c : call) (this : PMSAPI) :
  profileOf (systemType this) <> Laracollab ->
  operationOf c ∈ ccpmOperations ->
  c <> GetCCPMDashboard ->
  perform H c this
  = (Normal (handleError H (TypeError ("endpoints." +:+ operationOf c
                                        +:+ " is not a function"))), this).
Proof.
  intros Hp Hop Hc.
  pose proof (ccpm_entry_missing this (operationOf c) Hp Hop) as Hnone.
  destruct c; try (apply (bool_decide_pack _) in Hop; vm_compute in Hop; contradiction);
    try contradiction; simpl in *;
    unfold analyzeCriticalChain, enableCCPM, getCCPMReport, updateBufferStatus,
      recalculateCriticalChain, getResourceLoading, identifyFeedingBuffers,
      getCriticalChainTasks, updateTaskBuffer, buildCCPMPayload, buildBufferPayload,
      buildTaskBufferPayload, tryCatch, mbind, Api_bind, self, lift, callEntry, caught;
    rewrite Hnone;
    destruct (profileOf (systemType this)); try contradiction; reflexivity.
Qed.

(** [getCCPMDashboard] reads its entry as a path: away from the native
    backend it hands [undefined] to the client as the URL. *)
Lemma dashboard_without_entry (H : host) (this : PMSAPI) :
  profileOf (systemType this) <> Laracollab ->
  map req_url (wire (snd (getCCPMDashboard H this)))
  = (map req_url (wire this) ++ [VUndefined])%list.
Proof.
  intros Hp.
  assert (Hnone : getEndpoints this !! "ccpmDashboard" = None).
  { apply ccpm_entry_missing; [exact Hp|]. apply (bool_decide_unpack _). vm_compute. exact I. }
  unfold getCCPMDashboard, tryCatch, mbind, Api_bind, self, send, entry. rewrite Hnone.
  destruct (transport H _); simpl; by rewrite map_app.
Qed.

(** ** Token rotation on every backend *)

Lemma getDefaultHeaders_Authorization (this : PMSAPI) :
  is_Some (getDefaultHeaders this !! "Authorization").
Proof.
  unfold getDefaultHeaders, baseHeaders.
  destruct (profileOf (systemType this)); eexists; by simplify_map_eq.
Qed.

(** Where [defaults.headers] itself has an Authorization entry, the entry
    [setApiToken] writes under [common] is shadowed: no header of the
    requests that follow changes. *)
Lemma setApiToken_shadowed (new : string) (this : PMSAPI) (common : gmap string string) :
  defaults_headers_common (client this) = Some common ->
  is_Some (defaults_headers (client this) !! "Authorization") ->
  exists this',
    setApiToken new this = (Normal tt, this')
    /\ apiToken this' = new
    /\ requestHeaders (client this') = requestHeaders (client this).
Proof.
  intros Hcommon [a Ha]. unfold setApiToken.
  cbn [client set_apiToken]. rewrite Hcommon.
  eexists. split; [reflexivity|]. split; [reflexivity|].
  unfold requestHeaders. cbn [client set_client defaults_headers defaults_headers_common].
  rewrite Hcommon. apply map_eq. intros k. rewrite !lookup_union.
  destruct (decide (k = "Authorization")) as [-> | Hk].
  - rewrite Ha.
    assert (Hl : forall mx : option string, Some a ∪ mx = Some a) by (by intros []).
    by rewrite !Hl.
  - destruct (getDefaultHeaders _ !! "Authorization"); cbn [default from_option id].
    + by rewrite lookup_insert_ne.
    + by rewrite lookup_delete_ne.
Qed.

(** That is the state the constructor leaves, whatever the backend. *)
Lemma setApiToken_changes_no_request_header
  (url old new : string) (timeout : option Z) (sys : value) :
  exists this this',
    constructor (VStr url) old timeout sys = Normal this
    /\ setApiToken new this = (Normal tt, this')
    /\ apiToken this' = new
    /\ requestHeaders (client this') = requestHeaders (client this).
Proof.
  eexists. edestruct setApiToken_shadowed as (this' & Hset & Htok & Hreq);
    [| | exists this'; split; [reflexivity|]; split; [exact Hset|]; split;
         [exact Htok | exact Hreq]].
  - reflexivity.
  - apply getDefaultHeaders_Authorization.
Qed.

(** * Further properties of the adapter *)

(** ** One request per call *)

Ltac unfold_methods :=
  cbv beta iota zeta delta
    [perform getTasks getTask createTask startTask updateTaskProgress completeTask
     addTaskComment getProjects getProject getSystemInfo getUser searchTasks
     getTaskTimeLogs analyzeCriticalChain enableCCPM getCCPMReport updateBufferStatus
     recalculateCriticalChain getResourceLoading identifyFeedingBuffers
     getCriticalChainTasks updateTaskBuffer getCCPMDashboard
     tryCatch mbind Api_bind self lift caught mret Api_ret send verbOf].

(** X1: a request method leaves the adapter's configuration (base URL,
    token, timeout, backend identifier, client) as it was and puts at most
    one request on the wire; that request has the method's verb and the
    headers the client holds at that moment.  Nothing is retried. *)
Theorem call_sends_at_most_one_request (H : host) (c : call) (this : PMSAPI) :
  sameConfiguration this (snd (perform H c this))
  /\ (wire (snd (perform H c this)) = wire this
      \/ exists req,
           wire (snd (perform H c this)) = (wire this ++ [req])%list
           /\ req_method req = verbOf c
           /\ req_headers req = requestHeaders (client this)).
Proof.
  unfold sameConfiguration.
  destruct c; unfold_methods; repeat case_match; simplify_eq;
    cbn [snd baseUrl apiToken timeout systemType client wire set_wire set_lastError];
    (split; [by repeat split|]);
    first [by left | right; eexists; by repeat split].
Qed.

Lemma snoc_not_self {A} (l : list A) (x : A) : (l ++ [x])%list <> l.
Proof.
  intros Heq. apply (f_equal length) in Heq. rewrite length_app in Heq. simpl in Heq. lia.
Qed.

(** X3: the last-error slot changes only when the request of the call is
    rejected, and then holds the message of the response body, or the
    transport's message when the body has none.  A call that sends nothing
    or whose request is fulfilled leaves the slot as it was: a success does
    not clear an earlier error. *)
Theorem lastError_written_only_on_rejection (H : host) (c : call) (this : PMSAPI) :
  (wire (snd (perform H c this)) = wire this ->
   lastError (snd (perform H c this)) = lastError this)
  /\ (forall req,
        wire (snd (perform H c this)) = (wire this ++ [req])%list ->
        match transport H req with
        | Fulfilled _ => lastError (snd (perform H c this)) = lastError this
        | Rejected e => lastError (snd (perform H c this)) = rejectionMessage e
        end).
Proof.
  unfold rejectionMessage.
  destruct c; unfold_methods; repeat case_match; simplify_eq;
    cbn [snd lastError wire set_wire set_lastError];
    (split;
     [ intros Hw; first [reflexivity | by apply snoc_not_self in Hw]
     | intros req Hw;
       first [ by (symmetry in Hw; apply snoc_not_self in Hw)
             | apply app_inj_tail in Hw as [_ <-];
               match goal with Ht : transport H _ = _ |- _ => rewrite Ht end;
               repeat match goal with Hr : err_response _ = _ |- _ => rewrite Hr; clear Hr end;
               reflexivity ] ]).
Qed.

Lemma core_template_entries (this : PMSAPI) (k : string) :
  k ∈ ["task"; "startTask"; "updateProgress"; "completeTask"; "addComment"; "project";
       "timeLogs"] ->
  exists f, getEndpoints this !! k = Some (Template f).
Proof.
  intros Hk.
  assert (Ht : isTemplate (getEndpoints this !! k) = true).
  { unfold getEndpoints. destruct (profileOf (systemType this)); in_list Hk;
      vm_compute; reflexivity. }
  destruct (getEndpoints this !! k) as [[p|f]|]; try discriminate. by exists f.
Qed.

Lemma core_path_entries (this : PMSAPI) (k : string) :
  k ∈ ["tasks"; "createTask"; "projects"; "systemInfo"; "user"; "searchTasks"] ->
  exists p, getEndpoints this !! k = Some (Path p).
Proof.
  intros Hk.
  assert (Ht : isPath (getEndpoints this !! k) = true).
  { unfold getEndpoints. destruct (profileOf (systemType this)); in_list Hk;
      vm_compute; reflexivity. }
  destruct (getEndpoints this !! k) as [[p|f]|]; try discriminate. by exists p.
Qed.

Lemma translators_accept_objects (this : PMSAPI) (fs : list (string * value)) :
  (exists ps, buildTaskParams this (VObj fs) = Normal (VObj ps))
  /\ (exists p, buildTaskPayload this (VObj fs) = Normal p)
  /\ (exists p, buildProgressPayload this (VObj fs) = Normal p)
  /\ (exists p, buildCompletionPayload this (VObj fs) = Normal p)
  /\ (exists p, buildCCPMPayload this (VObj fs) = Normal p)
  /\ (exists p, buildBufferPayload this (VObj fs) = Normal p)
  /\ (exists p, buildTaskBufferPayload this (VObj fs) = Normal p).
Proof.
  unfold buildTaskParams, buildTaskPayload, buildProgressPayload, buildCompletionPayload,
    buildCCPMPayload, buildBufferPayload, buildTaskBufferPayload.
  destruct (profileOf (systemType this)); repeat split; eexists; reflexivity.
Qed.

Ltac known_entry this k :=
  first [ let Hf := fresh "Hentry" in
          destruct (core_template_entries this k) as [? Hf];
          [apply (bool_decide_unpack _); vm_compute; exact I | rewrite Hf]
        | let Hf := fresh "Hentry" in
          destruct (core_path_entries this k) as [? Hf];
          [apply (bool_decide_unpack _); vm_compute; exact I | rewrite Hf] ].

(** X2: on every backend, a task, project or system method whose data
    argument is an object sends exactly one request, with the method's verb
    and a URL built from the entry the profile's table has under the
    method's key: the entry's function applied to the id argument, the
    entry's path, or, for [getTasks] and [searchTasks], the entry's path
    followed by '?' and a query string. *)
Theorem core_call_sends_one_request (H : host) (c : call) (this : PMSAPI) :
  operationOf c ∈ coreOperations ->
  objectData c ->
  exists req e,
    wire (snd (perform H c this)) = (wire this ++ [req])%list
    /\ req_method req = verbOf c
    /\ getEndpoints this !! operationOf c = Some e
    /\ urlFrom e c (req_url req).
Proof.
  intros Hop Hdata.
  destruct c; try (apply (bool_decide_pack _) in Hop; vm_compute in Hop; contradiction);
    cbn [objectData] in Hdata;
    try (lazymatch type of Hdata with
         | True => fail
         | _ => destruct Hdata as [fs ->];
                destruct (translators_accept_objects this fs)
                  as ((ps & Hparams) & (p1 & Hpayload) & (p2 & Hprogress)
                      & (p3 & Hcompletion) & _)
         end);
    unfold_methods; cbv beta iota zeta delta [callEntry entry orDefault];
    rewrite ?Hparams, ?Hpayload, ?Hprogress, ?Hcompletion;
    cbv beta iota zeta delta [truthy searchParams mbind completion_bind cbind toString];
    match goal with
    | |- context [getEndpoints this !! ?k] => known_entry this k
    end;
    destruct (transport H _);
    cbn [snd wire set_wire set_lastError req_method req_url operationOf];
    eexists _, _; (split; [reflexivity|]); (split; [reflexivity|]);
    (split; [eassumption|]); cbn [urlFrom idOf req_url];
    first [reflexivity | eexists; reflexivity].
Qed.

Lemma core_call_sends_one_request_witness :
  operationOf (CreateTask (VObj [("name", VStr "Fix bug")])) ∈ coreOperations
  /\ objectData (CreateTask (VObj [("name", VStr "Fix bug")]))
  /\ exists req,
       wire (snd (perform zeroIdHost (CreateTask (VObj [("name", VStr "Fix bug")]))
                    (adapterFor (VStr "trello") "k")))
       = ([] ++ [req])%list
       /\ req_method req = POST
       /\ req_url req = VStr "/1/cards".
Proof.
  assert (Hop : operationOf (CreateTask (VObj [("name", VStr "Fix bug")])) ∈ coreOperations)
    by (apply (bool_decide_unpack _); vm_compute; exact I).
  assert (Hdata : objectData (CreateTask (VObj [("name", VStr "Fix bug")])))
    by (eexists; reflexivity).
  split; [exact Hop|]. split; [exact Hdata|].
  destruct (core_call_sends_one_request zeroIdHost _ (adapterFor (VStr "trello") "k")
              Hop Hdata) as (req & e & Hwire & Hverb & Hentry & Hurl).
  exists req. split; [exact Hwire|]. split; [exact Hverb|].
  vm_compute in Hentry. injection Hentry as <-. exact Hurl.
Defined.

(** ** What a failure keeps *)

Lemma handleError_plain_data (H : host) (e : error) :
  plain e -> get_opt (handleError H e) "data" = VNull.
Proof.
  unfold plain, handleError. intros ->. destruct (development H); reflexivity.
Qed.

Lemma tryCatch_payload_or_plain (H : host) (body : Api value) (this : PMSAPI) :
  (forall v this', body this = (Normal v, this') -> unwrappedPayload H this' v) ->
  apiThrowsPlain body ->
  exists v this',
    tryCatch body (caught H) this = (Normal v, this')
    /\ (unwrappedPayload H this' v
        \/ (normalizedError v /\ get_opt v "status" = VUndefined
            /\ get_opt v "data" = VNull)).
Proof.
  intros Hbody Hplain. unfold tryCatch.
  destruct (body this) as [[v|e] this'] eqn:E.
  - eexists _, _. split; [reflexivity|]. left. by apply Hbody.
  - eexists _, _. split; [reflexivity|]. right.
    pose proof (Hplain _ _ _ E) as He.
    split; [apply handleError_normalized|].
    split; [by apply handleError_plain_status | by apply handleError_plain_data].
Qed.

Ltac api_plain_with Hhost :=
  repeat first
    [ apply self_throwsPlain
    | apply send_throwsPlain
    | apply lift_throwsPlain
    | apply bind_throwsPlain; [| intros ?]
    | apply buildTaskParams_throwsPlain
    | apply buildTaskPayload_throwsPlain
    | apply buildProgressPayload_throwsPlain
    | apply buildCompletionPayload_throwsPlain
    | apply buildCCPMPayload_throwsPlain
    | apply buildBufferPayload_throwsPlain
    | apply buildTaskBufferPayload_throwsPlain
    | apply searchParams_throwsPlain; [exact Hhost]
    | apply callEntry_throwsPlain
    | match goal with |- throwsPlain (if _ then _ else _) => case_match end
    | plain_step ].

(** X4: whatever a request method returns is the body of a fulfilled request
    or a normalized error whose [status] is [undefined] and whose [data] is
    [null]: neither the HTTP status nor the field errors of a failed
    response ever reach the caller. *)
Theorem failures_never_carry_status_or_field_errors (H : host) (c : call) (this : PMSAPI) :
  (forall init, throwsPlain (searchParamsInit H init)) ->
  exists v this',
    perform H c this = (Normal v, this')
    /\ (unwrappedPayload H this' v
        \/ (normalizedError v /\ get_opt v "status" = VUndefined
            /\ get_opt v "data" = VNull)).
Proof.
  intros Hhost.
  destruct c; simpl;
    unfold getTasks, getTask, createTask, startTask, updateTaskProgress, completeTask,
      addTaskComment, getProjects, getProject, getSystemInfo, getUser, searchTasks,
      getTaskTimeLogs, analyzeCriticalChain, enableCCPM, getCCPMReport, updateBufferStatus,
      recalculateCriticalChain, getResourceLoading, identifyFeedingBuffers,
      getCriticalChainTasks, updateTaskBuffer, getCCPMDashboard;
    (apply tryCatch_payload_or_plain;
     [ intros v this' Hb; payload | api_plain_with Hhost ]).
Qed.

Lemma failures_never_carry_status_or_field_errors_witness :
  (forall init, throwsPlain (searchParamsInit unauthorized init))
  /\ exists v this',
       perform unauthorized (GetTask (VInt 7)) (adapterFor (VStr "jira") "token")
       = (Normal v, this')
       /\ (unwrappedPayload unauthorized this' v
           \/ (normalizedError v /\ get_opt v "status" = VUndefined
               /\ get_opt v "data" = VNull)).
Proof.
  assert (Hh : forall init, throwsPlain (searchParamsInit unauthorized init))
    by (intros init e [=]).
  split; [exact Hh|].
  exact (failures_never_carry_status_or_field_errors unauthorized (GetTask (VInt 7))
           (adapterFor (VStr "jira") "token") Hh).
Defined.

(** ** Reconfiguration *)

Lemma sent_request_headers (H : host) (c : call) (this : PMSAPI) (req : request) :
  wire (snd (perform H c this)) = (wire this ++ [req])%list ->
  req_headers req = requestHeaders (client this).
Proof.
  destruct c; unfold_methods; repeat case_match; simplify_eq;
    cbn [snd wire set_wire set_lastError]; intros Hw;
    first [ by (symmetry in Hw; apply snoc_not_self in Hw)
          | by apply app_inj_tail in Hw as [_ <-] ].
Qed.

(** X5: after [setSystemType(s)] the request of the next call carries the
    header set of the profile of [s], built from the current token. *)
Theorem call_after_setSystemType_uses_new_profile
  (H : host) (s : value) (c : call) (this : PMSAPI) (req : request) :
  wire (snd (perform H c (snd (setSystemType s this)))) = (wire this ++ [req])%list ->
  req_headers req = getDefaultHeaders (set_systemType s this).
Proof.
  intros Hw.
  destruct (setSystemType_recomputes_headers s this) as (this1 & Hset & Hheaders).
  rewrite Hset in Hw. cbn [snd] in Hw.
  assert (Hwire : wire this1 = wire this) by (by injection Hset as <-).
  rewrite <- Hwire in Hw.
  rewrite (sent_request_headers H c this1 req Hw), Hheaders.
  injection Hset as <-. reflexivity.
Qed.

Lemma call_after_setSystemType_uses_new_profile_witness :
  exists req,
    wire (snd (perform zeroIdHost GetProjects
                 (snd (setSystemType (VStr "trello") (adapterFor (VStr "jira") "k")))))
    = ([] ++ [req])%list
    /\ req_headers req
       = getDefaultHeaders (set_systemType (VStr "trello") (adapterFor (VStr "jira") "k")).
Proof.
  eexists. split; [reflexivity|].
  apply (call_after_setSystemType_uses_new_profile zeroIdHost (VStr "trello") GetProjects
           (adapterFor (VStr "jira") "k")).
  reflexivity.
Defined.

(** X6: [setApiToken] called after [setSystemType] throws a TypeError,
    because [setSystemType] replaced [defaults.headers] by an object without
    [common].  The token field is updated all the same, and the headers of
    later requests are still those built by [setSystemType] from the
    previous token. *)
Theorem setApiToken_after_setSystemType_fails (s : value) (token : string) (this : PMSAPI) :
  exists this1 this2,
    setSystemType s this = (Normal tt, this1)
    /\ setApiToken token this1
       = (Throw (TypeError "Cannot set properties of undefined (setting 'Authorization')"),
          this2)
    /\ apiToken this2 = token
    /\ requestHeaders (client this2) = getDefaultHeaders (set_systemType s this).
Proof.
  destruct (setSystemType_recomputes_headers s this) as (this1 & Hset & Hheaders).
  exists this1. injection Hset as <-. eexists. split; [reflexivity|].
  split; [reflexivity|]. split; [reflexivity|]. exact Hheaders.
Qed.

Lemma stripTrailingSlash_snoc (u : string) : stripTrailingSlash (u +:+ "/") = u.
Proof.
  induction u as [|c u IH]; [reflexivity|].
  change (String c u +:+ "/") with (String c (u +:+ "/")).
  destruct u as [|c' u']; [reflexivity|].
  change (stripTrailingSlash (String c (String c' u' +:+ "/")))
    with (String c (stripTrailingSlash (String c' u' +:+ "/"))).
  by rewrite IH.
Qed.

Lemma stripTrailingSlash_other (s : string) :
  (forall u, s <> u +:+ "/") -> stripTrailingSlash s = s.
Proof.
  induction s as [|c s IH]; [reflexivity|]. intros Hno.
  destruct s as [|c' s'].
  - cbn [stripTrailingSlash]. destruct (Ascii.eqb c "/") eqn:E; [|reflexivity].
    apply Ascii.eqb_eq in E as ->. by destruct (Hno "").
  - change (stripTrailingSlash (String c (String c' s')))
      with (String c (stripTrailingSlash (String c' s'))).
    rewrite IH; [reflexivity|]. intros u Hu. apply (Hno (String c u)).
    by rewrite Hu.
Qed.

(** X7: the constructor and [setBaseUrl] store a base URL that ends in a
    slash without that one slash, in [this.baseUrl] and in the client alike
    (so [u//] is stored as [u/]), and the constructor stores a URL that does
    not end in a slash unchanged. *)
Theorem base_url_loses_one_trailing_slash (u token : string) (timeout : option Z)
  (sys : value) (this0 : PMSAPI) :
  (exists this,
      constructor (VStr (u +:+ "/")) token timeout sys = Normal this
      /\ baseUrl this = u /\ defaults_baseURL (client this) = u)
  /\ (exists this,
        setBaseUrl (VStr (u +:+ "/")) this0 = (Normal tt, this)
        /\ baseUrl this = u /\ defaults_baseURL (client this) = u)
  /\ ((forall v, u <> v +:+ "/") ->
      exists this,
        constructor (VStr u) token timeout sys = Normal this
        /\ baseUrl this = u /\ defaults_baseURL (client this) = u).
Proof.
  split; [|split].
  - eexists. split; [reflexivity|]. cbn [baseUrl client axios_create defaults_baseURL].
    by rewrite stripTrailingSlash_snoc.
  - eexists. split; [reflexivity|].
    cbn [baseUrl client set_client set_baseUrl defaults_baseURL].
    by rewrite stripTrailingSlash_snoc.
  - intros Hno. eexists. split; [reflexivity|].
    cbn [baseUrl client axios_create defaults_baseURL].
    by rewrite stripTrailingSlash_other.
Qed.

(** X8: [this.baseUrl] and [this.timeout] always equal the client's
    [baseURL] and [timeout]: the constructor establishes it, and the four
    setters and every request method keep it, also when they throw. *)
Theorem client_stays_in_sync :
  (forall url token timeout sys this,
      constructor url token timeout sys = Normal this -> inSync this)
  /\ (forall this, inSync this ->
        (forall t, inSync (snd (setTimeout t this)))
        /\ (forall url, inSync (snd (setBaseUrl url this)))
        /\ (forall token, inSync (snd (setApiToken token this)))
        /\ (forall s, inSync (snd (setSystemType s this)))
        /\ (forall H c, inSync (snd (perform H c this)))).
Proof.
  unfold inSync. split.
  - intros url token timeout sys this. unfold constructor.
    destruct url; intros [= <-]; split; reflexivity.
  - intros this [Hb Ht]. repeat split.
    + cbn. exact Hb.
    + unfold setBaseUrl. destruct url; cbn; done.
    + unfold setBaseUrl. destruct url; cbn; done.
    + unfold setApiToken. cbn [client set_apiToken].
      destruct (defaults_headers_common (client this)); cbn; done.
    + unfold setApiToken. cbn [client set_apiToken].
      destruct (defaults_headers_common (client this)); cbn; done.
    + cbn. exact Hb.
    + cbn. exact Ht.
    + destruct c; unfold_methods; repeat case_match; simplify_eq; cbn; exact Hb.
    + destruct c; unfold_methods; repeat case_match; simplify_eq; cbn; exact Ht.
Qed.

(** ** Payload translation *)

Lemma lookup_set_field_ne (k k' : string) (v : value) (fs : list (string * value)) :
  k <> k' -> lookup_field k (set_field k' v fs) = lookup_field k fs.
Proof.
  intros Hne. induction fs as [|[k0 v0] fs IH]; simpl.
  - by rewrite (proj2 (String.eqb_neq k k') Hne).
  - destruct (String.eqb k' k0) eqn:E; simpl.
    + apply String.eqb_eq in E as <-. by rewrite (proj2 (String.eqb_neq k k') Hne).
    + destruct (String.eqb k k0); [reflexivity | exact IH].
Qed.

Lemma lookup_set_field_eq (k : string) (v : value) (fs : list (string * value)) :
  lookup_field k (set_field k v fs) = v.
Proof.
  induction fs as [|[k0 v0] fs IH]; simpl.
  - by rewrite String.eqb_refl.
  - destruct (String.eqb k k0) eqn:E; simpl.
    + by rewrite String.eqb_refl.
    + by rewrite E.
Qed.

(** X9: for a task object, [buildTaskPayload] never throws and keeps the
    task's name and description on every profile, under the backend's names
    (name/description, fields.summary/fields.description, name/notes,
    name/desc).  The project id is kept on the native, Asana and custom
    profiles; the Jira and Trello payloads do not depend on it at all. *)
Theorem task_payload_keeps_name_and_description (this : PMSAPI)
  (taskData : list (string * value)) :
  exists payload,
    buildTaskPayload this (VObj taskData) = Normal payload
    /\ taskNameIn (profileOf (systemType this)) payload = lookup_field "name" taskData
    /\ taskDescriptionIn (profileOf (systemType this)) payload
       = lookup_field "description" taskData
    /\ match profileOf (systemType this) with
       | Laracollab | Custom =>
           get_opt payload "project_id" = lookup_field "project_id" taskData
       | Asana => get_opt payload "projects" = VArr [lookup_field "project_id" taskData]
       | Jira | Trello =>
           forall id,
             buildTaskPayload this (VObj (set_field "project_id" id taskData))
             = Normal payload
       end.
Proof.
  unfold buildTaskPayload.
  destruct (profileOf (systemType this)); eexists; (split; [reflexivity|]);
    cbn [taskNameIn taskDescriptionIn get_opt lookup_field obj1 String.eqb Ascii.eqb
         Bool.eqb];
    repeat split;
    try (intros id; cbn [get mbind completion_bind cbind];
         by rewrite !lookup_set_field_ne).
Qed.

(** X10: on the native backend the three percentages of the CCPM payload are
    never falsy: the caller's value is used when it is truthy, and 50, 25
    and 75 otherwise, so a caller cannot set one of them to 0.
    [analyze_immediately] is false only when the caller passed exactly
    [false]; start date and duration are passed through under their
    backend names. *)
Theorem ccpm_payload_defaults (this : PMSAPI) (settings : list (string * value)) :
  systemType this = VStr "laracollab" ->
  exists payload,
    buildCCPMPayload this (VObj settings) = Normal (VObj payload)
    /\ (forall k d,
          (k, d) ∈ [("project_buffer_percentage", 50%Z);
                    ("feeding_buffer_percentage", 25%Z);
                    ("resource_utilization_target", 75%Z)] ->
          truthy (lookup_field k payload) = true
          /\ lookup_field k payload
             = (if truthy (lookup_field k settings) then lookup_field k settings
                else VInt d))
    /\ (lookup_field "analyze_immediately" payload = VBool false
        <-> lookup_field "analyze_immediately" settings = VBool false)
    /\ lookup_field "critical_chain_start_date" payload = lookup_field "start_date" settings
    /\ lookup_field "estimated_duration_days" payload
       = lookup_field "duration_days" settings.
Proof.
  intros Hsys. unfold buildCCPMPayload. rewrite Hsys.
  eexists. split; [reflexivity|].
  cbn [lookup_field String.eqb Ascii.eqb Bool.eqb].
  split; [|split; [|split; reflexivity]].
  - intros k d Hin. rewrite !elem_of_cons, elem_of_nil in Hin.
    destruct Hin as [[= -> ->]|[[= -> ->]|[[= -> ->]|[]]]];
      cbn [lookup_field String.eqb Ascii.eqb Bool.eqb]; unfold or_else;
      match goal with |- context [truthy (lookup_field ?k settings)] =>
        destruct (truthy (lookup_field k settings)) eqn:E end;
      split; first [exact E | reflexivity].
  - unfold not_false.
    destruct (lookup_field "analyze_immediately" settings) as [| |[|]| | | |];
      split; first [reflexivity | discriminate].
Qed.

Lemma ccpm_payload_defaults_witness :
  systemType (adapterFor (VStr "laracollab") "k") = VStr "laracollab"
  /\ exists payload,
       buildCCPMPayload (adapterFor (VStr "laracollab") "k")
         (VObj [("project_buffer_percentage", VInt 0)]) = Normal (VObj payload)
       /\ lookup_field "project_buffer_percentage" payload = VInt 50.
Proof.
  split; [reflexivity|].
  destruct (ccpm_payload_defaults (adapterFor (VStr "laracollab") "k")
              [("project_buffer_percentage", VInt 0)] eq_refl)
    as (payload & Hbuild & Hdefaults & _).
  exists payload. split; [exact Hbuild|].
  destruct (Hdefaults "project_buffer_percentage" 50%Z) as [_ Hv]; [left|].
  exact Hv.
Defined.

(** * Further properties of the command layer *)

Lemma ensureConfigured_configured (this : PMSPlugin) :
  configured this -> ensureConfigured this = (Normal true, this).
Proof.
  intros [[a Ha] Hc]. unfold ensureConfigured. by rewrite Ha, Hc.
Qed.

Lemma guarded_runs (k : bool -> Cmd value) (this : PMSPlugin) :
  configured this -> (ensureConfigured ≫= k) this = k true this.
Proof.
  intros Hc. unfold mbind, Cmd_bind. by rewrite (ensureConfigured_configured this Hc).
Qed.

Section ConfiguredPlugin.

Variable body : string -> string -> list value -> Api value.

Lemma cmdTry_failed (m : Cmd value) (what : string) (this : PMSPlugin) :
  exists v this', cmdTry m (failed what) this = (Normal v, this').
Proof.
  unfold cmdTry. destruct (m this) as [[v|e] this']; eexists _, _; reflexivity.
Qed.

(** X11: on a configured plugin none of the thirteen guarded handlers
    throws, whatever the arguments and whatever the command objects do:
    every fault past the guard is caught and rendered. *)
Theorem configured_handlers_never_throw (name : string)
  (handler : list string -> Cmd value) (args : list string) (this : PMSPlugin) :
  (name, handler) ∈ guardedHandlers body ->
  configured this ->
  exists v this', handler args this = (Normal v, this').
Proof.
  intros Hin Hc. unfold guardedHandlers in Hin.
  repeat (apply elem_of_cons in Hin as [[= -> ->] | Hin]);
    [.. | by apply elem_of_nil in Hin];
    (unfold handleTasksCommand, handleProjectsCommand, handleCreateTaskCommand,
       handleStartTaskCommand, handleCompleteTaskCommand, handleCCPMEnableCommand,
       handleCCPMAnalyzeCommand, handleCCPMReportCommand, handleCCPMResourcesCommand,
       handleCCPMBuffersCommand, handleCCPMRecalculateCommand, handleCCPMDashboardCommand,
       handleCCPMUpdateBufferCommand;
     rewrite (guarded_runs _ this Hc); cbn [negb]; apply cmdTry_failed).
Qed.

Lemma invoke_missing (methods : list string) (method : string) (args : list value)
  (this : PMSPlugin) :
  is_Some (api this) ->
  method ∉ methods ->
  invoke body "criticalChainCommands" methods method args this
  = (Throw (TypeError (notCallable method this)), this).
Proof.
  intros [a Ha] Hm. unfold invoke, commandAdapter, notCallable.
  cbn [String.eqb Ascii.eqb Bool.eqb]. rewrite Ha.
  destruct (criticalChainCommands this); [reflexivity | by rewrite bool_decide_eq_false_2 ..].
Qed.

(** Past the guard the buffer command answers with its usage text, or with
    the text of the TypeError of its call of [updateTaskBuffer], which
    [CriticalChainCommands] does not define. *)
Lemma update_buffer_answers (args : list string) (this : PMSPlugin) :
  configured this ->
  handleCCPMUpdateBufferCommand body args this
  = (Normal (VStr (formatError
                     (VStr (if falsy (fst (parseBufferUpdateArgs args))
                               || falsy (snd (parseBufferUpdateArgs args))
                            then bufferUsage
                            else "Error updating task buffer: "
                                 +:+ notCallable "updateTaskBuffer" this))
                     VNull)), this).
Proof.
  intros Hc. pose proof Hc as [Ha _].
  unfold handleCCPMUpdateBufferCommand. rewrite (guarded_runs _ this Hc). cbn [negb].
  unfold cmdTry. destruct (parseBufferUpdateArgs args) as [taskId percentage]. cbn [fst snd].
  destruct (falsy taskId || falsy percentage); [reflexivity|].
  rewrite invoke_missing; [reflexivity | exact Ha |].
  apply (bool_decide_unpack _). vm_compute. exact I.
Qed.


(** X12: [CriticalChainCommands] defines neither [getCCPMDashboard] nor
    [updateTaskBuffer].  On a configured plugin /ccpm-dashboard therefore
    always answers with the text of a TypeError: 'Cannot read properties of
    null (reading 'getCCPMDashboard')' when [criticalChainCommands] was
    never created, 'this.criticalChainCommands.getCCPMDashboard is not a
    function' otherwise.  /ccpm-update-buffer answers with its usage text
    or with the same kind of error.  Neither runs a method of a command
    object or changes the plugin or an adapter. *)
Theorem dashboard_and_buffer_commands_never_reach_adapter (args : list string)
  (this : PMSPlugin) :
  configured this ->
  handleCCPMDashboardCommand body this
  = (Normal (VStr (formatError
                     (VStr ("Error getting CCPM dashboard: "
                            +:+ notCallable "getCCPMDashboard" this))
                     VNull)), this)
  /\ exists text,
       handleCCPMUpdateBufferCommand body args this
       = (Normal (VStr (formatError (VStr text) VNull)), this)
       /\ (text = bufferUsage
           \/ text = "Error updating task buffer: "
                     +:+ notCallable "updateTaskBuffer" this).
Proof.
  intros Hc. pose proof Hc as [Ha _]. split.
  - unfold handleCCPMDashboardCommand. rewrite (guarded_runs _ this Hc). cbn [negb].
    unfold cmdTry. rewrite invoke_missing; [reflexivity | exact Ha |].
    apply (bool_decide_unpack _). vm_compute. exact I.
  - rewrite (update_buffer_answers args this Hc). eexists. split; [reflexivity|].
    destruct (falsy _ || falsy _); [by left | by right].
Qed.

End ConfiguredPlugin.

(** X13: [extractProjectId] returns [null] exactly when no argument is all
    digits or starts with 'project:'; otherwise the first such argument
    alone decides, and the result is [parseInt] of it (of what follows
    'project:'), also when that is NaN and a later argument is a good id. *)
Theorem extractProjectId_first_candidate (args : list string) :
  (extractProjectId args = VNull <-> Forall (fun a => isIdCandidate a = false) args)
  /\ (forall before arg after,
        args = (before ++ arg :: after)%list ->
        Forall (fun a => isIdCandidate a = false) before ->
        isIdCandidate arg = true ->
        extractProjectId args
        = VNum (parseInt (if matchesDigits arg then arg else removeFirst "project:" arg))).
Proof.
  split.
  - induction args as [|a args IH]; simpl.
    + split; [constructor | reflexivity].
    + rewrite Forall_cons. unfold isIdCandidate at 1.
      destruct (matchesDigits a); cbn [orb].
      * split; [discriminate | intros [[=] _]].
      * destruct (startsWith a "project:").
        -- split; [discriminate | intros [[=] _]].
        -- rewrite IH. tauto.
  - intros before arg after -> Hbefore Harg.
    induction Hbefore as [|a before Ha _ IH]; simpl.
    + unfold isIdCandidate in Harg. destruct (matchesDigits arg); [reflexivity|].
      simpl in Harg. by rewrite Harg.
    + unfold isIdCandidate in Ha. apply orb_false_iff in Ha as [-> ->]. exact IH.
Qed.

Section ProjectCommands.

Variable body : string -> string -> list value -> Api value.

(** X14: on a configured plugin, when the arguments give no usable project
    id (none found, or the one found is 0 or NaN), each of the six CCPM
    project commands answers with its own usage text and calls nothing. *)
Theorem project_commands_need_an_id (args : list string) (this : PMSPlugin) :
  configured this ->
  truthy (extractProjectId args) = false ->
  Forall (fun '(handler, text) =>
            handler args this = (Normal (VStr (formatError (VStr text) VNull)), this))
    [ (handleCCPMEnableCommand body,
       "Please provide a project ID: /ccpm-enable <project-id> [options]");
      (handleCCPMAnalyzeCommand body,
       "Please provide a project ID: /ccpm-analyze <project-id>");
      (handleCCPMReportCommand body,
       "Please provide a project ID: /ccpm-report <project-id>");
      (handleCCPMResourcesCommand body,
       "Please provide a project ID: /ccpm-resources <project-id>");
      (handleCCPMBuffersCommand body,
       "Please provide a project ID: /ccpm-buffers <project-id>");
      (handleCCPMRecalculateCommand body,
       "Please provide a project ID: /ccpm-recalculate <project-id>") ].
Proof.
  intros Hc Hid.
  repeat constructor;
    unfold handleCCPMEnableCommand, handleCCPMAnalyzeCommand, handleCCPMReportCommand,
      handleCCPMResourcesCommand, handleCCPMBuffersCommand, handleCCPMRecalculateCommand;
    rewrite (guarded_runs _ this Hc); cbn [negb]; unfold cmdTry; rewrite Hid; reflexivity.
Qed.

(** X16: [parseBufferUpdateArgs] reads every all-digit argument as the
    task id, so arguments that are all integers leave the percentage
    [null], and on a configured plugin /ccpm-update-buffer answers with its
    usage text: a percentage has to be written with a fraction or a percent
    sign. *)
Theorem integer_percentage_is_read_as_task_id (args : list string) (this : PMSPlugin) :
  configured this ->
  Forall (fun a => matchesDigits a = true) args ->
  snd (parseBufferUpdateArgs args) = None
  /\ handleCCPMUpdateBufferCommand body args this
     = (Normal (VStr (formatError (VStr bufferUsage) VNull)), this).
Proof.
  intros Hc Hall.
  assert (Hp : forall acc, snd (fold_left
             (fun '(taskId, percentage) arg =>
                if matchesDigits arg then (Some (parseInt arg), percentage)
                else if includes arg "%" || negb (isNaN (parseFloat arg))
                then (taskId, Some (parseFloat (removeFirst "%" arg)))
                else (taskId, percentage)) args acc) = snd acc).
  { induction Hall as [|a args Ha _ IH]; intros [t p]; [reflexivity|].
    cbn [fold_left]. rewrite Ha. rewrite IH. reflexivity. }
  assert (Hnone : snd (parseBufferUpdateArgs args) = None) by apply Hp.
  split; [exact Hnone|].
  unfold handleCCPMUpdateBufferCommand. rewrite (guarded_runs _ this Hc). cbn [negb].
  unfold cmdTry. destruct (parseBufferUpdateArgs args) as [taskId percentage].
  cbn [snd] in Hnone. subst percentage. cbn [falsy]. rewrite orb_true_r. reflexivity.
Qed.

End ProjectCommands.

Lemma configured_configuredPlugin : configured configuredPlugin.
Proof. split; [by eexists | reflexivity]. Qed.

Lemma configured_handlers_never_throw_witness :
  configured configuredPlugin
  /\ exists v this', handleTasksCommand silentBody ["pending"] configuredPlugin
                     = (Normal v, this').
Proof.
  split; [exact configured_configuredPlugin|].
  apply (configured_handlers_never_throw silentBody "pms-tasks");
    [left | exact configured_configuredPlugin].
Defined.

Lemma dashboard_and_buffer_commands_never_reach_adapter_witness :
  configured configuredPlugin
  /\ snd (handleCCPMDashboardCommand silentBody configuredPlugin) = configuredPlugin.
Proof.
  split; [exact configured_configuredPlugin|].
  destruct (dashboard_and_buffer_commands_never_reach_adapter silentBody ["12"; "80%"]
              configuredPlugin configured_configuredPlugin) as [-> _].
  reflexivity.
Defined.


Lemma project_commands_need_an_id_witness :
  configured configuredPlugin
  /\ truthy (extractProjectId ["project:abc"; "12"]) = false
  /\ handleCCPMAnalyzeCommand silentBody ["project:abc"; "12"] configuredPlugin
     = (Normal (VStr (formatError
                        (VStr "Please provide a project ID: /ccpm-analyze <project-id>")
                        VNull)), configuredPlugin).
Proof.
  split; [exact configured_configuredPlugin|]. split; [reflexivity|].
  pose proof (project_commands_need_an_id silentBody ["project:abc"; "12"] configuredPlugin
                configured_configuredPlugin eq_refl) as Hall.
  apply Forall_cons in Hall as [_ Hall]. apply Forall_cons in Hall as [Hanalyze _].
  exact Hanalyze.
Defined.

Lemma integer_percentage_is_read_as_task_id_witness :
  configured configuredPlugin
  /\ Forall (fun a => matchesDigits a = true) ["12"; "80"]
  /\ handleCCPMUpdateBufferCommand silentBody ["12"; "80"] configuredPlugin
     = (Normal (VStr (formatError (VStr bufferUsage) VNull)), configuredPlugin).
Proof.
  assert (Hd : Forall (fun a => matchesDigits a = true) ["12"; "80"])
    by (repeat constructor).
  split; [exact configured_configuredPlugin|]. split; [exact Hd|].
  exact (proj2 (integer_percentage_is_read_as_task_id silentBody ["12"; "80"]
                  configuredPlugin configured_configuredPlugin Hd)).
Defined.

Lemma set_field_Forall (P : string * value -> Prop) (k : string) (v : value)
  (fs : list (string * value)) :
  Forall P fs -> P (k, v) -> Forall P (set_field k v fs).
Proof.
  intros Hfs Hkv. induction Hfs as [|[k0 v0] fs H0 Hfs IH]; simpl.
  - by constructor.
  - destruct (String.eqb k k0); constructor; auto.
Qed.

Lemma set_field_keys (k : string) (v : value) (fs : list (string * value)) :
  map fst (set_field k v fs)
  = if has_field k fs then map fst fs else (map fst fs ++ [k])%list.
Proof.
  induction fs as [|[k0 v0] fs IH]; simpl; [reflexivity|].
  destruct (String.eqb k k0) eqn:E; simpl.
  - apply String.eqb_eq in E as ->. reflexivity.
  - rewrite IH. by destruct (has_field k fs).
Qed.

Lemma has_field_elem (k : string) (fs : list (string * value)) :
  has_field k fs = false -> k ∉ map fst fs.
Proof.
  induction fs as [|[k0 v0] fs IH]; simpl; [intros _; apply not_elem_of_nil|].
  destruct (String.eqb k k0) eqn:E; [discriminate|]. simpl. intros Hf.
  apply String.eqb_neq in E. rewrite not_elem_of_cons. split; [exact E | by apply IH].
Qed.

Lemma set_field_NoDup (k : string) (v : value) (fs : list (string * value)) :
  NoDup (map fst fs) -> NoDup (map fst (set_field k v fs)).
Proof.
  intros Hnd. rewrite set_field_keys. destruct (has_field k fs) eqn:E; [exact Hnd|].
  apply NoDup_app. split; [exact Hnd|]. split.
  - intros x Hx Hk. apply list_elem_of_singleton in Hk as ->.
    by apply (has_field_elem k fs E).
  - apply NoDup_singleton.
Qed.

(** X15: whatever the arguments, [parseTaskFilters] returns an object with
    distinct keys among status, priority and project_id; status is one of
    completed, pending, in_progress; priority one of urgent, high, medium,
    low; project_id is a number other than 0 and NaN.  Unknown words and
    unusable project ids leave no trace. *)
Theorem parseTaskFilters_wellformed (args : list string) :
  exists fields,
    parseTaskFilters args = VObj fields
    /\ Forall validFilterField fields
    /\ NoDup (map fst fields).
Proof.
  unfold parseTaskFilters. eexists. split; [reflexivity|].
  set (step := fun (filters : list (string * value)) (arg : string) => _).
  assert (Hinv : forall acc,
             Forall validFilterField acc /\ NoDup (map fst acc) ->
             Forall validFilterField (fold_left step args acc)
             /\ NoDup (map fst (fold_left step args acc))).
  { induction args as [|a args IH]; intros acc Hacc; [exact Hacc|].
    cbn [fold_left]. apply IH. destruct Hacc as [Hv Hnd]. unfold step.
    repeat case_match;
      first [ split; [exact Hv | exact Hnd]
            | split; [apply set_field_Forall; [exact Hv|] | by apply set_field_NoDup] ];
      unfold validFilterField; cbn [fst snd];
      first [ left; split; [reflexivity|]; rewrite !elem_of_cons; tauto
            | right; left; split; [reflexivity|]; rewrite !elem_of_cons; tauto
            | right; right; split; [reflexivity|]; eexists; split; [reflexivity|];
              assumption ]. }
  apply Hinv. split; [constructor | apply NoDup_nil_2].
Qed.

Lemma formatSystemInfo_without_ai_version (info : value) :
  truthy (get_opt info "ai_version") = false ->
  formatSystemInfo info = formatError (VStr "Unable to connect to LaraCollab API") VNull.
Proof. intros Hv. unfold formatSystemInfo. rewrite Hv, orb_true_r. reflexivity. Qed.

Lemma handleError_without_ai_version (H : host) (e : error) :
  truthy (get_opt (handleError H e) "ai_version") = false.
Proof. unfold handleError. destruct (development H); reflexivity. Qed.

(** X17: with an adapter in place /pms-status never throws.  It renders the
    system information only when the system-info request is fulfilled with
    a truthy [ai_version]; in every other case, a rejected request included,
    the text is the error 'Unable to connect to LaraCollab API'.  A payload
    that carries only [version] or [id] gets that error although
    [testConnection] accepts it. *)
Theorem status_command_needs_ai_version (H : host) (this : PMSPlugin) (a : PMSAPI) :
  api this = Some a ->
  exists text this',
    handleStatusCommand H this = (Normal (VStr text), this')
    /\ ((exists r, transport H (systemInfoRequest a) = Fulfilled r
                   /\ truthy (get_opt (data r) "ai_version") = true
                   /\ text = formatSystemInfo (data r))
        \/ text = formatError (VStr "Unable to connect to LaraCollab API") VNull)
    /\ (forall r, transport H (systemInfoRequest a) = Fulfilled r ->
                  truthy (get_opt (data r) "ai_version") = false ->
                  text = formatError (VStr "Unable to connect to LaraCollab API") VNull
                  /\ fst (testConnection H a) = Normal (hasTruthyMarker (data r))).
Proof.
  intros Ha. unfold handleStatusCommand. rewrite Ha.
  unfold cmdTry, mbind, Cmd_bind, liftApi. rewrite Ha.
  destruct (getSystemInfo_run H a) as [a' ->].
  destruct (testConnection_run H a) as [a'' Htest].
  cbn [mret Cmd_ret]. eexists _, _. split; [reflexivity|].
  destruct (transport H (systemInfoRequest a)) as [r|e]; split.
  - destruct (truthy (get_opt (data r) "ai_version")) eqn:Hv.
    + left. eauto.
    + right. by apply formatSystemInfo_without_ai_version.
  - intros r' [= <-] Hv. split; [by apply formatSystemInfo_without_ai_version|].
    by rewrite Htest.
  - right. apply formatSystemInfo_without_ai_version, handleError_without_ai_version.
  - intros r' [=].
Qed.

Lemma status_command_needs_ai_version_witness :
  api configuredPlugin = Some (adapterFor (VStr "laracollab") "secret-token")
  /\ fst (handleStatusCommand zeroIdHost configuredPlugin)
     = Normal (VStr (formatError (VStr "Unable to connect to LaraCollab API") VNull)).
Proof.
  split; [reflexivity|].
  destruct (status_command_needs_ai_version zeroIdHost configuredPlugin
              (adapterFor (VStr "laracollab") "secret-token") eq_refl)
    as (text & this' & Hrun & _ & Hno).
  rewrite Hrun. cbn [fst].
  destruct (Hno (Response 200 (VObj [("id", VInt 0)])) eq_refl eq_refl) as [-> _].
  reflexivity.
Defined.

(** * Further properties of numeric conversion *)

Example stringToNumber_samples :
  stringToNumber "" = Fin 0 /\ stringToNumber "  42 " = Fin (42 # 1)
  /\ stringToNumber "1e3" = Fin (1000 # 1) /\ stringToNumber "1e" = NaN
  /\ stringToNumber "12px" = NaN /\ stringToNumber "0x1f" = Fin (31 # 1)
  /\ stringToNumber "-0x10" = NaN /\ stringToNumber "-.5" = Fin (-1 # 2)
  /\ stringToNumber "." = NaN /\ stringToNumber "5." = Fin (5 # 1)
  /\ stringToNumber "-Infinity" = NegInf /\ stringToNumber "0b102" = NaN
  /\ stringToNumber "1 2" = NaN.
Proof. repeat split; reflexivity. Qed.

(** * Further properties of the formatters *)

Lemma Qfloor_bounds (x : Q) (lo hi : Z) :
  (inject_Z lo <= x)%Q -> (x < inject_Z hi)%Q -> (lo <= Qfloor x < hi)%Z.
Proof.
  intros Hlo Hhi. split.
  - rewrite <- (Qfloor_Z lo). by apply Qfloor_resp_le.
  - rewrite Zlt_Qlt. eapply Qle_lt_trans; [apply Qfloor_le | exact Hhi].
Qed.

Lemma half_step (q : Q) : (q / 10 + (1 # 2) == q * (1 # 10) + (1 # 2))%Q.
Proof. reflexivity. Qed.

Lemma stringRepeat_nat (s : string) (n : Z) :
  (0 <= n)%Z ->
  stringRepeat s (Fin (inject_Z n)) = Normal (repeatString s (Z.to_nat n)).
Proof.
  intros Hn. unfold stringRepeat, Qtruncate. cbn [Qnum Qden inject_Z].
  rewrite Z.quot_1_r. by destruct (Z.ltb_spec n 0); [lia|].
Qed.

Lemma stringRepeat_negative (s : string) (n : Z) :
  (n < 0)%Z -> exists msg, stringRepeat s (Fin (inject_Z n)) = Throw (RangeError msg).
Proof.
  intros Hn. unfold stringRepeat, Qtruncate. cbn [Qnum Qden inject_Z].
  rewrite Z.quot_1_r. destruct (Z.ltb_spec n 0); [by eexists | lia].
Qed.

Lemma minusFrom_integer (k n : Z) :
  exists q, minusFrom (inject_Z k) (Fin (inject_Z n)) = Fin q /\ Qtruncate q = (k - n)%Z.
Proof.
  eexists. split; [reflexivity|]. unfold Qtruncate. cbn. rewrite Z.quot_1_r. lia.
Qed.


Lemma Qle_bool_false (x y : Q) : Qle_bool x y = false -> (y < x)%Q.
Proof.
  intros E. destruct (Qlt_le_dec y x) as [Hlt|Hle]; [exact Hlt|].
  apply Qle_bool_iff in Hle. congruence.
Qed.

(** X19: [getBufferHealth] and [getBufferStatus] name the same level for
    every argument, and an argument that converts to NaN (a missing field)
    is Critical.  For a number other than NaN the level agrees with the
    [ccpm_status] the buffer command derives from the same percentage:
    buffer_consumed is Critical, in_progress is Warning, not_started is
    Healthy or Caution. *)
Theorem buffer_health_matches_status_and_handler (percentage : value) (p : number) :
  (exists emoji status,
      getBufferStatus percentage = VObj [("emoji", VStr emoji); ("status", VStr status)]
      /\ getBufferHealth percentage = emoji +:+ " " +:+ status)
  /\ (toNumber percentage = NaN -> getBufferHealth percentage = "🔴 Critical")
  /\ (isNaN p = false ->
      (get_opt (bufferData p) "ccpm_status" = VStr "buffer_consumed"
       <-> getBufferHealth (VNum p) = "🔴 Critical")
      /\ (get_opt (bufferData p) "ccpm_status" = VStr "in_progress"
          <-> getBufferHealth (VNum p) = "🟠 Warning")
      /\ (get_opt (bufferData p) "ccpm_status" = VStr "not_started"
          <-> getBufferHealth (VNum p) = "🟢 Healthy"
              \/ getBufferHealth (VNum p) = "🟡 Caution")).
Proof.
  split; [|split].
  - unfold getBufferStatus, getBufferHealth.
    repeat case_match; by eexists _, _.
  - intros Hn. unfold getBufferHealth. by rewrite Hn.
  - intros Hp. unfold getBufferHealth, bufferData, get_opt. cbn [lookup_field String.eqb Ascii.eqb Bool.eqb toNumber].
    destruct p as [| | |q]; try discriminate Hp;
      [cbn; repeat split; intros; try discriminate; intuition discriminate ..|].
    cbn [gt le].
    destruct (Qle_bool q 25) eqn:E25; destruct (Qle_bool q 50) eqn:E50;
      destruct (Qle_bool q 75) eqn:E75; cbn [negb];
      repeat match goal with
        | E : Qle_bool _ _ = true |- _ => apply Qle_bool_iff in E
        | E : Qle_bool _ _ = false |- _ => apply Qle_bool_false in E
        end;
      try (exfalso; lra);
      repeat split; intros; try discriminate; try (intuition discriminate); auto.
Qed.

Lemma Qred_inject_Z (z : Z) : Qred (inject_Z z) = inject_Z z.
Proof.
  unfold Qred, inject_Z.
  pose proof (Z.ggcd_gcd z 1) as Hg. pose proof (Z.ggcd_correct_divisors z 1) as Hd.
  destruct (Z.ggcd z 1) as [g [aa bb]]. cbn [fst] in Hg. rewrite Z.gcd_1_r in Hg. subst g.
  destruct Hd as [Ha Hb]. rewrite Z.mul_1_l in Ha, Hb. by subst.
Qed.

Lemma numberToString_integer (x : Q) (z : Z) :
  (x == inject_Z z)%Q -> numberToString (Fin x) = showZ z.
Proof.
  intros Hx. unfold numberToString.
  rewrite (Qred_complete _ _ Hx).
  rewrite Qred_inject_Z.
  reflexivity.
Qed.

(** X20: for a whole number of minutes below 2^53 in absolute value
    [formatDuration] shows hours and minutes from 60 on, and below 60 the
    minutes alone: a negative duration is shown as its remainder (-90 as
    -30m), because the hours are floored and the minutes truncated.  The
    bound keeps the statement to the integers for which binary64, which
    the model replaces by exact arithmetic, computes the same quotient,
    remainder and digits. *)
Theorem formatDuration_of_integer (n : Z) :
  (- 2 ^ 53 < n < 2 ^ 53)%Z ->
  formatDuration (VNum (Fin (inject_Z n)))
  = if (60 <=? n)%Z
    then showZ (n / 60) +:+ "h " +:+ showZ (n mod 60) +:+ "m"
    else showZ (Z.rem n 60) +:+ "m".
Proof.
  intros _. unfold formatDuration. cbn [toNumber divBy mathFloor remBy].
  assert (Hf : Qfloor (inject_Z n / 60) = (n / 60)%Z).
  { unfold Qfloor. cbn. by rewrite Z.mul_1_r. }
  assert (Ht : Qtruncate (inject_Z n / 60) = (n ÷ 60)%Z).
  { unfold Qtruncate. cbn. by rewrite Z.mul_1_r. }
  rewrite Hf, Ht.
  assert (Hm : (inject_Z n - 60 * inject_Z (n ÷ 60) == inject_Z (Z.rem n 60))%Q).
  { rewrite (Z.rem_eq n 60) by lia.
    unfold Qeq, inject_Z. cbn. lia. }
  rewrite (numberToString_integer _ _ Hm).
  rewrite (numberToString_integer (inject_Z (n / 60)) (n / 60)) by reflexivity.
  assert (Hg : gt (Fin (inject_Z (n / 60))) (Fin 0) = (60 <=? n)%Z).
  { cbn [gt]. unfold Qle_bool. cbn [Qnum Qden inject_Z]. rewrite !Z.mul_1_r.
    change (Z.pos 1) with 1%Z. 
    destruct (Z.leb_spec 60 n) as [Hn|Hn].
    - assert (1 <= n / 60)%Z by (apply Z.div_le_lower_bound; lia).
      destruct (Z.leb_spec (n / 60) 0); [lia | reflexivity].
    - assert (n / 60 < 1)%Z by (apply Z.div_lt_upper_bound; lia).
      destruct (Z.leb_spec (n / 60) 0); [reflexivity | lia]. }
  rewrite Hg. destruct (Z.leb_spec 60 n) as [Hn|Hn]; [|reflexivity].
  rewrite Z.rem_mod_nonneg by lia. reflexivity.
Qed.

Lemma formatDuration_of_integer_witness :
  (- 2 ^ 53 < -90 < 2 ^ 53)%Z
  /\ formatDuration (VNum (Fin (inject_Z (-90)))) = "-30m"
  /\ formatDuration (VNum (Fin (inject_Z 135))) = "2h 15m".
Proof.
  split; [lia|]. split.
  - rewrite (formatDuration_of_integer (-90)) by lia. reflexivity.
  - rewrite (formatDuration_of_integer 135) by lia. reflexivity.
Defined.

(** * Further properties of the task commands *)

Lemma extractTaskId_app (before after : list string) :
  Forall (fun a => matchesDigits a = false) before ->
  extractTaskId (before ++ after) = extractTaskId after.
Proof.
  induction 1 as [|a before Ha _ IH]; [reflexivity|]. simpl. by rewrite Ha.
Qed.

(** X21: [parseCompletionArgs] leaves every all-digit argument out of the
    notes, wherever it stands, so a number in the notes is lost; the task
    id is the first all-digit argument, and [null] exactly when there is
    none. *)
Theorem completion_notes_drop_numeric_words (before after : list string) (arg : string) :
  matchesDigits arg = true ->
  get_opt (parseCompletionArgs (before ++ arg :: after)) "notes"
  = get_opt (parseCompletionArgs (before ++ after)) "notes"
  /\ (Forall (fun a => matchesDigits a = false) before ->
      get_opt (parseCompletionArgs (before ++ arg :: after)) "taskId" = VNum (parseInt arg))
  /\ (get_opt (parseCompletionArgs (before ++ after)) "taskId" = VNull
      <-> Forall (fun a => matchesDigits a = false) (before ++ after)).
Proof.
  intros Harg. unfold parseCompletionArgs, get_opt.
  cbn [lookup_field String.eqb Ascii.eqb Bool.eqb]. split; [|split].
  - rewrite !filter_app, filter_cons. by rewrite Harg.
  - intros Hb. rewrite (extractTaskId_app _ _ Hb). simpl. by rewrite Harg.
  - generalize (before ++ after)%list. intros args.
    induction args as [|a args IH]; simpl.
    + split; [constructor | reflexivity].
    + destruct (matchesDigits a) eqn:E.
      * split; [discriminate|]. intros Hall. apply Forall_cons in Hall as [Ha _]. congruence.
      * rewrite IH. split; [by constructor|]. by intros [_ ?]%Forall_cons.
Qed.

Lemma completion_notes_drop_numeric_words_witness :
  matchesDigits "3" = true
  /\ get_opt (parseCompletionArgs (["12"; "fixed"] ++ "3" :: ["bugs"])) "notes"
     = VStr "fixed bugs".
Proof.
  split; [reflexivity|].
  destruct (completion_notes_drop_numeric_words ["12"; "fixed"] ["bugs"] "3" eq_refl)
    as [Hnotes _].
  rewrite Hnotes. reflexivity.
Defined.

Section TaskHandlers.

Variable body : string -> string -> list value -> Api value.

(** X22: with the two id parsers of [TaskCommands] in place, on a
    configured plugin /pms-start-task and /pms-complete-task answer with
    their usage text when no argument is all digits or the first such
    argument is 0; neither [startTask] nor [completeTask] is called. *)
Theorem task_commands_need_a_positive_id (args : list string) (this : PMSPlugin) :
  configured this ->
  (forall a, body "taskCommands" "extractTaskId" [strings args] a
             = (Normal (extractTaskId args), a)) ->
  (forall a, body "taskCommands" "parseCompletionArgs" [strings args] a
             = (Normal (parseCompletionArgs args), a)) ->
  truthy (extractTaskId args) = false ->
  handleStartTaskCommand body args this
  = (Normal (VStr (formatError
                     (VStr "Please provide a valid task ID: /pms-start-task <task-id>")
                     VNull)), this)
  /\ handleCompleteTaskCommand body args this
     = (Normal (VStr (formatError
                        (VStr ("Please provide a valid task ID: "
                               +:+ "/pms-complete-task <task-id> [notes]"))
                        VNull)), this).
Proof.
  intros Hc Hextract Hparse Hid.
  destruct Hc as [[a Ha] Hconf].
  assert (Hc : configured this) by (split; [by exists a | exact Hconf]).
  destruct this as [cfg adapter commands]. cbn [api] in Ha. subst adapter.
  split.
  - unfold handleStartTaskCommand. rewrite (guarded_runs _ _ Hc). cbn [negb].
    unfold cmdTry, mbind, Cmd_bind, invoke, commandAdapter.
    cbn [api config criticalChainCommands String.eqb Ascii.eqb Bool.eqb].
    rewrite bool_decide_eq_true_2 by (vm_compute; tauto || set_solver).
    rewrite Hextract, Hid. reflexivity.
  - unfold handleCompleteTaskCommand. rewrite (guarded_runs _ _ Hc). cbn [negb].
    unfold cmdTry, mbind, Cmd_bind, invoke, commandAdapter.
    cbn [api config criticalChainCommands String.eqb Ascii.eqb Bool.eqb].
    rewrite bool_decide_eq_true_2 by set_solver.
    rewrite Hparse. unfold parseCompletionArgs, cmdLift, get.
    cbn [lookup_field String.eqb Ascii.eqb Bool.eqb]. rewrite Hid. reflexivity.
Qed.

End TaskHandlers.

Lemma task_commands_need_a_positive_id_witness :
  configured configuredPlugin
  /\ truthy (extractTaskId ["task"; "0"]) = false
  /\ handleStartTaskCommand taskParsers ["task"; "0"] configuredPlugin
     = (Normal (VStr (formatError
                        (VStr "Please provide a valid task ID: /pms-start-task <task-id>")
                        VNull)), configuredPlugin).
Proof.
  split; [exact configured_configuredPlugin|]. split; [reflexivity|].
  apply (task_commands_need_a_positive_id taskParsers ["task"; "0"] configuredPlugin
           configured_configuredPlugin (fun a => eq_refl) (fun a => eq_refl) eq_refl).
Defined.

Lemma startsWith_head (arg : string) (c : ascii) (p : string) :
  startsWith arg (String c p) = true -> exists rest, arg = String c rest.
Proof.
  unfold startsWith. destruct arg as [|c' rest]; simpl; [discriminate|].
  destruct (ascii_dec c c') as [<-|]; [by eexists | discriminate].
Qed.

Lemma explicitValue_snoc (prefix : string) (args : list string) (arg : string) :
  explicitValue prefix (args ++ [arg])%list
  = if startsWith arg prefix then Some (removeFirst prefix arg)
    else explicitValue prefix args.
Proof.
  unfold explicitValue. rewrite filter_app, map_app.
  destruct (startsWith arg prefix) eqn:E.
  - rewrite filter_cons_True by exact E. simpl. by rewrite last_snoc.
  - rewrite filter_cons_False by congruence. by rewrite filter_nil, app_nil_r.
Qed.

Lemma isFreeWord_snoc (args : list string) (arg : string) :
  filter (fun a => isFreeWord a = true) (args ++ [arg])%list
  = (filter (fun a => isFreeWord a = true) args ++ (if isFreeWord arg then [arg] else []))%list.
Proof.
  rewrite filter_app. f_equal. destruct (isFreeWord arg) eqn:E.
  - by rewrite filter_cons_True.
  - rewrite filter_cons_False by congruence. reflexivity.
Qed.

Ltac other_prefix :=
  repeat match goal with
    | H : startsWith ?a (String ?c _) = true |- context [startsWith ?a (String ?c' ?p)] =>
        lazymatch c with
        | c' => fail
        | _ =>
            let E := fresh in
            destruct (startsWith a (String c' p)) eqn:E;
            [apply startsWith_head in H as [? ->]; apply startsWith_head in E as [? E];
             discriminate E |]
        end
    end.

(** X23: in the object [parseTaskArgs] builds, the name is what follows
    'name:' in the last such argument when that is not empty, and the free
    words joined by spaces otherwise; so the free words are dropped when a
    name is given.  The description is what follows the last 'desc:', or
    the generated text when that is missing or empty. *)
Theorem parseTaskArgs_name_and_description (now : string) (args : list string) :
  exists fields,
    parseTaskArgs now args = VObj fields
    /\ lookup_field "name" fields
       = VStr (nonEmptyOr (explicitValue "name:" args)
                 (join " " (filter (fun a => isFreeWord a = true) args)))
    /\ lookup_field "description" fields
       = VStr (nonEmptyOr (explicitValue "desc:" args)
                 ("Created via Claude Code plugin at " +:+ now)).
Proof.
  unfold parseTaskArgs.
  match goal with |- context [fold_left ?f args _] => set (step := f) end.
  assert (Hinv : exists taskData textParts,
             fold_left step args ([], []) = (taskData, textParts)
             /\ textParts = filter (fun a => isFreeWord a = true) args
             /\ lookup_field "name" taskData = fieldOf (explicitValue "name:" args)
             /\ lookup_field "description" taskData = fieldOf (explicitValue "desc:" args)).
  { induction args as [|arg args IH] using rev_ind.
    - by eexists _, _.
    - destruct IH as (taskData & textParts & Hfold & Htext & Hname & Hdesc).
      rewrite fold_left_app, Hfold. cbn [fold_left]. unfold step at 1.
      rewrite !explicitValue_snoc, isFreeWord_snoc.
      change (isFreeWord arg) with
        (negb (startsWith arg "project:" || startsWith arg "estimate:"
               || startsWith arg "type:" || startsWith arg "name:"
               || startsWith arg "desc:")).
      destruct (startsWith arg "project:") eqn:E1;
        [other_prefix; eexists _, _; split; [reflexivity|]; cbn [orb negb];
         rewrite app_nil_r, !lookup_set_field_ne by discriminate; auto|].
      destruct (startsWith arg "estimate:") eqn:E2;
        [other_prefix; eexists _, _; split; [reflexivity|]; cbn [orb negb];
         rewrite app_nil_r, !lookup_set_field_ne by discriminate; auto|].
      destruct (startsWith arg "type:") eqn:E3;
        [other_prefix; eexists _, _; split; [reflexivity|]; cbn [orb negb];
         rewrite app_nil_r, !lookup_set_field_ne by discriminate; auto|].
      destruct (startsWith arg "name:") eqn:E4;
        [other_prefix; eexists _, _; split; [reflexivity|]; cbn [orb negb];
         rewrite app_nil_r, lookup_set_field_eq, lookup_set_field_ne by discriminate; auto|].
      destruct (startsWith arg "desc:") eqn:E5;
        [eexists _, _; split; [reflexivity|]; cbn [orb negb];
         rewrite app_nil_r, lookup_set_field_eq, lookup_set_field_ne by discriminate; auto|].
      eexists _, _. split; [reflexivity|]. cbn [orb negb]. rewrite Htext. auto. }
  destruct Hinv as (taskData & textParts & -> & -> & Hname & Hdesc).
  eexists. split; [reflexivity|].
  assert (Ht : forall o, truthy (fieldOf o) = match o with
                                              | Some s => negb (String.eqb s "")
                                              | None => false
                                              end) by (by intros []).
  rewrite Hname, Ht. 
  destruct (explicitValue "name:" args) as [name|] eqn:En;
    [destruct (String.eqb name "") eqn:Ee|]; cbn [negb nonEmptyOr]; try rewrite Ee;
    rewrite ?lookup_set_field_ne by discriminate; rewrite ?lookup_set_field_eq;
    rewrite ?Hname, ?Hdesc, ?Ht;
    (destruct (explicitValue "desc:" args) as [desc|] eqn:Ed;
     [destruct (String.eqb desc "") eqn:Ed'|]); cbn [negb nonEmptyOr]; try rewrite Ed';
    rewrite ?lookup_set_field_eq; rewrite ?lookup_set_field_ne by discriminate;
    rewrite ?lookup_set_field_eq; rewrite ?Hname, ?Hdesc; auto.
Qed.

(** * Further properties of the CCPM commands *)

Lemma tryCatch_caught_total (H : host) (body : Api value) (this : PMSAPI) :
  exists v this', tryCatch body (caught H) this = (Normal v, this').
Proof.
  unfold tryCatch. destruct (body this) as [[v|e] this']; eexists _, _; reflexivity.
Qed.

Lemma rendered_command (call : Api value) (render : value -> completion string)
  (what : string) (this this' : PMSAPI) (response : value) :
  call this = (Normal response, this') ->
  exists text,
    tryCatch
      (response ← call;
       text ← lift (render response);
       mret (VStr text))
      (fun error => mret (VStr (formatError (VStr (what +:+ err_message error)) VNull)))
      this
    = (Normal (VStr text), this')
    /\ forall t, render response = Normal t -> text = t.
Proof.
  intros Hcall. unfold tryCatch, mbind, Api_bind, lift. rewrite Hcall.
  destruct (render response) as [t|e]; eexists; (split; [reflexivity|]).
  - by intros ? [= <-].
  - discriminate.
Qed.

Lemma normalizedError_fields (v : value) :
  normalizedError v ->
  exists fields,
    v = VObj fields /\ truthy (lookup_field "success" fields) = false
    /\ truthy (lookup_field "message" fields) = true.
Proof.
  intros (message & status & data & rest & -> & Hm & _).
  eexists. split; [reflexivity|]. split; [reflexivity | exact Hm].
Qed.

Lemma handleError_TypeError_message (H : host) (what : string) :
  get_opt (handleError H (TypeError ("endpoints." +:+ what))) "message"
  = VStr ("endpoints." +:+ what).
Proof. unfold handleError. by destruct (development H). Qed.

(** X24: [updateBufferStatus], [recalculateCriticalChain],
    [getResourceLoading] and [identifyFeedingBuffers] of
    [CriticalChainCommands] never throw and send exactly what the adapter
    method sends.  When the answer of the adapter is an object without a
    truthy [success], also the body of a fulfilled request, the text is the
    error built from the answer's [message], or from the command's fallback
    text when there is none; for a normalized error that is its message.
    Away from the native backend the text is 'endpoints.<operation> is not a
    function' and nothing is sent. *)
Theorem ccpm_commands_report_what_the_adapter_returns (H : host)
  (projectId bufferData : value) (this : PMSAPI) :
  Forall (fun '(command, c, fallback) =>
            exists response this' text,
              perform H c this = (Normal response, this')
              /\ command this = (Normal (VStr text), this')
              /\ (forall fields,
                    response = VObj fields ->
                    truthy (lookup_field "success" fields) = false ->
                    text = formatError (or_else (lookup_field "message" fields)
                                          (VStr fallback)) VNull)
              /\ (normalizedError response ->
                  text = formatError (get_opt response "message") VNull)
              /\ (profileOf (systemType this) <> Laracollab ->
                  this' = this
                  /\ text = formatError
                             (VStr ("endpoints." +:+ operationOf c +:+ " is not a function"))
                             VNull))
    (renderedCommands H projectId bufferData).
Proof.
  assert (Hfail : forall (render : value -> completion string) fallback response text,
             (forall fields, truthy (lookup_field "success" fields) = false ->
                render (VObj fields)
                = Normal (formatError (or_else (lookup_field "message" fields)
                                         (VStr fallback)) VNull)) ->
             (forall t, render response = Normal t -> text = t) ->
             (forall fields,
                response = VObj fields ->
                truthy (lookup_field "success" fields) = false ->
                text = formatError (or_else (lookup_field "message" fields)
                                      (VStr fallback)) VNull)
             /\ (normalizedError response ->
                 text = formatError (get_opt response "message") VNull)).
  { intros render fallback response text Hrender Htext. split.
    - intros fields -> Hs. apply Htext, Hrender, Hs.
    - intros (fields & -> & Hs & Hm)%normalizedError_fields.
      rewrite (Htext _ (Hrender fields Hs)). unfold or_else, get_opt. by rewrite Hm. }
  unfold renderedCommands. repeat apply Forall_cons_2; [.. | apply Forall_nil_2]; simpl perform.
  - assert (exists response this', updateBufferStatus H projectId bufferData this = (Normal response, this'))
      as (response & this' & Hcall) by apply tryCatch_caught_total.
    destruct (rendered_command _ (CriticalChainCommands.renderBufferStatus projectId)
                "Error updating buffer status: " _ _ _ Hcall) as (text & Hrun & Htext).
    exists response, this', text. split; [exact Hcall|]. split; [exact Hrun|].
    destruct (Hfail (CriticalChainCommands.renderBufferStatus projectId)
                "Failed to update buffer status" response text) as [Hf Hn];
      [|exact Htext|].
    { intros fields Hs. unfold CriticalChainCommands.renderBufferStatus.
      cbn [get mbind completion_bind cbind]. by rewrite Hs. }
    split; [exact Hf|]. split; [exact Hn|]. intros Hp.
    assert (Hop : operationOf (UpdateBufferStatus projectId bufferData) ∈ ccpmOperations)
      by (apply (bool_decide_unpack _); vm_compute; exact I).
    assert (Hc : UpdateBufferStatus projectId bufferData <> GetCCPMDashboard) by discriminate.
    pose proof (ccpm_call_without_entry H (UpdateBufferStatus projectId bufferData) this Hp Hop Hc) as Hmissing.
    simpl perform in Hmissing. rewrite Hmissing in Hcall.
    injection Hcall as <- <-. split; [reflexivity|].
    rewrite Hn by apply handleError_normalized.
    by rewrite handleError_TypeError_message.
  - assert (exists response this', recalculateCriticalChain H projectId this = (Normal response, this'))
      as (response & this' & Hcall) by apply tryCatch_caught_total.
    destruct (rendered_command _ (CriticalChainCommands.renderRecalculation projectId)
                "Error recalculating critical chain: " _ _ _ Hcall) as (text & Hrun & Htext).
    exists response, this', text. split; [exact Hcall|]. split; [exact Hrun|].
    destruct (Hfail (CriticalChainCommands.renderRecalculation projectId)
                "Failed to recalculate critical chain" response text) as [Hf Hn];
      [|exact Htext|].
    { intros fields Hs. unfold CriticalChainCommands.renderRecalculation.
      cbn [get mbind completion_bind cbind]. by rewrite Hs. }
    split; [exact Hf|]. split; [exact Hn|]. intros Hp.
    assert (Hop : operationOf (RecalculateCriticalChain projectId) ∈ ccpmOperations)
      by (apply (bool_decide_unpack _); vm_compute; exact I).
    assert (Hc : RecalculateCriticalChain projectId <> GetCCPMDashboard) by discriminate.
    pose proof (ccpm_call_without_entry H (RecalculateCriticalChain projectId) this Hp Hop Hc) as Hmissing.
    simpl perform in Hmissing. rewrite Hmissing in Hcall.
    injection Hcall as <- <-. split; [reflexivity|].
    rewrite Hn by apply handleError_normalized.
    by rewrite handleError_TypeError_message.
  - assert (exists response this', getResourceLoading H projectId this = (Normal response, this'))
      as (response & this' & Hcall) by apply tryCatch_caught_total.
    destruct (rendered_command _ (CriticalChainCommands.renderResourceLoading projectId)
                "Error getting resource loading: " _ _ _ Hcall) as (text & Hrun & Htext).
    exists response, this', text. split; [exact Hcall|]. split; [exact Hrun|].
    destruct (Hfail (CriticalChainCommands.renderResourceLoading projectId)
                "Failed to get resource loading" response text) as [Hf Hn];
      [|exact Htext|].
    { intros fields Hs. unfold CriticalChainCommands.renderResourceLoading.
      cbn [get mbind completion_bind cbind]. by rewrite Hs. }
    split; [exact Hf|]. split; [exact Hn|]. intros Hp.
    assert (Hop : operationOf (GetResourceLoading projectId) ∈ ccpmOperations)
      by (apply (bool_decide_unpack _); vm_compute; exact I).
    assert (Hc : GetResourceLoading projectId <> GetCCPMDashboard) by discriminate.
    pose proof (ccpm_call_without_entry H (GetResourceLoading projectId) this Hp Hop Hc) as Hmissing.
    simpl perform in Hmissing. rewrite Hmissing in Hcall.
    injection Hcall as <- <-. split; [reflexivity|].
    rewrite Hn by apply handleError_normalized.
    by rewrite handleError_TypeError_message.
  - assert (exists response this', identifyFeedingBuffers H projectId this = (Normal response, this'))
      as (response & this' & Hcall) by apply tryCatch_caught_total.
    destruct (rendered_command _ (CriticalChainCommands.renderFeedingBuffers projectId)
                "Error identifying feeding buffers: " _ _ _ Hcall) as (text & Hrun & Htext).
    exists response, this', text. split; [exact Hcall|]. split; [exact Hrun|].
    destruct (Hfail (CriticalChainCommands.renderFeedingBuffers projectId)
                "Failed to identify feeding buffers" response text) as [Hf Hn];
      [|exact Htext|].
    { intros fields Hs. unfold CriticalChainCommands.renderFeedingBuffers.
      cbn [get mbind completion_bind cbind]. by rewrite Hs. }
    split; [exact Hf|]. split; [exact Hn|]. intros Hp.
    assert (Hop : operationOf (IdentifyFeedingBuffers projectId) ∈ ccpmOperations)
      by (apply (bool_decide_unpack _); vm_compute; exact I).
    assert (Hc : IdentifyFeedingBuffers projectId <> GetCCPMDashboard) by discriminate.
    pose proof (ccpm_call_without_entry H (IdentifyFeedingBuffers projectId) this Hp Hop Hc) as Hmissing.
    simpl perform in Hmissing. rewrite Hmissing in Hcall.
    injection Hcall as <- <-. split; [reflexivity|].
    rewrite Hn by apply handleError_normalized.
    by rewrite handleError_TypeError_message.
Qed.

(** * Further properties of the configuration manager *)

(** X25: [get] returns the default for a key whose stored value is falsy:
    for a key that is not a member of [Object.prototype], after
    [set(key, v)], [get(key, d)] is [v] when [v] is truthy and [d] (or
    [null]) otherwise, so a stored [false], 0 or empty string cannot be told
    from a missing key; the other keys are not affected. *)
Theorem stored_falsy_value_reads_as_default (config : list (string * value))
  (key : string) (v d : value) :
  key ∉ ConfigManager.inheritedKeys ->
  ConfigManager.get (ConfigManager.set config key v) key d
  = (if truthy v then v else orDefault d VNull)
  /\ (forall key', key' <> key ->
        ConfigManager.get (ConfigManager.set config key v) key' d
        = ConfigManager.get config key' d).
Proof.
  intros _. unfold ConfigManager.get, ConfigManager.set. split.
  - by rewrite lookup_set_field_eq.
  - intros key' Hne. by rewrite lookup_set_field_ne.
Qed.

Lemma stored_falsy_value_reads_as_default_witness :
  ("notifications" ∉ ConfigManager.inheritedKeys)
  /\ ConfigManager.get
       (ConfigManager.set ConfigManager.getDefaultConfig "notifications" (VBool false))
       "notifications" (VBool true)
     = VBool true.
Proof.
  assert (Hkey : "notifications" ∉ ConfigManager.inheritedKeys)
    by (apply (bool_decide_unpack _); vm_compute; exact I).
  split; [exact Hkey|].
  destruct (stored_falsy_value_reads_as_default ConfigManager.getDefaultConfig
              "notifications" (VBool false) (VBool true) Hkey) as [Hget _].
  rewrite Hget. reflexivity.
Defined.

Lemma lengthOf_truthy (v : value) :
  truthy v = true -> exists len, lengthOf v = Normal len.
Proof. destruct v; try discriminate; intros _; by eexists. Qed.

(** X26: [validateConfig] on an object never throws, and [valid] is true
    exactly when the list of errors is empty.  A valid configuration is a
    configured one ([isConfigured]) with a base URL that [new URL] accepts
    and a timeout that is falsy or neither below 5 nor above 300; a timeout
    that converts to NaN raises no error.  The default configuration is not
    valid: it lacks the base URL and the token. *)
Theorem valid_configuration_is_configured (validURL : string -> bool)
  (fields : list (string * value)) :
  (exists valid errors,
      ConfigManager.validateConfig validURL (VObj fields)
      = Normal (VObj [("valid", VBool valid); ("errors", VArr (map VStr errors))])
      /\ (valid = true <-> errors = [])
      /\ (valid = true ->
          isConfigured (VObj fields) = Normal true
          /\ validURL (toString (lookup_field "baseUrl" fields)) = true
          /\ (truthy (lookup_field "timeout" fields) = true ->
              lessThan (toNumber (lookup_field "timeout" fields)) (Fin 5) = false
              /\ gt (toNumber (lookup_field "timeout" fields)) (Fin 300) = false))
      /\ (truthy (lookup_field "timeout" fields) = false
          \/ toNumber (lookup_field "timeout" fields) = NaN ->
          "Timeout must be between 5 and 300 seconds" ∉ errors))
  /\ ConfigManager.validateConfig validURL (VObj ConfigManager.getDefaultConfig)
     = Normal (VObj [("valid", VBool false);
                     ("errors", VArr [VStr "Base URL is required";
                                      VStr "API token is required"])]).
Proof.
  split; [|reflexivity].
  unfold ConfigManager.validateConfig, isConfigured.
  cbn [get mbind completion_bind cbind].
  set (baseUrl := lookup_field "baseUrl" fields).
  set (apiToken := lookup_field "apiToken" fields).
  set (timeout := lookup_field "timeout" fields).
  destruct (truthy baseUrl) eqn:Eb; cbn [negb];
    [destruct (validURL (toString baseUrl)) eqn:Eu|];
    (destruct (truthy apiToken) eqn:Et; cbn [negb];
     [destruct (lengthOf_truthy apiToken Et) as [len ->]; cbn [mbind completion_bind cbind];
      destruct (lessThan (toNumber len) (Fin 10)) eqn:El|]);
    (destruct (truthy timeout) eqn:Em; cbn [andb];
     [destruct (lessThan (toNumber timeout) (Fin 5)) eqn:E5; cbn [orb];
      [|destruct (gt (toNumber timeout) (Fin 300)) eqn:E300]|]);
    eexists _, _; (split; [reflexivity|]); cbn [app length Nat.eqb];
    (split; [split; intros; (discriminate || reflexivity)|]);
    (split; [intros; try discriminate; repeat split; auto; discriminate|]);
    (intros [Hf|Hn]; try discriminate Hf;
     try (rewrite Hn in E5; discriminate E5);
     try (rewrite Hn in E300; discriminate E300));
    intros Hin;
    repeat (apply elem_of_cons in Hin as [Hin|Hin]; [discriminate Hin|]);
    by apply elem_of_nil in Hin.
Qed.

Lemma isConfigured_true (config : value) :
  isConfigured config = Normal true ->
  exists fields, config = VObj fields
    /\ truthy (lookup_field "baseUrl" fields) = true
    /\ truthy (lookup_field "apiToken" fields) = true.
Proof.
  unfold isConfigured. destruct config; try discriminate.
  cbn [get mbind completion_bind cbind]. intros Hc. eexists. split; [reflexivity|].
  destruct (truthy (lookup_field "baseUrl" fields)); [|discriminate].
  by injection Hc as ->.
Qed.

(** X27: whenever [initConfig] leaves an adapter in the plugin, whatever
    the kinds of the values in the configuration file, the configuration
    counts as configured and the adapter is on the native profile: the
    constructor is called without a backend identifier, so a [systemType]
    in the file is not used.  The adapter's base URL (less one trailing
    slash), token and timeout are those of the file; the timeout, which the
    configuration counts in seconds (30 when the file has none), is handed
    over unchanged, and the client counts it in milliseconds.  When the
    token is a string and the timeout an integer, the adapter is the one
    [constructor] builds from them, and the plugin around it is configured. *)
Theorem initConfig_builds_a_native_adapter (JSON_parse : string -> completion value)
  (file : readOutcome) (write : option error) (config : value) (adapter : adapterFields) :
  initConfig JSON_parse file write = (config, Some adapter) ->
  isConfigured config = Normal true
  /\ field_systemType adapter = VStr "laracollab"
  /\ exists data fields url,
       file = FileText data /\ JSON_parse data = Normal (VObj fields)
       /\ config = VObj fields
       /\ lookup_field "baseUrl" fields = VStr url
       /\ field_baseUrl adapter = stripTrailingSlash url
       /\ field_apiToken adapter = lookup_field "apiToken" fields
       /\ field_timeout adapter = or_else (lookup_field "timeout" fields) (VInt 30)
       /\ forall token milliseconds,
            field_apiToken adapter = VStr token ->
            asInteger (field_timeout adapter) = Some milliseconds ->
            exists a,
              constructor (VStr url) token (Some milliseconds) VUndefined = Normal a
              /\ configured (MkPMSPlugin config (Some a) AroundApi)
              /\ baseUrl a = field_baseUrl adapter
              /\ apiToken a = token
              /\ timeout a = milliseconds
              /\ systemType a = field_systemType adapter.
Proof.
  unfold initConfig, ConfigManager.loadConfig. intros Hinit.
  destruct file as [data|e|e].
  - destruct (JSON_parse data) as [parsed|e] eqn:Hparse; [|discriminate Hinit].
    destruct (isConfigured parsed) as [[|]|e] eqn:Hc;
      try (destruct parsed; discriminate Hinit).
    destruct (isConfigured_true parsed Hc) as (fields & -> & Hb & Ht).
    unfold ConfigManager.get, or_else in Hinit. cbn [orDefault] in Hinit.
    rewrite Hb, Ht in Hinit.
    assert (Htimeout : forall t, orDefault (if truthy t then t else VInt 30) (VInt 30000)
                                 = if truthy t then t else VInt 30).
    { intros t. destruct (truthy t) eqn:E; [|reflexivity].
      by destruct t. }
    unfold constructorFields in Hinit. rewrite Htimeout in Hinit. cbn [orDefault] in Hinit.
    destruct (lookup_field "baseUrl" fields) as [| | | |url| |] eqn:Eurl;
      try discriminate Hinit.
    injection Hinit as <- <-. cbn [field_systemType field_baseUrl field_apiToken field_timeout].
    split; [exact Hc|]. split; [reflexivity|].
    exists data, fields, url. unfold or_else. repeat split; auto.
    intros token milliseconds Htoken Hms. eexists. split; [reflexivity|].
    cbn [baseUrl apiToken timeout systemType default]. repeat split; auto.
  - unfold ConfigManager.saveConfig in Hinit. destruct write; discriminate Hinit.
  - discriminate Hinit.
Qed.

Lemma initConfig_builds_a_native_adapter_witness :
  exists config adapter,
    initConfig jiraConfigFile (FileText "") None = (config, Some adapter)
    /\ lookup_field "systemType" (spread config) = VStr "jira"
    /\ field_systemType adapter = VStr "laracollab"
    /\ field_timeout adapter = VInt 30.
Proof.
  eexists _, _. split; [reflexivity|]. split; [reflexivity|].
  destruct (initConfig_builds_a_native_adapter jiraConfigFile (FileText "") None _ _ eq_refl)
    as (_ & Hsystem & _).
  split; [exact Hsystem | reflexivity].
Defined.

Lemma lookup_delete_field_ne (k k' : string) (fs : list (string * value)) :
  k <> k' -> lookup_field k (delete_field k' fs) = lookup_field k fs.
Proof.
  intros Hne. induction fs as [|[k0 v0] fs IH]; [reflexivity|]. simpl.
  destruct (String.eqb k' k0) eqn:E; simpl.
  - apply String.eqb_eq in E as <-. by rewrite (proj2 (String.eqb_neq k k') Hne).
  - by rewrite IH.
Qed.

(** X28: importing a file that holds what [exportConfig] wrote for a
    configuration with a valid base URL, a token and an accepted timeout
    succeeds: the export's token '[REDACTED]' is ten characters long and
    passes the validation.  Afterwards the configuration holds
    '[REDACTED]' as its token and counts as configured; every key but
    apiToken, exportedAt and version is as in the exported
    configuration. *)
Theorem imported_export_is_configured_with_redacted_token
  (JSON_parse : string -> completion value) (validURL : string -> bool)
  (now data : string) (fields exported : list (string * value)) (this_config : value) :
  ConfigManager.exportData now (VObj fields) = Normal exported ->
  JSON_parse data = Normal (VObj exported) ->
  truthy (lookup_field "baseUrl" fields) = true ->
  validURL (toString (lookup_field "baseUrl" fields)) = true ->
  truthy (lookup_field "apiToken" fields) = true ->
  acceptedTimeout (lookup_field "timeout" fields) ->
  exists imported,
    ConfigManager.importConfig JSON_parse validURL (FileText data) None this_config
    = (Normal true, VObj imported)
    /\ lookup_field "apiToken" imported = VStr "[REDACTED]"
    /\ isConfigured (VObj imported) = Normal true
    /\ forall k, k ∉ ["apiToken"; "exportedAt"; "version"] ->
                 lookup_field k imported = lookup_field k fields.
Proof.
  intros Hexport Hparse Hb Hu Ht Hm.
  unfold ConfigManager.exportData in Hexport. cbn [get mbind completion_bind cbind spread] in Hexport.
  rewrite Ht in Hexport. injection Hexport as <-.
  set (exported := set_field "version" _ _) in *.
  set (imported := delete_field "version" (delete_field "exportedAt" exported)).
  assert (Hkeep : forall k, k ∉ ["apiToken"; "exportedAt"; "version"] ->
                            lookup_field k imported = lookup_field k fields).
  { intros k Hk. unfold imported, exported.
    assert (k <> "apiToken" /\ k <> "exportedAt" /\ k <> "version") as (H1 & H2 & H3).
    { repeat split; intros ->; apply Hk; set_solver. }
    by rewrite !lookup_delete_field_ne, !lookup_set_field_ne. }
  assert (Htoken : lookup_field "apiToken" imported = VStr "[REDACTED]").
  { unfold imported, exported.
    rewrite !lookup_delete_field_ne, !lookup_set_field_ne by discriminate.
    apply lookup_set_field_eq. }
  assert (Hbase : lookup_field "baseUrl" imported = lookup_field "baseUrl" fields).
  { apply Hkeep. apply (bool_decide_unpack _). vm_compute. exact I. }
  assert (Htimeout : lookup_field "timeout" imported = lookup_field "timeout" fields).
  { apply Hkeep. apply (bool_decide_unpack _). vm_compute. exact I. }
  assert (Hvalid : ConfigManager.validateConfig validURL (VObj imported)
                   = Normal (VObj [("valid", VBool true); ("errors", VArr [])])).
  { unfold ConfigManager.validateConfig. cbn [get mbind completion_bind cbind].
    rewrite Hbase, Htoken, Htimeout, Hb, Hu. cbn [negb truthy String.eqb].
    cbn [lengthOf mbind completion_bind cbind].
    assert (Hlen : lessThan (toNumber (VInt (Z.of_nat (utf16Length "[REDACTED]")))) (Fin 10)
                   = false) by reflexivity.
    rewrite Hlen.
    destruct Hm as [Hm | [H5 H300]]; [rewrite Hm | rewrite H5, H300, andb_false_r];
      reflexivity. }
  exists imported. split; [|split; [exact Htoken|split; [|exact Hkeep]]].
  - unfold ConfigManager.importConfig. cbn [mbind completion_bind cbind]. rewrite Hparse.
    cbn [mbind completion_bind cbind ConfigManager.dropExportFields].
    fold imported. rewrite Hvalid. reflexivity.
  - unfold isConfigured. cbn [get mbind completion_bind cbind].
    by rewrite Hbase, Htoken, Hb.
Qed.

Lemma imported_export_is_configured_with_redacted_token_witness :
  exists imported,
    ConfigManager.importConfig
      (fun _ => Normal (VObj [("baseUrl", VStr "https://pms.test"); 
                              ("apiToken", VStr "[REDACTED]");
                              ("exportedAt", VStr "2025-01-01T00:00:00.000Z");
                              ("version", VStr "1.0.0")]))
      (fun _ => true) (FileText "") None (VObj [])
    = (Normal true, VObj imported)
    /\ lookup_field "apiToken" imported = VStr "[REDACTED]".
Proof.
  destruct (imported_export_is_configured_with_redacted_token
              (fun _ => Normal (VObj [("baseUrl", VStr "https://pms.test"); 
                                      ("apiToken", VStr "[REDACTED]");
                                      ("exportedAt", VStr "2025-01-01T00:00:00.000Z");
                                      ("version", VStr "1.0.0")]))
              (fun _ => true) "2025-01-01T00:00:00.000Z" ""
              [("baseUrl", VStr "https://pms.test"); ("apiToken", VStr "secret-token")]
              _ (VObj []) eq_refl eq_refl eq_refl eq_refl eq_refl (or_introl eq_refl))
    as (imported & Himport & Htoken & _).
  exists imported. split; [exact Himport | exact Htoken].
Defined.

Lemma has_field_absent (k : string) (fs : list (string * value)) :
  k ∉ map fst fs -> has_field k fs = false.
Proof.
  induction fs as [|[k0 v0] fs IH]; [reflexivity|]. cbn [map fst has_field].
  rewrite not_elem_of_cons. intros [Hne Hk].
  by rewrite (proj2 (String.eqb_neq k k0) Hne), (IH Hk).
Qed.

Lemma lookup_merge (k : string) (b a : list (string * value)) :
  NoDup (map fst b) ->
  lookup_field k (merge a b)
  = if has_field k b then lookup_field k b else lookup_field k a.
Proof.
  unfold merge. revert a. induction b as [|[k0 v0] b IH]; intros a Hnd; [reflexivity|].
  cbn [fold_left map fst] in *. apply NoDup_cons in Hnd as [Hk0 Hnd].
  rewrite (IH _ Hnd). cbn [has_field lookup_field].
  destruct (String.eqb k k0) eqn:E; cbn [orb].
  - apply String.eqb_eq in E as ->.
    rewrite (has_field_absent _ _ Hk0). apply lookup_set_field_eq.
  - destruct (has_field k b); [reflexivity|].
    apply lookup_set_field_ne. by apply String.eqb_neq.
Qed.

(** X29: [saveConfig] assigns the merged configuration before it writes:
    a key of the argument takes the argument's value, every other key keeps
    its value, and a falsy argument changes nothing.  When the write fails
    the call throws 'Failed to save configuration: ...' and [this.config]
    is the merged one all the same. *)
Theorem saveConfig_merges_before_it_writes (write : option error)
  (config this_config : value) :
  NoDup (map fst (spread config)) ->
  (truthy config = false ->
   snd (ConfigManager.saveConfig write config this_config) = this_config)
  /\ (truthy config = true ->
      exists merged,
        snd (ConfigManager.saveConfig write config this_config) = VObj merged
        /\ forall k,
             lookup_field k merged
             = if has_field k (spread config) then lookup_field k (spread config)
               else lookup_field k (spread this_config))
  /\ fst (ConfigManager.saveConfig write config this_config)
     = match write with
       | None => Normal (snd (ConfigManager.saveConfig write config this_config))
       | Some error =>
           Throw (Error ("Failed to save configuration: " +:+ err_message error))
       end.
Proof.
  intros Hnd. unfold ConfigManager.saveConfig. repeat split.
  - intros ->. by destruct write.
  - intros ->. eexists. split; [by destruct write|].
    intros k. by apply lookup_merge.
  - by destruct write.
Qed.

Lemma saveConfig_merges_before_it_writes_witness :
  NoDup (map fst (spread (VObj [("timeout", VInt 60)])))
  /\ exists merged,
       ConfigManager.saveConfig (Some (Error "EACCES: permission denied"))
         (VObj [("timeout", VInt 60)]) (VObj ConfigManager.getDefaultConfig)
       = (Throw (Error "Failed to save configuration: EACCES: permission denied"),
          VObj merged)
       /\ lookup_field "timeout" merged = VInt 60.
Proof.
  assert (Hnd : NoDup (map fst (spread (VObj [("timeout", VInt 60)]))))
    by (apply (bool_decide_unpack _); vm_compute; exact I).
  split; [exact Hnd|].
  destruct (saveConfig_merges_before_it_writes (Some (Error "EACCES: permission denied"))
              (VObj [("timeout", VInt 60)]) (VObj ConfigManager.getDefaultConfig) Hnd)
    as (_ & Hmerge & Hresult).
  destruct (Hmerge eq_refl) as (merged & Hafter & Hlookup).
  exists merged. split.
  - rewrite (surjective_pairing (ConfigManager.saveConfig _ _ _)), Hresult, Hafter.
    reflexivity.
  - rewrite Hlookup. reflexivity.
Defined.
